(** * Shape-adaptive policy and value networks of [portfolio_models.py]

    A shallow embedding of [PortfolioCritic], [AssetEncoder] and
    [EnhancedPortfolioActor].

    - A tensor is a nested list that carries its shape: rank 2 for a batch
      of vectors, rank 3 for the per-asset view.  [forward] takes either
      rank, since nothing in the source stops a caller from passing a
      tensor with one more trailing dimension.
    - Scalars are real numbers; the rounding of 32-bit floats is not
      modelled.
    - A Python exception is a value of [exn].  A method that mutates [self]
      is a function from the object to the updated object and either a
      result or the exception raised; what was written before an exception
      stays written.
    - torch's global generator is a record that is passed along with the
      actor, whose lazily built layers draw from it. *)

From Stdlib Require Import List ZArith Lia Bool Arith PeanoNat.
From Stdlib Require Import Reals Lra Permutation.
Import ListNotations.


(* ===================================================================== *)
(** ** Exceptions and the state-and-exception monad *)
(* ===================================================================== *)

Inductive exn : Type :=
| RuntimeError
| ZeroDivisionError
| ValueError
| AttributeError
| TypeError.

Inductive result (A : Type) : Type :=
| Ok (a : A)
| Raise (e : exn).
Arguments Ok {A} a.
Arguments Raise {A} e.

(** A method body: it reads and writes the object [St] and either returns
    or raises.  What was written before an exception stays written. *)
Definition M (St A : Type) : Type := St -> St * result A.

Definition ret {St A} (a : A) : M St A := fun s => (s, Ok a).

Definition raise {St A} (e : exn) : M St A := fun s => (s, Raise e).

Definition bind {St A B} (m : M St A) (k : A -> M St B) : M St B :=
  fun s =>
    match m s with
    | (s', Ok a) => k a s'
    | (s', Raise e) => (s', Raise e)
    end.

Definition get {St} : M St St := fun s => (s, Ok s).

Definition put {St} (s : St) : M St unit := fun _ => (s, Ok tt).

Definition lift_result {St A} (r : result A) : M St A := fun s => (s, r).

Definition bind_result {A B} (r : result A) (k : A -> result B) : result B :=
  match r with Ok a => k a | Raise e => Raise e end.

(** [try: body except RuntimeError: handler].  Other exceptions pass. *)
Definition try_except_RuntimeError {St A} (body : M St A) (handler : M St A)
  : M St A :=
  fun s =>
    match body s with
    | (s', Raise RuntimeError) => handler s'
    | other => other
    end.

Declare Scope monad_scope.
Delimit Scope monad_scope with monad.
Notation "x <- c ;; k" := (bind c (fun x => k))
  (at level 61, c at next level, right associativity) : monad_scope.
Notation "c ;;; k" := (bind c (fun _ => k))
  (at level 61, right associativity) : monad_scope.

(* ===================================================================== *)
(** ** Lists of scalars *)
(* ===================================================================== *)

Definition Rsum (l : list R) : R := fold_right Rplus 0%R l.

Definition dot (u v : list R) : R :=
  Rsum (map (fun p => (fst p * snd p)%R) (combine u v)).

Definition zip_with {A B C} (f : A -> B -> C) (u : list A) (v : list B)
  : list C :=
  map (fun p => f (fst p) (snd p)) (combine u v).

(** [chunks k n l]: the first [n] consecutive pieces of length [k] of [l]. *)
Fixpoint chunks {A} (k n : nat) (l : list A) : list (list A) :=
  match n with
  | O => []
  | S n' => firstn k l :: chunks k n' (skipn k l)
  end.

(* ===================================================================== *)
(** ** Tensors *)
(* ===================================================================== *)

(** A tensor of shape [(length rows, cols)]. *)
Record tensor2 : Type := T2 { cols : nat; rows : list (list R) }.

(** A tensor of shape [(length slabs, dim1, dim2)]. *)
Record tensor3 : Type :=
  T3 { dim1 : nat; dim2 : nat; slabs : list (list (list R)) }.

(** What a caller may pass as [state]: a batch of vectors, or a tensor with
    one more trailing dimension. *)
Inductive tensor : Type :=
| Rank2 (t : tensor2)
| Rank3 (t : tensor3).

Definition wf2 (t : tensor2) : Prop :=
  Forall (fun r => length r = cols t) (rows t).

Definition wf3 (t : tensor3) : Prop :=
  Forall (fun s => length s = dim1 t /\
                   Forall (fun c => length c = dim2 t) s) (slabs t).

Definition wf (t : tensor) : Prop :=
  match t with Rank2 a => wf2 a | Rank3 a => wf3 a end.

(** [t.size(0)], [t.size(1)], [t.numel()]. *)
Definition size0 (t : tensor) : nat :=
  match t with Rank2 a => length (rows a) | Rank3 a => length (slabs a) end.

Definition size1 (t : tensor) : nat :=
  match t with Rank2 a => cols a | Rank3 a => dim1 a end.

Definition numel (t : tensor) : nat :=
  match t with
  | Rank2 a => length (rows a) * cols a
  | Rank3 a => length (slabs a) * dim1 a * dim2 a
  end.

(** The elements in row-major order. *)
Definition flat (t : tensor) : list R :=
  match t with
  | Rank2 a => concat (rows a)
  | Rank3 a => concat (map (@concat R) (slabs a))
  end.

(** [torch.zeros(b, p)]. *)
Definition zeros (b p : nat) : tensor2 :=
  T2 p (repeat (repeat 0%R p) b).

(** [t[:, :k]] and [t[:, k:]] for [0 <= k]. *)
Definition slice_to (k : nat) (t : tensor) : tensor :=
  match t with
  | Rank2 a => Rank2 (T2 (Nat.min k (cols a)) (map (firstn k) (rows a)))
  | Rank3 a =>
      Rank3 (T3 (Nat.min k (dim1 a)) (dim2 a) (map (firstn k) (slabs a)))
  end.

Definition slice_from (k : nat) (t : tensor) : tensor :=
  match t with
  | Rank2 a => Rank2 (T2 (cols a - k) (map (skipn k) (rows a)))
  | Rank3 a => Rank3 (T3 (dim1 a - k) (dim2 a) (map (skipn k) (slabs a)))
  end.

(** Python's reading of a slice bound [i] on an axis of length [len]:
    a negative bound counts from the end, and the result is clamped. *)
Definition slice_bound (i : Z) (len : nat) : nat :=
  if (i <? 0)%Z then Z.to_nat (Z.max 0 (Z.of_nat len + i))
  else Nat.min (Z.to_nat i) len.

Definition map_result {A B} (f : A -> B) (r : result A) : result B :=
  match r with Ok a => Ok (f a) | Raise e => Raise e end.

(** [torch.cat((a, b), dim=1)]: same rank, and every other dimension must
    agree. *)
Definition cat2 (x y : tensor2) : result tensor2 :=
  if length (rows x) =? length (rows y)
  then Ok (T2 (cols x + cols y) (zip_with (@app R) (rows x) (rows y)))
  else Raise RuntimeError.

Definition cat3 (x y : tensor3) : result tensor3 :=
  if (length (slabs x) =? length (slabs y)) && (dim2 x =? dim2 y)
  then Ok (T3 (dim1 x + dim1 y) (dim2 x)
              (zip_with (@app (list R)) (slabs x) (slabs y)))
  else Raise RuntimeError.

Definition cat1 (a b : tensor) : result tensor :=
  match a, b with
  | Rank2 x, Rank2 y => map_result Rank2 (cat2 x y)
  | Rank3 x, Rank3 y => map_result Rank3 (cat3 x y)
  | _, _ => Raise RuntimeError
  end.

(** [t.view(b, n, k)]: refused when the element counts differ; otherwise
    the elements keep their row-major order.  (The tensors that reach a
    view here are column slices and concatenations, whose trailing
    dimensions torch can always split or merge without a copy.) *)
Definition view3 (t : tensor) (b n k : nat) : result tensor3 :=
  if numel t =? b * n * k
  then Ok (T3 n k (map (chunks k n) (chunks (n * k) b (flat t))))
  else Raise RuntimeError.

(** [t.view(b, w)]. *)
Definition view2 (t : tensor) (b w : nat) : result tensor2 :=
  if numel t =? b * w
  then Ok (T2 w (chunks w b (flat t)))
  else Raise RuntimeError.

(** [F.relu]. *)
Definition relu (x : R) : R := Rmax 0 x.

Definition relu2 (t : tensor2) : tensor2 :=
  T2 (cols t) (map (map relu) (rows t)).

Definition relu3 (t : tensor3) : tensor3 :=
  T3 (dim1 t) (dim2 t) (map (map (map relu)) (slabs t)).

(* ===================================================================== *)
(** ** The random generator *)
(* ===================================================================== *)

(** torch's global generator: [algorithm seed] is the sequence of samples
    of the unit interval that the seed determines, [stream] the sequence in
    use and [position] how many samples were consumed. *)
Record generator : Type :=
  Gen { algorithm : Z -> nat -> R; stream : nat -> R; position : nat }.

(** The seeds [torch.manual_seed] accepts: what fits 64 bits, signed or
    unsigned. *)
Definition seed_in_range (seed : Z) : bool :=
  (- 2 ^ 63 <=? seed)%Z && (seed <=? 2 ^ 64 - 1)%Z.

(** The generator after a seed was set: a negative seed stands for the
    unsigned number with the same 64 bits. *)
Definition reseeded (seed : Z) (g : generator) : generator :=
  Gen (algorithm g) (algorithm g (seed mod 2 ^ 64)%Z) 0.

(** [torch.manual_seed(seed)]: a seed outside 64 bits is refused with a
    RuntimeError. *)
Definition manual_seed (seed : Z) : M generator unit :=
  fun g =>
    if seed_in_range seed then (reseeded seed g, Ok tt)
    else (g, Raise RuntimeError).

(** One sample of [U(lo, hi)]: the unit sample scaled and shifted. *)
Definition sample (lo hi : R) (g : generator) : R * generator :=
  ((lo + stream g (position g) * (hi - lo))%R,
   Gen (algorithm g) (stream g) (S (position g))).

Fixpoint sample_list (n : nat) (lo hi : R) (g : generator)
  : list R * generator :=
  match n with
  | O => ([], g)
  | S n' =>
      let (x, g1) := sample lo hi g in
      let (xs, g2) := sample_list n' lo hi g1 in
      (x :: xs, g2)
  end.

Fixpoint sample_matrix (r c : nat) (lo hi : R) (g : generator)
  : list (list R) * generator :=
  match r with
  | O => ([], g)
  | S r' =>
      let (x, g1) := sample_list c lo hi g in
      let (xs, g2) := sample_matrix r' c lo hi g1 in
      (x :: xs, g2)
  end.

(** The samples of the unit interval lie in it. *)
Definition unit_samples (g : generator) : Prop :=
  forall i, (0 <= stream g i < 1)%R.

(* ===================================================================== *)
(** ** Layers *)
(* ===================================================================== *)

(** [nn.Linear]: [weight] has shape [(out_features, in_features)]. *)
Record Linear : Type :=
  mkLinear { in_features : nat; out_features : nat;
             weight : list (list R); bias : list R }.

Definition wf_linear (l : Linear) : Prop :=
  length (weight l) = out_features l /\
  length (bias l) = out_features l /\
  Forall (fun r => length r = in_features l) (weight l).

(** A bound computed with numpy: [1.0 / np.sqrt(0)] is [inf]. *)
Inductive limit : Type :=
| Finite (r : R)
| Inf.

Definition inv_sqrt (fan_in : nat) : limit :=
  if fan_in =? 0 then Inf else Finite (1 / sqrt (INR fan_in))%R.

(** [hidden_init(layer)]: the bound [lim] of the pair [(-lim, lim)]. *)
Definition hidden_init (layer : Linear) : limit :=
  inv_sqrt (in_features layer).

(** [nn.Linear(i, o)]: the constructor draws the default parameters, both
    within [1/sqrt(i)]; with [i = 0] the weight has no elements and is
    left alone, and the bias is drawn within 0. *)
Definition nn_Linear (i o : nat) : M generator Linear :=
  fun g =>
    match inv_sqrt i with
    | Inf =>
        let (c, g1) := sample_list o (- 0) 0 g in
        (g1, Ok (mkLinear i o (repeat [] o) c))
    | Finite b =>
        let (w, g1) := sample_matrix o i (- b) b g in
        let (c, g2) := sample_list o (- b) b g1 in
        (g2, Ok (mkLinear i o w c))
    end.

(** [layer.weight.data.uniform_(-lim, lim)]: torch refuses an infinite
    bound with a RuntimeError. *)
Definition weight_uniform_ (lim : limit) (layer : Linear)
  : M generator Linear :=
  fun g =>
    match lim with
    | Inf => (g, Raise RuntimeError)
    | Finite b =>
        let (w, g1) :=
          sample_matrix (out_features layer) (in_features layer) (- b) b g in
        (g1, Ok (mkLinear (in_features layer) (out_features layer) w
                          (bias layer)))
    end.

(** [layer.bias.data.fill_(0)]. *)
Definition bias_fill_0 (layer : Linear) : Linear :=
  mkLinear (in_features layer) (out_features layer) (weight layer)
           (repeat 0%R (out_features layer)).

(** The layer applied to one vector. *)
Definition linear_vec (l : Linear) (x : list R) : list R :=
  zip_with (fun w b => (dot w x + b)%R) (weight l) (bias l).

(** The layer applied along the last dimension, which must be
    [in_features]. *)
Definition linear2 (l : Linear) (t : tensor2) : result tensor2 :=
  if cols t =? in_features l
  then Ok (T2 (out_features l) (map (linear_vec l) (rows t)))
  else Raise RuntimeError.

Definition linear3 (l : Linear) (t : tensor3) : result tensor3 :=
  if dim2 t =? in_features l
  then Ok (T3 (dim1 t) (out_features l)
              (map (map (linear_vec l)) (slabs t)))
  else Raise RuntimeError.

(** A layer applied to a tensor of either rank. *)
Definition linear (l : Linear) (t : tensor) : result tensor :=
  match t with
  | Rank2 a => map_result Rank2 (linear2 l a)
  | Rank3 a => map_result Rank3 (linear3 l a)
  end.

Definition relu_t (t : tensor) : tensor :=
  match t with
  | Rank2 a => Rank2 (relu2 a)
  | Rank3 a => Rank3 (relu3 a)
  end.

Definition eps : R := (1 / 100000)%R.

Definition mean (l : list R) : R := (Rsum l / INR (length l))%R.

(** The variance that divides by the number of values. *)
Definition variance (l : list R) : R :=
  mean (map (fun x => ((x - mean l) * (x - mean l))%R) l).

(** [nn.LayerNorm(n)]: scale ones, shift zeros. *)
Record LayerNorm : Type :=
  mkLayerNorm { normalized_shape : nat; ln_weight : list R;
                ln_bias : list R }.

Definition nn_LayerNorm (n : nat) : LayerNorm :=
  mkLayerNorm n (repeat 1%R n) (repeat 0%R n).

Definition layer_norm_vec (ln : LayerNorm) (x : list R) : list R :=
  zip_with (fun p b => (fst p * snd p + b)%R)
    (combine (map (fun v => ((v - mean x) / sqrt (variance x + eps))%R) x)
             (ln_weight ln))
    (ln_bias ln).

(** The last dimension must be [normalized_shape]. *)
Definition layer_norm (ln : LayerNorm) (t : tensor) : result tensor :=
  match t with
  | Rank2 a =>
      if cols a =? normalized_shape ln
      then Ok (Rank2 (T2 (cols a) (map (layer_norm_vec ln) (rows a))))
      else Raise RuntimeError
  | Rank3 a =>
      if dim2 a =? normalized_shape ln
      then Ok (Rank3 (T3 (dim1 a) (dim2 a)
                         (map (map (layer_norm_vec ln)) (slabs a))))
      else Raise RuntimeError
  end.

(** [nn.BatchNorm1d(n)] with momentum 0.1. *)
Record BatchNorm1d : Type :=
  mkBatchNorm { num_features : nat; bn_weight : list R; bn_bias : list R;
                running_mean : list R; running_var : list R;
                num_batches_tracked : nat; training : bool }.

Definition nn_BatchNorm1d (n : nat) : BatchNorm1d :=
  mkBatchNorm n (repeat 1%R n) (repeat 0%R n) (repeat 0%R n)
              (repeat 1%R n) 0 true.

(** Column [j] of a batch. *)
Definition column (j : nat) (rs : list (list R)) : list R :=
  map (fun r => nth j r 0%R) rs.

Definition normalize_row (mu var gamma beta r : list R) : list R :=
  zip_with (fun p q => (fst p * fst q + snd q)%R)
    (combine (zip_with (fun x ms => ((x - fst ms) / sqrt (snd ms + eps))%R)
                r (combine mu var))
             r)
    (combine gamma beta).

Definition momentum : R := (1 / 10)%R.

(** What [BatchNorm1d.forward] does first in training mode: one more batch
    is counted, whatever happens afterwards. *)
Definition count_batch (bn : BatchNorm1d) : BatchNorm1d :=
  mkBatchNorm (num_features bn) (bn_weight bn) (bn_bias bn)
              (running_mean bn) (running_var bn)
              (S (num_batches_tracked bn)) (training bn).

(** In training mode the batch is counted first; then a single value per
    channel is refused with a ValueError, and after that a width other
    than [num_features] with a RuntimeError; otherwise the batch statistics
    normalise the batch and move the running statistics (the running
    variance with the unbiased estimate).  In evaluation mode the running
    statistics are used and nothing is written. *)
Definition batch_norm (t : tensor2) : M BatchNorm1d tensor2 :=
  fun bn =>
    if training bn then
      if length (rows t) =? 1 then (count_batch bn, Raise ValueError)
      else if negb (cols t =? num_features bn)
      then (count_batch bn, Raise RuntimeError)
      else
        let b := INR (length (rows t)) in
        let js := seq 0 (cols t) in
        let mu := map (fun j => mean (column j (rows t))) js in
        let var := map (fun j => variance (column j (rows t))) js in
        let unbiased := map (fun v => (v * b / (b - 1))%R) var in
        let move := fun old new =>
          ((1 - momentum) * old + momentum * new)%R in
        (mkBatchNorm (num_features bn) (bn_weight bn) (bn_bias bn)
           (zip_with move (running_mean bn) mu)
           (zip_with move (running_var bn) unbiased)
           (S (num_batches_tracked bn)) true,
         Ok (T2 (cols t)
               (map (normalize_row mu var (bn_weight bn) (bn_bias bn))
                    (rows t))))
    else if negb (cols t =? num_features bn) then (bn, Raise RuntimeError)
    else
      (bn,
       Ok (T2 (cols t)
             (map (normalize_row (running_mean bn) (running_var bn)
                                 (bn_weight bn) (bn_bias bn))
                  (rows t)))).

Local Open Scope monad_scope.

(** [layer.weight.data.uniform_] with the bounds of [hidden_init(layer)],
    followed by [layer.bias.data.fill_(0)]. *)
Definition reset_hidden (layer : Linear) : M generator Linear :=
  l <- weight_uniform_ (hidden_init layer) layer ;;
  ret (bias_fill_0 l).

(** [layer.weight.data.uniform_(-3e-4, 3e-4)] followed by
    [layer.bias.data.fill_(0)]. *)
Definition output_bound : R := (3 / 10000)%R.

Definition reset_output (layer : Linear) : M generator Linear :=
  l <- weight_uniform_ (Finite output_bound) layer ;;
  ret (bias_fill_0 l).

(* ===================================================================== *)
(** ** PortfolioCritic *)
(* ===================================================================== *)

Module PortfolioCritic.

Record t : Type :=
  mk { use_batch_norm : bool;
       fcs1 : Linear; fc2 : Linear; fc3 : Linear; fc4 : Linear;
       bn1 : option BatchNorm1d; bn2 : option BatchNorm1d;
       bn3 : option BatchNorm1d }.

Definition set_bn1 (b : BatchNorm1d) (c : t) : t :=
  mk (use_batch_norm c) (fcs1 c) (fc2 c) (fc3 c) (fc4 c)
     (Some b) (bn2 c) (bn3 c).
Definition set_bn2 (b : BatchNorm1d) (c : t) : t :=
  mk (use_batch_norm c) (fcs1 c) (fc2 c) (fc3 c) (fc4 c)
     (bn1 c) (Some b) (bn3 c).
Definition set_bn3 (b : BatchNorm1d) (c : t) : t :=
  mk (use_batch_norm c) (fcs1 c) (fc2 c) (fc3 c) (fc4 c)
     (bn1 c) (bn2 c) (Some b).

(** [__init__] with [reset_parameters]. *)
Definition init (state_size action_size : nat) (seed : Z)
           (fcs1_units fc2_units fc3_units : nat) (use_bn : bool)
  : M generator t :=
  manual_seed seed ;;;
  l1 <- nn_Linear (state_size + action_size) fcs1_units ;;
  l2 <- nn_Linear fcs1_units fc2_units ;;
  l3 <- nn_Linear fc2_units fc3_units ;;
  l4 <- nn_Linear fc3_units 1 ;;
  l1 <- reset_hidden l1 ;;
  l2 <- reset_hidden l2 ;;
  l3 <- reset_hidden l3 ;;
  l4 <- reset_output l4 ;;
  ret (mk use_bn l1 l2 l3 l4
          (if use_bn then Some (nn_BatchNorm1d fcs1_units) else None)
          (if use_bn then Some (nn_BatchNorm1d fc2_units) else None)
          (if use_bn then Some (nn_BatchNorm1d fc3_units) else None)).

(** [self.bn(arg)] for one of the three normalisations: Python looks the
    attribute up before it evaluates the argument, so a missing
    normalisation is reported before anything the argument raises. *)
Definition call_bn (field : t -> option BatchNorm1d)
           (set : BatchNorm1d -> t -> t) (arg : result tensor2)
  : M t tensor2 :=
  fun c =>
    match field c with
    | None => (c, Raise AttributeError)
    | Some bn =>
        match arg with
        | Raise e => (c, Raise e)
        | Ok x => let (bn', r) := batch_norm x bn in (set bn' c, r)
        end
    end.

Definition forward (state action : tensor2) : M t tensor2 :=
  x <- lift_result (cat2 state action) ;;
  c <- get ;;
  if use_batch_norm c then
    x <- call_bn bn1 set_bn1 (linear2 (fcs1 c) x) ;;
    x <- call_bn bn2 set_bn2 (linear2 (fc2 c) (relu2 x)) ;;
    x <- call_bn bn3 set_bn3 (linear2 (fc3 c) (relu2 x)) ;;
    lift_result (linear2 (fc4 c) (relu2 x))
  else
    x <- lift_result (linear2 (fcs1 c) x) ;;
    x <- lift_result (linear2 (fc2 c) (relu2 x)) ;;
    x <- lift_result (linear2 (fc3 c) (relu2 x)) ;;
    lift_result (linear2 (fc4 c) (relu2 x)).

End PortfolioCritic.

(* ===================================================================== *)
(** ** AssetEncoder *)
(* ===================================================================== *)

Module AssetEncoder.

Record t : Type :=
  mk { features_per_asset : nat; encoding_size : nat; output_size : nat;
       fc1 : Linear; fc2 : Linear; first_forward_done : bool }.

Definition set_features_per_asset (v : nat) (e : t) : t :=
  mk v (encoding_size e) (output_size e) (fc1 e) (fc2 e)
     (first_forward_done e).

Definition set_first_forward_done (v : bool) (e : t) : t :=
  mk (features_per_asset e) (encoding_size e) (output_size e)
     (fc1 e) (fc2 e) v.

(** [output_size or encoding_size]: [None] and [0] are both false. *)
Definition or_default (output_size : option nat) (encoding_size : nat)
  : nat :=
  match output_size with
  | Some (S k) => S k
  | _ => encoding_size
  end.

(** [__init__] with [reset_parameters]. *)
Definition init (features_per_asset encoding_size : nat) (seed : Z)
           (output_size : option nat) : M generator t :=
  manual_seed seed ;;;
  let out := or_default output_size encoding_size in
  l1 <- nn_Linear features_per_asset 32 ;;
  l2 <- nn_Linear 32 out ;;
  l1 <- reset_hidden l1 ;;
  l2 <- reset_hidden l2 ;;
  ret (mk features_per_asset encoding_size out l1 l2 false).

(** The [except RuntimeError] branch of [forward]. *)
Definition fallback (asset_features : tensor) (batch_size num_assets : nat)
  : M t tensor3 :=
  let total_elements := numel asset_features in
  if batch_size * num_assets =? 0 then raise ZeroDivisionError
  else
    let safe_features_per_asset :=
      total_elements / (batch_size * num_assets) in
    self <- get ;;
    put (set_features_per_asset safe_features_per_asset self) ;;;
    let asset_features :=
      slice_to (batch_size * num_assets * safe_features_per_asset)
               asset_features in
    lift_result (view3 asset_features batch_size num_assets
                       safe_features_per_asset).

(** Lines 99 to 104: the two layers on every asset, the encodings side
    by side, and the tail after them. *)
Definition encode_assets (asset_features : tensor3)
           (batch_size num_assets : nat) (extra_features : option tensor)
  : M t tensor :=
  self <- get ;;
  x <- lift_result (linear3 (fc1 self) asset_features) ;;
  asset_encodings <- lift_result (linear3 (fc2 self) (relu3 x)) ;;
  asset_encodings <-
    lift_result (view2 (Rank3 (relu3 asset_encodings)) batch_size
                       (num_assets * output_size self)) ;;
  match extra_features with
  | Some extra => lift_result (cat1 (Rank2 asset_encodings) extra)
  | None => ret (Rank2 asset_encodings)
  end.

Definition forward (state : tensor) (num_assets : nat) : M t tensor :=
  self <- get ;;
  let batch_size := size0 state in
  let total_features := size1 state in
  let asset_features_total := num_assets * features_per_asset self in
  (if first_forward_done self then ret tt
   else put (set_first_forward_done true self)) ;;;
  state <- (if total_features <? asset_features_total then
              let padding_needed :=
                asset_features_total - total_features in
              let padding := zeros batch_size padding_needed in
              lift_result (cat1 state (Rank2 padding))
            else ret state) ;;
  let total_features := size1 state in
  let asset_features := slice_to asset_features_total state in
  let extra_features :=
    if asset_features_total <? total_features
    then Some (slice_from asset_features_total state) else None in
  self <- get ;;
  asset_features <-
    try_except_RuntimeError
      (lift_result (view3 asset_features batch_size num_assets
                          (features_per_asset self)))
      (fallback asset_features batch_size num_assets) ;;
  encode_assets asset_features batch_size num_assets extra_features.

(** The shapes [__init__] establishes. *)
Definition shaped (e : t) : Prop :=
  wf_linear (fc1 e) /\ wf_linear (fc2 e) /\
  in_features (fc1 e) = features_per_asset e /\
  out_features (fc1 e) = in_features (fc2 e) /\
  out_features (fc2 e) = output_size e.

End AssetEncoder.

(* ===================================================================== *)
(** ** The attention arithmetic *)
(* ===================================================================== *)

(** [F.softmax] of one vector. *)
Definition softmax (xs : list R) : list R :=
  map (fun x => (exp x / Rsum (map exp xs))%R) xs.

(** [t.squeeze(-1)] of a tensor whose last dimension has size one, as the
    output of the score projection [nn.Linear(_, 1)] has. *)
Definition squeeze_last (t : tensor3) : tensor2 :=
  T2 (dim1 t) (map (map (fun c => nth 0 c 0%R)) (slabs t)).

(** [F.softmax(scores, dim=1)]. *)
Definition softmax_dim1 (t : tensor2) : tensor2 :=
  T2 (cols t) (map softmax (rows t)).

(** [(weights.unsqueeze(-1) * values).sum(dim=1)] for one batch element:
    every value vector is scaled by its weight, then the vectors are added
    position by position. *)
Definition weighted_sum_slab (k : nat) (ws : list R) (vs : list (list R))
  : list R :=
  let scaled := zip_with (fun w v => map (Rmult w) v) ws vs in
  map (fun j => Rsum (column j scaled)) (seq 0 k).

Definition weighted_sum (w : tensor2) (values : tensor3) : tensor2 :=
  T2 (dim2 values)
     (zip_with (weighted_sum_slab (dim2 values)) (rows w) (slabs values)).

(** [torch.cat((assets, context.unsqueeze(1).expand(-1, n, -1)), dim=2)]. *)
Definition cat_context (assets : tensor3) (context : tensor2) : tensor3 :=
  T3 (dim1 assets) (dim2 assets + cols context)
     (zip_with (fun slab ctx => map (fun c => c ++ ctx) slab)
               (slabs assets) (rows context)).

(** Lines 198 and 199 of [apply_attention]. *)
Definition attention_weights (attention : Linear) (assets : tensor3)
  : result tensor2 :=
  map_result (fun s => softmax_dim1 (squeeze_last s))
             (linear3 attention assets).

(** Lines 198 to 201: the context vector of every batch element. *)
Definition context_vector (attention value : Linear) (assets : tensor3)
  : result tensor2 :=
  bind_result (attention_weights attention assets) (fun w =>
  bind_result (linear3 value assets) (fun values =>
  Ok (weighted_sum w values))).

(** Lines 198 to 205. *)
Definition attend (attention value : Linear) (assets : tensor3)
           (action_size batch_size : nat) : result tensor2 :=
  bind_result (context_vector attention value assets) (fun context =>
  let enhanced_assets := cat_context assets context in
  let enhanced_size := dim2 enhanced_assets * action_size in
  view2 (Rank3 enhanced_assets) batch_size enhanced_size).

(* ===================================================================== *)
(** ** EnhancedPortfolioActor *)
(* ===================================================================== *)

Module EnhancedPortfolioActor.

Record t : Type :=
  mk { action_size : nat; features_per_asset : nat; use_attention : bool;
       asset_encoder : AssetEncoder.t; extra_features : Z;
       attention : option Linear; value : option Linear;
       fc1 : option Linear; fc2 : option Linear; fc3 : option Linear;
       ln1 : option LayerNorm; ln2 : option LayerNorm;
       fc1_units : nat; fc2_units : nat; layers_initialized : bool;
       effective_encoding_size : option nat;
       fc_input_size : option nat }.

Definition set_asset_encoder (v : AssetEncoder.t) (a : t) : t :=
  mk (action_size a) (features_per_asset a) (use_attention a) v
     (extra_features a) (attention a) (value a) (fc1 a) (fc2 a) (fc3 a)
     (ln1 a) (ln2 a) (fc1_units a) (fc2_units a) (layers_initialized a)
     (effective_encoding_size a) (fc_input_size a).
Definition set_attention (v : option Linear) (a : t) : t :=
  mk (action_size a) (features_per_asset a) (use_attention a)
     (asset_encoder a) (extra_features a) v (value a) (fc1 a) (fc2 a)
     (fc3 a) (ln1 a) (ln2 a) (fc1_units a) (fc2_units a)
     (layers_initialized a) (effective_encoding_size a) (fc_input_size a).
Definition set_value (v : option Linear) (a : t) : t :=
  mk (action_size a) (features_per_asset a) (use_attention a)
     (asset_encoder a) (extra_features a) (attention a) v (fc1 a) (fc2 a)
     (fc3 a) (ln1 a) (ln2 a) (fc1_units a) (fc2_units a)
     (layers_initialized a) (effective_encoding_size a) (fc_input_size a).
Definition set_fc1 (v : option Linear) (a : t) : t :=
  mk (action_size a) (features_per_asset a) (use_attention a)
     (asset_encoder a) (extra_features a) (attention a) (value a) v
     (fc2 a) (fc3 a) (ln1 a) (ln2 a) (fc1_units a) (fc2_units a)
     (layers_initialized a) (effective_encoding_size a) (fc_input_size a).
Definition set_fc2 (v : option Linear) (a : t) : t :=
  mk (action_size a) (features_per_asset a) (use_attention a)
     (asset_encoder a) (extra_features a) (attention a) (value a)
     (fc1 a) v (fc3 a) (ln1 a) (ln2 a) (fc1_units a) (fc2_units a)
     (layers_initialized a) (effective_encoding_size a) (fc_input_size a).
Definition set_fc3 (v : option Linear) (a : t) : t :=
  mk (action_size a) (features_per_asset a) (use_attention a)
     (asset_encoder a) (extra_features a) (attention a) (value a)
     (fc1 a) (fc2 a) v (ln1 a) (ln2 a) (fc1_units a) (fc2_units a)
     (layers_initialized a) (effective_encoding_size a) (fc_input_size a).
Definition set_ln1 (v : option LayerNorm) (a : t) : t :=
  mk (action_size a) (features_per_asset a) (use_attention a)
     (asset_encoder a) (extra_features a) (attention a) (value a)
     (fc1 a) (fc2 a) (fc3 a) v (ln2 a) (fc1_units a) (fc2_units a)
     (layers_initialized a) (effective_encoding_size a) (fc_input_size a).
Definition set_ln2 (v : option LayerNorm) (a : t) : t :=
  mk (action_size a) (features_per_asset a) (use_attention a)
     (asset_encoder a) (extra_features a) (attention a) (value a)
     (fc1 a) (fc2 a) (fc3 a) (ln1 a) v (fc1_units a) (fc2_units a)
     (layers_initialized a) (effective_encoding_size a) (fc_input_size a).
Definition set_layers_initialized (v : bool) (a : t) : t :=
  mk (action_size a) (features_per_asset a) (use_attention a)
     (asset_encoder a) (extra_features a) (attention a) (value a)
     (fc1 a) (fc2 a) (fc3 a) (ln1 a) (ln2 a) (fc1_units a) (fc2_units a)
     v (effective_encoding_size a) (fc_input_size a).
Definition set_effective_encoding_size (v : option nat) (a : t) : t :=
  mk (action_size a) (features_per_asset a) (use_attention a)
     (asset_encoder a) (extra_features a) (attention a) (value a)
     (fc1 a) (fc2 a) (fc3 a) (ln1 a) (ln2 a) (fc1_units a) (fc2_units a)
     (layers_initialized a) v (fc_input_size a).

(** The actor together with torch's generator, which the lazily built
    layers draw from. *)
Definition world : Type := (t * generator)%type.

Definition self_ : M world t := fun w => (w, Ok (fst w)).

Definition update (f : t -> t) : M world unit :=
  fun w => ((f (fst w), snd w), Ok tt).

Definition draw {A} (m : M generator A) : M world A :=
  fun w => let (g, r) := m (snd w) in ((fst w, g), r).

(** A call of a method of [self.asset_encoder]. *)
Definition on_encoder {A} (m : M AssetEncoder.t A) : M world A :=
  fun w =>
    let (e, r) := m (asset_encoder (fst w)) in
    ((set_asset_encoder e (fst w), snd w), r).

(** [__init__]. *)
Definition init (state_size : Z) (action_size features_per_asset : nat)
           (seed : Z) (fc1_units fc2_units encoding_size : nat)
           (use_attention : bool) (encoder_output_size : option nat)
  : M generator t :=
  manual_seed seed ;;;
  enc <- AssetEncoder.init features_per_asset encoding_size seed
                           encoder_output_size ;;
  ret (mk action_size features_per_asset use_attention enc
          (state_size -
           Z.of_nat features_per_asset * Z.of_nat action_size)%Z
          None None None None None None None
          fc1_units fc2_units false None None).

Definition reset_parameters : M world unit :=
  self <- self_ ;;
  (match fc1 self with
   | Some l => l <- draw (reset_hidden l) ;; update (set_fc1 (Some l))
   | None => ret tt
   end) ;;;
  (match fc2 self with
   | Some l => l <- draw (reset_hidden l) ;; update (set_fc2 (Some l))
   | None => ret tt
   end) ;;;
  (match fc3 self with
   | Some l => l <- draw (reset_output l) ;; update (set_fc3 (Some l))
   | None => ret tt
   end).

Definition initialize_layers (encoded_size : nat) : M world unit :=
  self <- self_ ;;
  l <- draw (nn_Linear encoded_size (fc1_units self)) ;;
  update (set_fc1 (Some l)) ;;;
  update (set_ln1 (Some (nn_LayerNorm (fc1_units self)))) ;;;
  l <- draw (nn_Linear (fc1_units self) (fc2_units self)) ;;
  update (set_fc2 (Some l)) ;;;
  update (set_ln2 (Some (nn_LayerNorm (fc2_units self)))) ;;;
  l <- draw (nn_Linear (fc2_units self) (action_size self)) ;;
  update (set_fc3 (Some l)) ;;;
  reset_parameters ;;;
  update (set_layers_initialized true).

Definition initialize_attention_layers (effective_encoding_size : nat)
  : M world unit :=
  a <- draw (nn_Linear effective_encoding_size 1) ;;
  update (set_attention (Some a)) ;;;
  v <- draw (nn_Linear effective_encoding_size effective_encoding_size) ;;
  update (set_value (Some v)) ;;;
  let fan_in := effective_encoding_size in
  let lim := inv_sqrt fan_in in
  a <- draw (weight_uniform_ lim a) ;;
  update (set_attention (Some (bias_fill_0 a))) ;;;
  v <- draw (weight_uniform_ lim v) ;;
  update (set_value (Some (bias_fill_0 v))) ;;;
  update (set_effective_encoding_size (Some effective_encoding_size)).

(** Lines 169 to 174: the tail is cut off when the actor expects one and
    the input is wider than the raw asset block. *)
Definition strip_tail (self : t) (encoded_assets : tensor)
  : option tensor * tensor :=
  let total_size := size1 encoded_assets in
  if (0 <? extra_features self)%Z &&
     (action_size self * features_per_asset self <? total_size)
  then
    let cut := slice_bound (- extra_features self) total_size in
    (Some (slice_from cut encoded_assets), slice_to cut encoded_assets)
  else (None, encoded_assets).

(** Lines 176 to 184: the width per asset, and the block padded with
    zeros when its width is not a multiple of [action_size]. *)
Definition pad_divisible (action_size batch_size : nat)
           (encoded_assets : tensor) : result (tensor * nat) :=
  let total_size := size1 encoded_assets in
  if action_size =? 0 then Raise ZeroDivisionError
  else if total_size mod action_size =? 0
  then Ok (encoded_assets, total_size / action_size)
  else
    let effective_encoding_size :=
      (total_size + action_size - 1) / action_size in
    let padding_needed :=
      effective_encoding_size * action_size - total_size in
    if 0 <? padding_needed then
      let padding := zeros batch_size padding_needed in
      map_result (fun e => (e, effective_encoding_size))
                 (cat1 encoded_assets (Rank2 padding))
    else Ok (encoded_assets, effective_encoding_size).

(** Lines 186 and 187. *)
Definition stale (self : t) (wanted : nat) : bool :=
  match attention self, value self, effective_encoding_size self with
  | Some _, Some _, Some k => negb (k =? wanted)
  | _, _, _ => true
  end.

Definition ensure_attention (effective_encoding_size : nat)
  : M world unit :=
  self <- self_ ;;
  if stale self effective_encoding_size
  then initialize_attention_layers effective_encoding_size
  else ret tt.

(** The [except RuntimeError] branch, lines 192 to 196. *)
Definition fallback (encoded_assets : tensor) (batch_size : nat)
  : M world (tensor3 * nat) :=
  self <- self_ ;;
  let total_elements := numel encoded_assets in
  if batch_size * action_size self =? 0 then raise ZeroDivisionError
  else
    let safe_encoding_size :=
      total_elements / (batch_size * action_size self) in
    initialize_attention_layers safe_encoding_size ;;;
    assets <- lift_result (view3 encoded_assets batch_size
                                 (action_size self) safe_encoding_size) ;;
    ret (assets, safe_encoding_size).

(** Lines 189 to 196. *)
Definition reshape_assets (encoded_assets : tensor)
           (batch_size effective_encoding_size : nat)
  : M world (tensor3 * nat) :=
  self <- self_ ;;
  try_except_RuntimeError
    (assets <- lift_result (view3 encoded_assets batch_size
                                  (action_size self)
                                  effective_encoding_size) ;;
     ret (assets, effective_encoding_size))
    (fallback encoded_assets batch_size).

(** Lines 169 to 196: the tail that was cut off, if any, and the assets
    as a tensor of shape (batch, action_size, width per asset). *)
Definition prepare (encoded_assets : tensor) (batch_size : nat)
  : M world (option tensor * tensor3) :=
  self <- self_ ;;
  let (extra_features, encoded_assets) := strip_tail self encoded_assets in
  padded <- lift_result (pad_divisible (action_size self) batch_size
                                       encoded_assets) ;;
  let (encoded_assets, effective_encoding_size) := padded in
  ensure_attention effective_encoding_size ;;;
  reshaped <- reshape_assets encoded_assets batch_size
                             effective_encoding_size ;;
  let (assets, effective_encoding_size) := reshaped in
  ret (extra_features, assets).

Definition apply_attention (encoded_assets : tensor) (batch_size : nat)
  : M world tensor :=
  prepared <- prepare encoded_assets batch_size ;;
  let (extra_features, assets) := prepared in
  self <- self_ ;;
  match attention self, value self with
  | Some att, Some val =>
      flattened <- lift_result (attend att val assets (action_size self)
                                       batch_size) ;;
      match extra_features with
      | Some extra => lift_result (cat1 (Rank2 flattened) extra)
      | None => ret (Rank2 flattened)
      end
  | _, _ => raise TypeError
  end.

(** The context vectors [apply_attention] computes on the way (line
    201), for the statements about them. *)
Definition attention_context (encoded_assets : tensor) (batch_size : nat)
  : M world tensor2 :=
  prepared <- prepare encoded_assets batch_size ;;
  let (extra_features, assets) := prepared in
  self <- self_ ;;
  match attention self, value self with
  | Some att, Some val => lift_result (context_vector att val assets)
  | _, _ => raise TypeError
  end.

(** The test of line 215. *)
Definition trunk_mismatch (self : t) (encoded_width : nat) : result bool :=
  if negb (layers_initialized self) then Ok true
  else match fc1 self with
       | Some l => Ok (negb (in_features l =? encoded_width))
       | None => Raise AttributeError
       end.

(** Lines 211 to 214: the encoder and, when enabled, the attention. *)
Definition encode (state : tensor) : M world tensor :=
  self <- self_ ;;
  let batch_size := size0 state in
  encoded_state <-
    on_encoder (AssetEncoder.forward state (action_size self)) ;;
  if use_attention self then apply_attention encoded_state batch_size
  else ret encoded_state.

(** Lines 217 to 219. *)
Definition trunk (self : t) (encoded_state : tensor) : result tensor :=
  match fc1 self, ln1 self, fc2 self, ln2 self, fc3 self with
  | Some l1, Some n1, Some l2, Some n2, Some l3 =>
      bind_result (linear l1 encoded_state) (fun x =>
      bind_result (layer_norm n1 x) (fun x =>
      bind_result (linear l2 (relu_t x)) (fun x =>
      bind_result (layer_norm n2 x) (fun x =>
      linear l3 (relu_t x)))))
  | _, _, _, _, _ => Raise TypeError
  end.

Definition forward (state : tensor) : M world tensor :=
  encoded_state <- encode state ;;
  self <- self_ ;;
  rebuild <- lift_result (trunk_mismatch self (size1 encoded_state)) ;;
  (if rebuild then initialize_layers (size1 encoded_state) else ret tt) ;;;
  self <- self_ ;;
  lift_result (trunk self encoded_state).

End EnhancedPortfolioActor.

(* ===================================================================== *)
(** ** Derived notions used in the statements *)
(* ===================================================================== *)

Import EnhancedPortfolioActor.

(** A batch explicitly padded on the right with zeros up to width [w]. *)
Definition pad_right (w : nat) (t : tensor2) : tensor2 :=
  T2 w (map (fun r => r ++ repeat 0%R (w - cols t)) (rows t)).

(** The encoding of one asset: linear, ReLU, linear, ReLU. *)
Definition encode_asset (e : AssetEncoder.t) (c : list R) : list R :=
  map relu (linear_vec (AssetEncoder.fc2 e)
              (map relu (linear_vec (AssetEncoder.fc1 e) c))).

(** The encodings of the [n] assets of one asset block, side by side. *)
Definition encode_block (e : AssetEncoder.t) (n : nat) (block : list R)
  : list R :=
  concat (map (encode_asset e)
              (chunks (AssetEncoder.features_per_asset e) n block)).

(** The encoder after a call that did not take the fallback. *)
Definition touched (e : AssetEncoder.t) : AssetEncoder.t :=
  if AssetEncoder.first_forward_done e then e
  else AssetEncoder.set_first_forward_done true e.

(** *** Concrete objects for the scenarios of the specification *)

(** A layer whose parameters are all zero. *)
Definition zero_linear (i o : nat) : Linear :=
  mkLinear i o (repeat (repeat 0%R i) o) (repeat 0%R o).

(** An encoder for four features per asset, with the hidden width 32 of
    [__init__] and [output_size] encodings per asset. *)
Definition encoder4 (output_size : nat) : AssetEncoder.t :=
  AssetEncoder.mk 4 output_size output_size
    (zero_linear 4 32) (zero_linear 32 output_size) false.

(** One observation of width [w] whose values are [1, 2, ..., w]. *)
Definition ramp (w : nat) : tensor2 :=
  T2 w [map (fun i => INR (S i)) (seq 0 w)].

(** A tensor of shape (1, 12, 2): every one of the twelve positions holds
    two values where a batch holds one. *)
Definition cube : tensor := Rank3 (T3 12 2 [repeat [1%R; 1%R] 12]).

(** A critic for states of width 14 and actions of width 3. *)
Definition critic17 : PortfolioCritic.t :=
  PortfolioCritic.mk true
    (zero_linear 17 256) (zero_linear 256 128) (zero_linear 128 64)
    (zero_linear 64 1)
    (Some (nn_BatchNorm1d 256)) (Some (nn_BatchNorm1d 128))
    (Some (nn_BatchNorm1d 64)).

(** One batch element with three assets of two values each. *)
Definition three_assets : tensor3 :=
  T3 3 2 [[[1; 2]; [3; 4]; [5; 6]]]%R.

(** The fields [initialize_attention_layers] does not write. *)
Definition same_frame (a b : t) : Prop :=
  action_size a = action_size b /\
  features_per_asset a = features_per_asset b /\
  use_attention a = use_attention b /\
  asset_encoder a = asset_encoder b /\
  extra_features a = extra_features b /\
  fc1 a = fc1 b /\ fc2 a = fc2 b /\ fc3 a = fc3 b /\
  ln1 a = ln1 b /\ ln2 a = ln2 b /\
  fc1_units a = fc1_units b /\ fc2_units a = fc2_units b /\
  layers_initialized a = layers_initialized b.

(** The attention layers exist and are built for width [k]. *)
Definition attention_ready (k : nat) (self : t) : Prop :=
  exists a v,
    attention self = Some a /\ value self = Some v /\
    effective_encoding_size self = Some k /\
    wf_linear a /\ wf_linear v /\
    in_features a = k /\ out_features a = 1 /\
    in_features v = k /\ out_features v = k.

(** Whatever attention layers exist are built for the recorded width. *)
Definition attention_shaped (self : t) : Prop :=
  match effective_encoding_size self with
  | Some k => attention self <> None -> value self <> None ->
              attention_ready k self
  | None => True
  end.

(** An actor for three assets of four features each and a tail of two
    values (a state of width 14), before its first call; [k] is the width
    of one asset's encoding. *)
Definition actor14 (k : nat) : EnhancedPortfolioActor.t :=
  mk 3 4 true (encoder4 k) 2 None None None None None None None
     256 128 false None None.

(** The same actor for a state of width 12, without a tail. *)
Definition actor12 (k : nat) : EnhancedPortfolioActor.t :=
  mk 3 4 true (encoder4 k) 0 None None None None None None None
     256 128 false None None.

(** A generator whose samples of the unit interval are all one half, so
    that every weight drawn within [(-lim, lim)] is the midpoint. *)
Definition half : generator :=
  Gen (fun _ _ => (1 / 2)%R) (fun _ => (1 / 2)%R) 0.

(** *** The trunk *)

(** The three linear layers of a new trunk for encoded width [w]: built in
    the order of [initialize_layers], then initialised in the order of
    [reset_parameters].  Nothing of an earlier trunk enters. *)
Definition fresh_trunk (w u1 u2 a : nat)
  : M generator (Linear * Linear * Linear) :=
  (l1 <- nn_Linear w u1 ;;
   l2 <- nn_Linear u1 u2 ;;
   l3 <- nn_Linear u2 a ;;
   l1 <- reset_hidden l1 ;;
   l2 <- reset_hidden l2 ;;
   l3 <- reset_output l3 ;;
   ret (l1, l2, l3))%monad.

(** The actor with a trunk put in place. *)
Definition installed (self : t) (l1 l2 l3 : Linear) : t :=
  mk (action_size self) (features_per_asset self) (use_attention self)
     (asset_encoder self) (extra_features self) (attention self)
     (value self) (Some l1) (Some l2) (Some l3)
     (Some (nn_LayerNorm (fc1_units self)))
     (Some (nn_LayerNorm (fc2_units self)))
     (fc1_units self) (fc2_units self) true
     (effective_encoding_size self) (fc_input_size self).

(** The five layers of the trunk. *)
Definition trunk_layers (self : t)
  : option Linear * option LayerNorm * option Linear * option LayerNorm
    * option Linear :=
  (fc1 self, ln1 self, fc2 self, ln2 self, fc3 self).

(** The input width the trunk was last built for. *)
Definition built_width (self : t) : option nat :=
  if layers_initialized self then option_map in_features (fc1 self)
  else None.

(** A built trunk is a chain: every layer takes what the one before
    gives. *)
Definition trunk_shaped (self : t) : Prop :=
  layers_initialized self = true ->
  exists l1 n1 l2 n2 l3,
    trunk_layers self = (Some l1, Some n1, Some l2, Some n2, Some l3) /\
    out_features l1 = normalized_shape n1 /\
    normalized_shape n1 = in_features l2 /\
    out_features l2 = normalized_shape n2 /\
    normalized_shape n2 = in_features l3.

(** The fields that neither the encoder nor the attention writes. *)
Definition same_trunk (a b : t) : Prop :=
  trunk_layers a = trunk_layers b /\
  layers_initialized a = layers_initialized b /\
  fc1_units a = fc1_units b /\ fc2_units a = fc2_units b /\
  action_size a = action_size b.

(** Every weight lies within [b] of zero, and every bias is zero. *)
Definition initialised_within (b : R) (l : Linear) : Prop :=
  Forall (Forall (fun x => (- b <= x <= b)%R)) (weight l) /\
  bias l = repeat 0%R (out_features l).

(** The actor of [actor14] with the attention switched off. *)
Definition actor14_plain (k : nat) : EnhancedPortfolioActor.t :=
  mk 3 4 false (encoder4 k) 2 None None None None None None None
     256 128 false None None.

(** *** The critic *)

(** The shapes [PortfolioCritic.__init__] establishes: the layers form a
    chain that ends in one value, and with [use_batch_norm] the three
    normalisations exist and fit the hidden layers. *)
Definition critic_shaped (c : PortfolioCritic.t) : Prop :=
  out_features (PortfolioCritic.fcs1 c) = in_features (PortfolioCritic.fc2 c)
  /\ out_features (PortfolioCritic.fc2 c)
     = in_features (PortfolioCritic.fc3 c)
  /\ out_features (PortfolioCritic.fc3 c)
     = in_features (PortfolioCritic.fc4 c)
  /\ out_features (PortfolioCritic.fc4 c) = 1
  /\ wf_linear (PortfolioCritic.fc4 c)
  /\ (PortfolioCritic.use_batch_norm c = true ->
      exists b1 b2 b3,
        PortfolioCritic.bn1 c = Some b1 /\
        PortfolioCritic.bn2 c = Some b2 /\
        PortfolioCritic.bn3 c = Some b3 /\
        num_features b1 = out_features (PortfolioCritic.fcs1 c) /\
        num_features b2 = out_features (PortfolioCritic.fc2 c) /\
        num_features b3 = out_features (PortfolioCritic.fc3 c)).

(** The value the critic without normalisation gives one state-action
    vector. *)
Definition critic_row (c : PortfolioCritic.t) (x : list R) : list R :=
  linear_vec (PortfolioCritic.fc4 c)
    (map relu (linear_vec (PortfolioCritic.fc3 c)
       (map relu (linear_vec (PortfolioCritic.fc2 c)
          (map relu (linear_vec (PortfolioCritic.fcs1 c) x)))))).

(** A critic for states of width 14 and actions of width 3 without batch
    normalisation. *)
Definition critic17_plain : PortfolioCritic.t :=
  PortfolioCritic.mk false
    (zero_linear 17 256) (zero_linear 256 128) (zero_linear 128 64)
    (zero_linear 64 1) None None None.

(** Two observations of width [w], both [1, 2, ..., w]. *)
Definition ramp2 (w : nat) : tensor2 :=
  T2 w [map (fun i => INR (S i)) (seq 0 w);
        map (fun i => INR (S i)) (seq 0 w)].

(** [critic17] after [eval()]: the normalisations use their running
    statistics. *)
Definition critic17_eval : PortfolioCritic.t :=
  PortfolioCritic.mk true
    (zero_linear 17 256) (zero_linear 256 128) (zero_linear 128 64)
    (zero_linear 64 1)
    (Some (mkBatchNorm 256 (repeat 1%R 256) (repeat 0%R 256)
                       (repeat 0%R 256) (repeat 1%R 256) 0 false))
    (Some (mkBatchNorm 128 (repeat 1%R 128) (repeat 0%R 128)
                       (repeat 0%R 128) (repeat 1%R 128) 0 false))
    (Some (mkBatchNorm 64 (repeat 1%R 64) (repeat 0%R 64)
                       (repeat 0%R 64) (repeat 1%R 64) 0 false)).

(** *** The attention *)

(** The two projections of a new attention for width [k], built and
    initialised in the order of [initialize_attention_layers].  Nothing of
    earlier projections enters. *)
Definition fresh_attention (k : nat) : M generator (Linear * Linear) :=
  (a <- nn_Linear k 1 ;;
   v <- nn_Linear k k ;;
   a <- weight_uniform_ (inv_sqrt k) a ;;
   v <- weight_uniform_ (inv_sqrt k) v ;;
   ret (bias_fill_0 a, bias_fill_0 v))%monad.

(** The actor with an attention for width [k] put in place. *)
Definition with_attention (self : t) (k : nat) (a v : Linear) : t :=
  set_effective_encoding_size (Some k)
    (set_value (Some v) (set_attention (Some a) self)).

(** *** The widths on the way through [forward] *)

(** The width [AssetEncoder.forward] returns for [n] assets and an
    observation of width [F]. *)
Definition encoder_width (e : AssetEncoder.t) (n F : nat) : nat :=
  n * AssetEncoder.output_size e +
  (F - n * AssetEncoder.features_per_asset e).

(** The test of line 171 on a batch of width [w]. *)
Definition cuts_tail (self : t) (w : nat) : bool :=
  (0 <? extra_features self)%Z &&
  (action_size self * features_per_asset self <? w).

(** The width of the asset block [apply_attention] works on, and of the
    tail it sets aside. *)
Definition block_width (self : t) (w : nat) : nat :=
  if cuts_tail self w then slice_bound (- extra_features self) w else w.

Definition tail_width (self : t) (w : nat) : nat :=
  w - block_width self w.

(** The width per asset: the block width over [action_size], rounded
    up. *)
Definition per_asset_width (self : t) (w : nat) : nat :=
  (block_width self w + action_size self - 1) / action_size self.

(** The width [apply_attention] returns for a batch of width [w]. *)
Definition attended_width (self : t) (w : nat) : nat :=
  action_size self * (2 * per_asset_width self w) + tail_width self w.

(** The width that reaches the trunk for an observation of width [F]. *)
Definition encoded_width (self : t) (F : nat) : nat :=
  let m := encoder_width (asset_encoder self) (action_size self) F in
  if use_attention self then attended_width self m else m.

(** A built trunk ends in one value per action. *)
Definition trunk_outputs_actions (self : t) : Prop :=
  layers_initialized self = true ->
  option_map out_features (fc3 self) = Some (action_size self).

(** What the constructor establishes and every call keeps. *)
Definition actor_shaped (self : t) : Prop :=
  0 < action_size self /\ 0 < fc1_units self /\ 0 < fc2_units self /\
  AssetEncoder.shaped (asset_encoder self) /\
  attention_shaped self /\ trunk_shaped self /\
  trunk_outputs_actions self.

(** An observation width the actor can work on: the encoded state is not
    empty, and neither is the asset block the attention is given. *)
Definition workable (self : t) (F : nat) : Prop :=
  let m := encoder_width (asset_encoder self) (action_size self) F in
  0 < m /\ (use_attention self = true -> 0 < block_width self m).

(** The lazily built layers all exist and fit observations of width
    [F]. *)
Definition settled_for (F : nat) (self : t) : Prop :=
  let m := encoder_width (asset_encoder self) (action_size self) F in
  AssetEncoder.first_forward_done (asset_encoder self) = true /\
  (use_attention self = true ->
   attention_ready (per_asset_width self m) self) /\
  built_width self = Some (encoded_width self F).

(** The configuration a call never writes. *)
Definition same_configuration (a b : t) : Prop :=
  action_size a = action_size b /\
  features_per_asset a = features_per_asset b /\
  extra_features a = extra_features b /\
  use_attention a = use_attention b /\
  fc1_units a = fc1_units b /\ fc2_units a = fc2_units b /\
  touched (asset_encoder a) = touched (asset_encoder b).

(** The calls of [forward] on a list of batches, one after the other: the
    results in order, and the actor and the generator at the end. *)
Fixpoint forward_each (ts : list tensor2) (w : world)
  : world * list (result tensor) :=
  match ts with
  | [] => (w, [])
  | t :: ts' =>
      let (w1, r) := forward (Rank2 t) w in
      let (w2, rs) := forward_each ts' w1 in
      (w2, r :: rs)
  end.

(** [l'] holds the elements of [l] that the positions [idx] name, in the
    order of [idx]. *)
Definition reordered {A} (idx : list nat) (l l' : list A) : Prop :=
  map (nth_error l) idx = map Some l'.

(* ===================================================================== *)
(** ** Lists *)
(* ===================================================================== *)

Lemma zip_with_length {A B C} (f : A -> B -> C) u v :
  length (zip_with f u v) = Nat.min (length u) (length v).
Proof. unfold zip_with. now rewrite length_map, length_combine. Qed.

Lemma zip_with_repeat_r {A B C} (f : A -> B -> C) u z :
  zip_with f u (repeat z (length u)) = map (fun a => f a z) u.
Proof.
  unfold zip_with. induction u as [|a u IH]; simpl; [reflexivity|].
  now rewrite IH.
Qed.

Lemma chunks_length {A} k n (l : list A) : length (chunks k n l) = n.
Proof. revert l. induction n; simpl; intros; [reflexivity|]. now rewrite IHn. Qed.

Lemma chunks_concat {A} k (ls : list (list A)) :
  Forall (fun r => length r = k) ls ->
  chunks k (length ls) (concat ls) = ls.
Proof.
  induction 1 as [|r ls Hr _ IH]; simpl; [reflexivity|].
  rewrite firstn_app, skipn_app, Hr, Nat.sub_diag, firstn_all2, skipn_all2
    by lia.
  simpl. rewrite app_nil_r. now rewrite IH.
Qed.

Lemma chunks_each_length {A} k n (l : list A) :
  n * k <= length l ->
  Forall (fun c => length c = k) (chunks k n l).
Proof.
  revert l. induction n; simpl; intros l H; constructor.
  - rewrite length_firstn. lia.
  - apply IHn. rewrite length_skipn. lia.
Qed.

Lemma concat_length_uniform {A} k (ls : list (list A)) :
  Forall (fun r => length r = k) ls ->
  length (concat ls) = length ls * k.
Proof.
  induction 1 as [|r ls Hr _ IH]; simpl; [reflexivity|].
  rewrite length_app. lia.
Qed.

Lemma linear_vec_length l x :
  wf_linear l -> length (linear_vec l x) = out_features l.
Proof.
  intros (Hw & Hb & _). unfold linear_vec.
  rewrite zip_with_length. lia.
Qed.

Lemma encode_asset_length e c :
  AssetEncoder.shaped e ->
  length (encode_asset e c) = AssetEncoder.output_size e.
Proof.
  intros (_ & H2 & _ & _ & Ho). unfold encode_asset.
  now rewrite length_map, linear_vec_length.
Qed.

Lemma encode_block_length e n block :
  AssetEncoder.shaped e ->
  length (encode_block e n block) = n * AssetEncoder.output_size e.
Proof.
  intros H. unfold encode_block.
  rewrite (concat_length_uniform (AssetEncoder.output_size e)).
  - now rewrite length_map, chunks_length.
  - apply Forall_forall. intros x Hx. apply in_map_iff in Hx.
    destruct Hx as (c & <- & _). now apply encode_asset_length.
Qed.

Lemma touched_features_per_asset e :
  AssetEncoder.features_per_asset (touched e) =
  AssetEncoder.features_per_asset e.
Proof. unfold touched. now destruct (AssetEncoder.first_forward_done e). Qed.

Lemma forward_touch {A} (k : unit -> M AssetEncoder.t A) e :
  bind (if AssetEncoder.first_forward_done e then ret tt
        else put (AssetEncoder.set_first_forward_done true e)) k e =
  k tt (touched e).
Proof.
  unfold bind, touched, ret, put.
  now destruct (AssetEncoder.first_forward_done e).
Qed.


Lemma view3_rank2_block t n k :
  wf2 t -> n * k <= cols t ->
  view3 (slice_to (n * k) (Rank2 t)) (length (rows t)) n k =
  Ok (T3 n k (map (fun r => chunks k n (firstn (n * k) r)) (rows t))).
Proof.
  intros Hwf Hle. unfold view3, numel, flat, slice_to. cbn [rows cols].
  rewrite length_map, Nat.min_l by assumption.
  replace (length (rows t) * (n * k) =? length (rows t) * n * k) with true
    by (symmetry; apply Nat.eqb_eq; lia).
  f_equal. f_equal.
  rewrite <- (length_map (firstn (n * k)) (rows t)).
  rewrite chunks_concat, map_map; [reflexivity|].
  apply Forall_forall. intros x Hx. apply in_map_iff in Hx.
  destruct Hx as (r & <- & Hr).
  unfold wf2 in Hwf. rewrite Forall_forall in Hwf.
  rewrite length_firstn, (Hwf r Hr). lia.
Qed.

Lemma view2_of_slabs n k (ss : list (list (list R))) b w :
  b = length ss -> w = n * k ->
  Forall (fun s => length (concat s) = n * k) ss ->
  view2 (Rank3 (T3 n k ss)) b w = Ok (T2 w (map (@concat R) ss)).
Proof.
  intros -> -> H. unfold view2, numel, flat. cbn [slabs dim1 dim2].
  replace (length ss * n * k =? length ss * (n * k)) with true
    by (symmetry; apply Nat.eqb_eq; lia).
  f_equal. f_equal.
  rewrite <- (length_map (@concat R) ss).
  apply chunks_concat.
  apply Forall_forall. intros x Hx. apply in_map_iff in Hx.
  destruct Hx as (s & <- & Hs). rewrite Forall_forall in H. now apply H.
Qed.


Lemma zip_with_maps {A B C D} (f : B -> C -> D) (g : A -> B) (h : A -> C) l :
  zip_with f (map g l) (map h l) = map (fun a => f (g a) (h a)) l.
Proof.
  unfold zip_with. induction l as [|a l IH]; simpl; [reflexivity|].
  now rewrite IH.
Qed.

Lemma encode_block_unfold e n block :
  concat (map (map relu)
            (map (linear_vec (AssetEncoder.fc2 e))
               (map (map relu)
                  (map (linear_vec (AssetEncoder.fc1 e))
                     (chunks (AssetEncoder.features_per_asset e) n block)))))
  = encode_block e n block.
Proof. unfold encode_block, encode_asset. now rewrite !map_map. Qed.

Lemma touched_fc1 e : AssetEncoder.fc1 (touched e) = AssetEncoder.fc1 e.
Proof. unfold touched. now destruct (AssetEncoder.first_forward_done e). Qed.

Lemma touched_fc2 e : AssetEncoder.fc2 (touched e) = AssetEncoder.fc2 e.
Proof. unfold touched. now destruct (AssetEncoder.first_forward_done e). Qed.

Lemma touched_output_size e :
  AssetEncoder.output_size (touched e) = AssetEncoder.output_size e.
Proof. unfold touched. now destruct (AssetEncoder.first_forward_done e). Qed.

Lemma forward_rank2_wide e t n :
  AssetEncoder.shaped e -> wf2 t ->
  n * AssetEncoder.features_per_asset e <= cols t ->
  AssetEncoder.forward (Rank2 t) n e =
  (touched e,
   Ok (Rank2 (T2 (n * AssetEncoder.output_size e +
                  (cols t - n * AssetEncoder.features_per_asset e))
                 (map (fun r =>
                         encode_block e n
                           (firstn (n * AssetEncoder.features_per_asset e) r)
                         ++ skipn (n * AssetEncoder.features_per_asset e) r)
                      (rows t))))).
Proof.
  intros Hs Hwf Hle.
  pose proof Hs as (H1 & H2 & Hin & Hmid & Hout).
  unfold AssetEncoder.forward.
  unfold bind at 1. unfold get at 1. 
  rewrite forward_touch.
  cbn [size1 size0].
  replace (cols t <? n * AssetEncoder.features_per_asset e) with false
    by (symmetry; apply Nat.ltb_ge; exact Hle).
  unfold bind at 1. unfold ret at 1.
  unfold bind at 1. unfold get at 1.
  rewrite touched_features_per_asset.
  unfold bind at 1. unfold try_except_RuntimeError, lift_result at 1.
  rewrite view3_rank2_block by assumption.
  unfold AssetEncoder.encode_assets.
  unfold bind at 1. unfold get at 1.
  rewrite touched_fc1, touched_fc2, touched_output_size.
  unfold bind at 1. unfold lift_result at 1, linear3 at 1. cbn [dim1 dim2 slabs].
  rewrite <- Hin, Nat.eqb_refl.
  unfold bind at 1. unfold lift_result at 1, linear3 at 1, relu3 at 1.
  cbn [dim1 dim2 slabs].
  rewrite Hmid, Nat.eqb_refl.
  unfold bind at 1. unfold lift_result at 1, relu3 at 1.
  cbn [dim1 dim2 slabs].
  rewrite Hout.
  rewrite !map_map.
  unfold relu3. cbn [dim1 dim2 slabs]. rewrite !map_map.
  rewrite Hin.
  erewrite view2_of_slabs;
    [ | now rewrite length_map | reflexivity | ].
  - rewrite map_map. cbn [size1].
    rewrite (map_ext _ _ (fun r => encode_block_unfold e n _)).
    destruct (n * AssetEncoder.features_per_asset e <? cols t) eqn:Hlt.
    + unfold lift_result, cat1, slice_from, cat2. cbn [rows cols].
      rewrite !length_map, Nat.eqb_refl. cbn [map_result].
      now rewrite zip_with_maps.
    + apply Nat.ltb_ge in Hlt. unfold ret.
      replace (cols t - n * AssetEncoder.features_per_asset e) with 0 by lia.
      rewrite Nat.add_0_r. do 4 f_equal.
      apply map_ext_in. intros r Hr.
      unfold wf2 in Hwf. rewrite Forall_forall in Hwf.
      rewrite skipn_all2, app_nil_r by (rewrite (Hwf r Hr); lia).
      reflexivity.
  - apply Forall_forall. intros x Hx. apply in_map_iff in Hx.
    destruct Hx as (r & <- & Hr).
    rewrite encode_block_unfold, encode_block_length by assumption.
    reflexivity.
Qed.

(** The zero padding of line 83 is the explicit padding. *)
Lemma cat1_zeros t w :
  cat1 (Rank2 t) (Rank2 (zeros (length (rows t)) (w - cols t))) =
  Ok (Rank2 (T2 (cols t + (w - cols t))
                (map (fun r => r ++ repeat 0%R (w - cols t)) (rows t)))).
Proof.
  unfold cat1, cat2, zeros. cbn [rows cols].
  rewrite repeat_length, Nat.eqb_refl. cbn [map_result].
  now rewrite zip_with_repeat_r.
Qed.

Lemma forward_pads e t n :
  cols t < n * AssetEncoder.features_per_asset e ->
  AssetEncoder.forward (Rank2 t) n e =
  AssetEncoder.forward
    (Rank2 (pad_right (n * AssetEncoder.features_per_asset e) t)) n e.
Proof.
  intros Hlt. unfold AssetEncoder.forward.
  unfold bind at 1. unfold get at 1. rewrite forward_touch.
  symmetry. unfold bind at 1. unfold get at 1. rewrite forward_touch.
  symmetry. cbn [size0 size1 pad_right cols rows].
  rewrite length_map, Nat.ltb_irrefl.
  replace (cols t <? n * AssetEncoder.features_per_asset e) with true
    by (symmetry; apply Nat.ltb_lt; exact Hlt).
  unfold bind at 1. unfold lift_result at 1. rewrite cat1_zeros.
  replace (cols t + (n * AssetEncoder.features_per_asset e - cols t))
    with (n * AssetEncoder.features_per_asset e) by lia.
  reflexivity.
Qed.

Lemma pad_right_wf w t : wf2 t -> cols t <= w -> wf2 (pad_right w t).
Proof.
  unfold wf2, pad_right. cbn [rows cols]. intros H Hle.
  apply Forall_forall. intros x Hx. apply in_map_iff in Hx.
  destruct Hx as (r & <- & Hr). rewrite Forall_forall in H.
  rewrite length_app, repeat_length, (H r Hr). lia.
Qed.

(** What [forward] returns on a batch, whatever its width. *)
Lemma forward_rank2 e t n :
  AssetEncoder.shaped e -> wf2 t ->
  let fpa := AssetEncoder.features_per_asset e in
  let p := pad_right (Nat.max (cols t) (n * fpa)) t in
  AssetEncoder.forward (Rank2 t) n e =
  (touched e,
   Ok (Rank2 (T2 (n * AssetEncoder.output_size e + (cols t - n * fpa))
                 (map (fun r => encode_block e n (firstn (n * fpa) r)
                                ++ skipn (n * fpa) r)
                      (rows p))))).
Proof.
  intros Hs Hwf fpa p. subst p fpa.
  destruct (Nat.ltb_spec (cols t) (n * AssetEncoder.features_per_asset e))
    as [Hlt | Hge].
  - rewrite forward_pads by assumption.
    rewrite Nat.max_r by lia.
    rewrite forward_rank2_wide;
      [ | assumption | apply pad_right_wf; [assumption | lia]
        | cbn [pad_right cols]; lia ].
    cbn [pad_right cols rows].
    replace (n * AssetEncoder.features_per_asset e -
             n * AssetEncoder.features_per_asset e) with 0 by lia.
    replace (cols t - n * AssetEncoder.features_per_asset e) with 0 by lia.
    reflexivity.
  - rewrite Nat.max_l by lia.
    rewrite forward_rank2_wide by assumption.
    unfold pad_right. cbn [rows]. rewrite Nat.sub_diag.
    do 4 f_equal. rewrite map_map. apply map_ext. intros r.
    cbn [repeat]. now rewrite app_nil_r.
Qed.

Lemma touched_shaped e : AssetEncoder.shaped e -> AssetEncoder.shaped (touched e).
Proof.
  unfold AssetEncoder.shaped.
  now rewrite touched_fc1, touched_fc2, touched_features_per_asset,
    touched_output_size.
Qed.

(** Steps that only read the object leave it as it is. *)
Lemma bind_lift_state {St A B} (r : result A) (k : A -> M St B) s :
  (forall a, fst (k a s) = s) -> fst (bind (lift_result r) k s) = s.
Proof. intros H. unfold bind, lift_result. destruct r; [apply H | reflexivity]. Qed.

Lemma bind_get_state {St B} (k : St -> M St B) s :
  fst (k s s) = s -> fst (bind get k s) = s.
Proof. intros H. unfold bind, get. exact H. Qed.

(** Lines 99 to 104 do not write to the encoder. *)
Lemma encode_assets_state (af : tensor3) b n (extra : option tensor) e :
  fst (AssetEncoder.encode_assets af b n extra e) = e.
Proof.
  unfold AssetEncoder.encode_assets.
  apply bind_get_state.
  apply bind_lift_state; intros x.
  apply bind_lift_state; intros y.
  apply bind_lift_state; intros z.
  destruct extra; reflexivity.
Qed.

Lemma view3_rank2_ok t n k :
  n * k <= cols t ->
  exists a, view3 (slice_to (n * k) (Rank2 t)) (length (rows t)) n k = Ok a.
Proof.
  intros Hle. unfold view3, numel, slice_to. cbn [rows cols].
  rewrite length_map, Nat.min_l by assumption.
  replace (length (rows t) * (n * k) =? length (rows t) * n * k) with true
    by (symmetry; apply Nat.eqb_eq; lia).
  eexists. reflexivity.
Qed.

Lemma forward_rank2_wide_state e t n :
  n * AssetEncoder.features_per_asset e <= cols t ->
  fst (AssetEncoder.forward (Rank2 t) n e) = touched e.
Proof.
  intros Hle. unfold AssetEncoder.forward.
  unfold bind at 1. unfold get at 1. rewrite forward_touch.
  cbn [size0 size1].
  replace (cols t <? n * AssetEncoder.features_per_asset e) with false
    by (symmetry; apply Nat.ltb_ge; exact Hle).
  unfold bind at 1. unfold ret at 1.
  unfold bind at 1. unfold get at 1.
  rewrite touched_features_per_asset.
  unfold bind at 1. unfold try_except_RuntimeError, lift_result at 1.
  destruct (view3_rank2_ok t n (AssetEncoder.features_per_asset e) Hle)
    as (a & ->).
  apply encode_assets_state.
Qed.

(** On a batch the reshape of line 90 succeeds whatever the encoder holds:
    the call writes nothing but the first-call flag. *)
Lemma forward_rank2_state e t n :
  fst (AssetEncoder.forward (Rank2 t) n e) = touched e.
Proof.
  destruct (Nat.ltb_spec (cols t) (n * AssetEncoder.features_per_asset e))
    as [Hlt | Hge].
  - rewrite forward_pads by assumption.
    apply forward_rank2_wide_state. cbn [pad_right cols]. lia.
  - now apply forward_rank2_wide_state.
Qed.

(** When the reshape of line 90 fails on an input that needed no padding:
    the width is recomputed and written, the block is cut to
    [batch * num_assets * width] columns and reshaped, and lines 99 to 104
    run on the result. *)
Lemma forward_fallback e state n :
  let aft := n * AssetEncoder.features_per_asset e in
  let b := size0 state in
  let block := slice_to aft state in
  let safe := numel block / (b * n) in
  aft <= size1 state ->
  view3 block b n (AssetEncoder.features_per_asset e) = Raise RuntimeError ->
  b * n <> 0 ->
  AssetEncoder.forward state n e =
  bind (lift_result (view3 (slice_to (b * n * safe) block) b n safe))
       (fun af =>
          AssetEncoder.encode_assets af b n
            (if aft <? size1 state then Some (slice_from aft state)
             else None))
       (AssetEncoder.set_features_per_asset safe (touched e)).
Proof.
  intros aft b block safe Hle Hfail Hnz. subst aft b block safe.
  unfold AssetEncoder.forward.
  unfold bind at 1. unfold get at 1. rewrite forward_touch.
  replace (size1 state <? n * AssetEncoder.features_per_asset e) with false
    by (symmetry; apply Nat.ltb_ge; exact Hle).
  unfold bind at 1. unfold ret at 1.
  unfold bind at 1. unfold get at 1.
  rewrite touched_features_per_asset.
  unfold bind at 1. unfold try_except_RuntimeError, lift_result at 1.
  rewrite Hfail. unfold AssetEncoder.fallback.
  apply Nat.eqb_neq in Hnz. rewrite Hnz.
  unfold bind at 1. unfold get at 1.
  unfold bind at 1. unfold put at 1.
  reflexivity.
Qed.

(** When the reshape of line 90 fails on an input that needed no padding,
    the encoder keeps the width the fallback computed. *)
Lemma forward_fallback_state e state n :
  n * AssetEncoder.features_per_asset e <= size1 state ->
  view3 (slice_to (n * AssetEncoder.features_per_asset e) state)
        (size0 state) n (AssetEncoder.features_per_asset e)
  = Raise RuntimeError ->
  size0 state * n <> 0 ->
  fst (AssetEncoder.forward state n e) =
  AssetEncoder.set_features_per_asset
    (numel (slice_to (n * AssetEncoder.features_per_asset e) state)
     / (size0 state * n))
    (touched e).
Proof.
  intros Hle Hfail Hnz. unfold AssetEncoder.forward.
  unfold bind at 1. unfold get at 1. rewrite forward_touch.
  replace (size1 state <? n * AssetEncoder.features_per_asset e) with false
    by (symmetry; apply Nat.ltb_ge; exact Hle).
  unfold bind at 1. unfold ret at 1.
  unfold bind at 1. unfold get at 1.
  rewrite touched_features_per_asset.
  unfold bind at 1. unfold try_except_RuntimeError, lift_result at 1.
  rewrite Hfail. unfold AssetEncoder.fallback.
  apply Nat.eqb_neq in Hnz. rewrite Hnz.
  unfold bind at 1. unfold get at 1.
  unfold bind at 1. unfold put at 1.
  unfold lift_result at 1.
  match goal with
  | |- context [view3 ?a ?b ?c ?d] => destruct (view3 a b c d)
  end; [ | reflexivity ].
  apply encode_assets_state.
Qed.

Lemma zero_linear_wf i o : wf_linear (zero_linear i o).
Proof.
  unfold wf_linear, zero_linear. cbn [weight bias in_features out_features].
  rewrite !repeat_length. repeat split.
  apply Forall_forall. intros x Hx. apply repeat_spec in Hx. subst x.
  apply repeat_length.
Qed.

Lemma encoder4_shaped k : AssetEncoder.shaped (encoder4 k).
Proof.
  unfold AssetEncoder.shaped, encoder4.
  cbn [AssetEncoder.fc1 AssetEncoder.fc2 AssetEncoder.features_per_asset
       AssetEncoder.output_size].
  repeat split; try apply zero_linear_wf.
Qed.

Lemma ramp_wf w : wf2 (ramp w).
Proof.
  unfold wf2, ramp. cbn [rows cols]. constructor; [|constructor].
  now rewrite length_map, length_seq.
Qed.

(* ===================================================================== *)
(** ** AssetEncoder: the fallback, the output width and the padding *)
(* ===================================================================== *)

(** C1.  When the reshape of the asset block fails (on an input that needed
    no padding, with a non-empty batch), [forward] computes
    [safe = numel // (batch * num_assets)], writes it to
    [features_per_asset], cuts the block to [batch * num_assets * safe]
    columns, reshapes it and goes on with lines 99 to 104; the encoder keeps
    the new width.  Some input does trigger this: a tensor with one more
    trailing dimension, of shape (1, 12, 2), changes the width of an encoder
    built for four features per asset from 4 to 8, and no later call on a
    batch changes it back. *)
Theorem fallback_overwrites_features_per_asset :
  (forall e state n,
      let aft := n * AssetEncoder.features_per_asset e in
      let b := size0 state in
      let block := slice_to aft state in
      let safe := numel block / (b * n) in
      aft <= size1 state ->
      view3 block b n (AssetEncoder.features_per_asset e)
      = Raise RuntimeError ->
      b * n <> 0 ->
      AssetEncoder.forward state n e =
        bind (lift_result (view3 (slice_to (b * n * safe) block) b n safe))
             (fun af =>
                AssetEncoder.encode_assets af b n
                  (if aft <? size1 state then Some (slice_from aft state)
                   else None))
             (AssetEncoder.set_features_per_asset safe (touched e)) /\
      AssetEncoder.features_per_asset (fst (AssetEncoder.forward state n e))
      = safe)
  /\
  (exists e state n,
      AssetEncoder.shaped e /\ wf state /\ 0 < n /\
      let e' := fst (AssetEncoder.forward state n e) in
      AssetEncoder.features_per_asset e = 4 /\
      AssetEncoder.features_per_asset e' = 8 /\
      forall t n',
        AssetEncoder.features_per_asset
          (fst (AssetEncoder.forward (Rank2 t) n' e')) = 8).
Proof.
  split.
  - intros e state n aft b block safe Hle Hfail Hnz.
    split; [now apply forward_fallback|].
    now rewrite forward_fallback_state.
  - exists (encoder4 16), cube, 3.
    assert (Hst : fst (AssetEncoder.forward cube 3 (encoder4 16)) =
                  AssetEncoder.set_features_per_asset 8
                    (touched (encoder4 16))).
    { rewrite forward_fallback_state; [reflexivity | cbn; lia | reflexivity
                                      | cbn; lia]. }
    split; [apply encoder4_shaped|].
    split.
    { unfold cube, wf, wf3. cbn [slabs dim1 dim2].
      constructor; [|constructor].
      split; [reflexivity|].
      apply Forall_forall. intros x Hx. apply repeat_spec in Hx.
      now subst x. }
    split; [lia|].
    cbv zeta. rewrite Hst. split; [reflexivity|]. split; [reflexivity|].
    intros t n'. rewrite forward_rank2_state.
    now rewrite touched_features_per_asset.
Qed.

(** The same call ends in a RuntimeError: the fallback changes the width
    but not the first layer, which still expects four features. *)
Lemma fallback_example_raises :
  snd (AssetEncoder.forward cube 3 (encoder4 16)) = Raise RuntimeError.
Proof. reflexivity. Qed.

Lemma fallback_overwrites_features_per_asset_witness :
  AssetEncoder.features_per_asset
    (fst (AssetEncoder.forward cube 3 (encoder4 16))) = 8.
Proof.
  refine (proj2 (proj1 fallback_overwrites_features_per_asset
                   (encoder4 16) cube 3 _ eq_refl _)).
  - cbn. lia.
  - cbn. lia.
Defined.

(** C2.  On a batch of width [F], with a positive number of assets, an
    encoder with the shapes of its constructor returns a batch of width
    [num_assets * output_size + max(0, F - num_assets * features_per_asset)],
    with as many rows as the input.  When the batch is not wider than the
    asset block, every row is the encoding of the row padded with zeros and
    nothing follows it: with four features per asset, three assets and
    width 10, two zeros are appended and [3 * output_size] values come out. *)
Theorem forward_output_width e t n :
  AssetEncoder.shaped e -> wf2 t -> 0 < n ->
  exists out,
    AssetEncoder.forward (Rank2 t) n e = (touched e, Ok (Rank2 out)) /\
    wf2 out /\
    length (rows out) = length (rows t) /\
    Z.of_nat (cols out) =
      (Z.of_nat n * Z.of_nat (AssetEncoder.output_size e) +
       Z.max 0 (Z.of_nat (cols t) -
                Z.of_nat n * Z.of_nat (AssetEncoder.features_per_asset e)))%Z
    /\
    (cols t <= n * AssetEncoder.features_per_asset e ->
     rows out =
     map (fun r =>
            encode_block e n
              (r ++ repeat 0%R
                      (n * AssetEncoder.features_per_asset e - cols t)))
         (rows t)).
Proof.
  intros Hs Hwf Hn. eexists. split; [apply forward_rank2; assumption|].
  cbn [cols rows pad_right]. rewrite map_map.
  pose proof Hwf as Hwf'. unfold wf2 in Hwf'. rewrite Forall_forall in Hwf'.
  split; [|split; [|split]].
  - unfold wf2. cbn [cols rows]. apply Forall_forall. intros x Hx.
    apply in_map_iff in Hx. destruct Hx as (r & <- & Hr).
    rewrite length_app, encode_block_length, length_skipn, length_app,
      repeat_length, (Hwf' r Hr) by assumption.
    lia.
  - now rewrite length_map.
  - lia.
  - intros Hle. apply map_ext_in. intros r Hr.
    rewrite Nat.max_r by assumption.
    rewrite skipn_all2, firstn_all2, app_nil_r;
      [reflexivity | | ];
      rewrite length_app, repeat_length, (Hwf' r Hr); lia.
Qed.

Lemma forward_output_width_witness :
  exists out,
    AssetEncoder.forward (Rank2 (ramp 10)) 3 (encoder4 16) =
    (touched (encoder4 16), Ok (Rank2 out)) /\
    Z.of_nat (cols out) = 48%Z /\
    rows out =
    map (fun r => encode_block (encoder4 16) 3 (r ++ [0; 0]%R))
        (rows (ramp 10)).
Proof.
  destruct (forward_output_width (encoder4 16) (ramp 10) 3
              (encoder4_shaped 16) (ramp_wf 10) (Nat.lt_0_succ 2))
    as (out & Hf & _ & _ & Hc & Hr).
  exists out. split; [exact Hf|]. split; [exact Hc|].
  apply Hr. cbn. lia.
Defined.

(** On a batch, with a positive number of assets, an encoder with the
    shapes of its constructor returns a result and raises nothing, and it
    keeps those shapes for the next call. *)
Lemma forward_on_batch_returns e t n :
  AssetEncoder.shaped e -> wf2 t -> 0 < n ->
  exists e' out,
    AssetEncoder.forward (Rank2 t) n e = (e', Ok out) /\
    AssetEncoder.shaped e'.
Proof.
  intros Hs Hwf Hn. eexists. eexists.
  split; [apply forward_rank2; assumption|].
  now apply touched_shaped.
Qed.

(** C7.  A batch narrower than the asset block gives exactly what the same
    batch gives once it is padded on the right with zeros to the width of
    the asset block: the same result and the same encoder afterwards. *)
Theorem zero_padding_is_neutral e t n :
  cols t < n * AssetEncoder.features_per_asset e ->
  AssetEncoder.forward (Rank2 t) n e =
  AssetEncoder.forward
    (Rank2 (pad_right (n * AssetEncoder.features_per_asset e) t)) n e.
Proof. apply forward_pads. Qed.

Lemma zero_padding_is_neutral_witness :
  AssetEncoder.forward (Rank2 (ramp 10)) 3 (encoder4 16) =
  AssetEncoder.forward (Rank2 (pad_right 12 (ramp 10))) 3 (encoder4 16).
Proof.
  apply (zero_padding_is_neutral (encoder4 16) (ramp 10) 3).
  cbn. lia.
Defined.

(* ===================================================================== *)
(** ** PortfolioCritic: mismatched batches *)
(* ===================================================================== *)

(** C9.  Given a state batch and an action batch with different numbers of
    rows, [forward] raises the RuntimeError of the concatenation along
    dimension 1 and returns nothing: neither input is broadcast, and the
    critic is left as it was. *)
Theorem critic_rejects_mismatched_batches c state action :
  length (rows state) <> length (rows action) ->
  PortfolioCritic.forward state action c = (c, Raise RuntimeError) /\
  cat2 state action = Raise RuntimeError.
Proof.
  intros Hne.
  assert (Hcat : cat2 state action = Raise RuntimeError).
  { unfold cat2. apply Nat.eqb_neq in Hne. now rewrite Hne. }
  split; [|exact Hcat].
  unfold PortfolioCritic.forward, bind, lift_result. now rewrite Hcat.
Qed.

Lemma critic_rejects_mismatched_batches_witness :
  PortfolioCritic.forward (ramp 14) (zeros 2 3) critic17 =
  (critic17, Raise RuntimeError) /\
  cat2 (ramp 14) (zeros 2 3) = Raise RuntimeError.
Proof.
  apply (critic_rejects_mismatched_batches critic17 (ramp 14) (zeros 2 3)).
  cbn. lia.
Defined.

(* ===================================================================== *)
(** ** The softmax *)
(* ===================================================================== *)

Lemma Rsum_cons x l : Rsum (x :: l) = (x + Rsum l)%R.
Proof. reflexivity. Qed.

Lemma Rsum_exp_nonneg xs : (0 <= Rsum (map exp xs))%R.
Proof.
  induction xs as [|x xs IH]; cbn [map].
  - cbn. lra.
  - rewrite Rsum_cons. pose proof (exp_pos x). lra.
Qed.

Lemma Rsum_exp_pos xs : xs <> [] -> (0 < Rsum (map exp xs))%R.
Proof.
  destruct xs as [|x xs]; [congruence|]. intros _.
  cbn [map]. rewrite Rsum_cons.
  pose proof (exp_pos x). pose proof (Rsum_exp_nonneg xs). lra.
Qed.

Lemma Rsum_map_div {A} (f : A -> R) c (l : list A) :
  Rsum (map (fun a => (f a / c)%R) l) = (Rsum (map f l) / c)%R.
Proof.
  induction l as [|a l IH]; cbn [map].
  - cbn. unfold Rdiv. now rewrite Rmult_0_l.
  - rewrite !Rsum_cons, IH. unfold Rdiv. ring.
Qed.

Lemma softmax_nonneg xs : Forall (Rle 0) (softmax xs).
Proof.
  destruct xs as [|x0 xs0]; [constructor|].
  set (xs := x0 :: xs0).
  assert (Hpos : (0 < Rsum (map exp xs))%R) by (apply Rsum_exp_pos; discriminate).
  unfold softmax. apply Forall_forall. intros y Hy.
  apply in_map_iff in Hy. destruct Hy as (x & <- & _).
  apply Rlt_le. apply Rdiv_lt_0_compat; [apply exp_pos | exact Hpos].
Qed.

Lemma softmax_sum xs : xs <> [] -> Rsum (softmax xs) = 1%R.
Proof.
  intros Hne. pose proof (Rsum_exp_pos xs Hne) as Hpos.
  unfold softmax. rewrite (Rsum_map_div exp).
  field. lra.
Qed.

Lemma softmax_length xs : length (softmax xs) = length xs.
Proof. unfold softmax. apply length_map. Qed.

(** C5.  The attention weights of lines 198 and 199 form, for every batch
    element, one weight per asset; the weights are non-negative and add up
    to one. *)
Theorem attention_weights_sum_to_one att assets w :
  wf3 assets -> 0 < dim1 assets ->
  attention_weights att assets = Ok w ->
  length (rows w) = length (slabs assets) /\
  Forall (fun row => length row = dim1 assets /\
                     Forall (Rle 0) row /\ Rsum row = 1%R) (rows w).
Proof.
  intros Hwf Hpos Hw. unfold attention_weights, linear3 in Hw.
  destruct (dim2 assets =? in_features att); [|discriminate].
  cbn [map_result] in Hw. injection Hw as <-.
  unfold softmax_dim1, squeeze_last. cbn [rows cols slabs dim1 dim2].
  rewrite !map_map. split; [apply length_map|].
  apply Forall_forall. intros row Hrow. apply in_map_iff in Hrow.
  destruct Hrow as (s & <- & Hs).
  unfold wf3 in Hwf. rewrite Forall_forall in Hwf.
  destruct (Hwf s Hs) as (Hlen & _).
  split; [|split].
  - now rewrite softmax_length, !length_map.
  - apply softmax_nonneg.
  - apply softmax_sum. intros Hnil. apply (f_equal (@length R)) in Hnil.
    rewrite !length_map, Hlen in Hnil. cbn in Hnil. lia.
Qed.

Lemma attention_weights_sum_to_one_witness :
  exists w,
    attention_weights (zero_linear 2 1) three_assets = Ok w /\
    Forall (fun row => length row = 3 /\
                       Forall (Rle 0) row /\ Rsum row = 1%R) (rows w).
Proof.
  eexists. split; [reflexivity|].
  refine (proj2 (attention_weights_sum_to_one (zero_linear 2 1) three_assets
                   _ _ _ eq_refl)).
  - unfold wf3, three_assets. cbn [slabs dim1 dim2].
    repeat (constructor; try split; try reflexivity).
  - cbn. lia.
Defined.

(* ===================================================================== *)
(** ** The attention layers *)
(* ===================================================================== *)

Lemma sample_list_length n lo hi g :
  length (fst (sample_list n lo hi g)) = n.
Proof.
  revert g. induction n as [|n IH]; intros g; cbn; [reflexivity|].
  specialize (IH (snd (sample lo hi g))).
  cbn in IH. destruct (sample_list n lo hi _). cbn in *. now rewrite IH.
Qed.

Lemma sample_matrix_shape r c lo hi g :
  length (fst (sample_matrix r c lo hi g)) = r /\
  Forall (fun x => length x = c) (fst (sample_matrix r c lo hi g)).
Proof.
  revert g. induction r as [|r IH]; intros g; cbn.
  - split; [reflexivity | constructor].
  - pose proof (sample_list_length c lo hi g) as Hl.
    destruct (sample_list c lo hi g) as [x g1]. cbn in Hl.
    specialize (IH g1). destruct (sample_matrix r c lo hi g1) as [xs g2].
    cbn in *. destruct IH as [IH1 IH2]. split; [now rewrite IH1|].
    now constructor.
Qed.

(** A layer built by [nn.Linear] and initialised within a finite bound. *)
Lemma weight_uniform_ok b l g :
  exists l' g',
    weight_uniform_ (Finite b) l g = (g', Ok l') /\
    in_features l' = in_features l /\ out_features l' = out_features l /\
    wf_linear (bias_fill_0 l').
Proof.
  unfold weight_uniform_.
  pose proof (sample_matrix_shape (out_features l) (in_features l)
                (- b) b g) as [H1 H2].
  destruct (sample_matrix _ _ _ _ g) as [w g1]. cbn in H1, H2.
  eexists. eexists. split; [reflexivity|]. cbn. repeat split; try assumption.
  unfold wf_linear, bias_fill_0. cbn. rewrite repeat_length.
  repeat split; assumption.
Qed.

Lemma nn_Linear_ok i o g :
  exists l g', nn_Linear i o g = (g', Ok l) /\
               in_features l = i /\ out_features l = o.
Proof.
  unfold nn_Linear. destruct (inv_sqrt i).
  - destruct (sample_matrix o i (- r) r g) as [w g1].
    destruct (sample_list o (- r) r g1) as [c g2].
    eexists. eexists. split; [reflexivity|]. now cbn.
  - destruct (sample_list o (- 0) 0 g) as [c g1].
    eexists. eexists. split; [reflexivity|]. now cbn.
Qed.

Lemma inv_sqrt_pos k : 0 < k -> exists b, inv_sqrt k = Finite b.
Proof.
  intros H. unfold inv_sqrt. destruct (Nat.eqb_spec k 0); [lia|].
  eexists. reflexivity.
Qed.

Lemma initialize_attention_layers_frame k w :
  same_frame (fst w) (fst (fst (initialize_attention_layers k w))).
Proof.
  destruct w as [self g].
  unfold initialize_attention_layers.
  unfold bind, draw, update. cbn [fst snd].
  destruct (nn_Linear_ok k 1 g) as (a0 & g1 & -> & _). cbn [fst snd].
  destruct (nn_Linear_ok k k g1) as (v0 & g2 & -> & _). cbn [fst snd].
  unfold weight_uniform_.
  destruct (inv_sqrt k) as [b|].
  - destruct (sample_matrix (out_features a0) _ _ _ g2) as [wa g3].
    cbn [fst snd].
    match goal with
    | |- context [sample_matrix ?p ?q ?lo ?hi ?h] =>
        destruct (sample_matrix p q lo hi h) as [wv g4]
    end.
    cbn. repeat split.
  - cbn. repeat split.
Qed.

Lemma same_frame_refl a : same_frame a a.
Proof. unfold same_frame. repeat split. Qed.

Lemma initialize_attention_layers_ok k self g :
  0 < k ->
  exists self' g',
    initialize_attention_layers k (self, g) = ((self', g'), Ok tt) /\
    attention_ready k self' /\ same_frame self self'.
Proof.
  intros Hk.
  pose proof (initialize_attention_layers_frame k (self, g)) as Hfr.
  revert Hfr.
  unfold initialize_attention_layers.
  unfold bind, draw, update. cbn [fst snd].
  destruct (nn_Linear_ok k 1 g) as (a0 & g1 & -> & Ha1 & Ha2). cbn [fst snd].
  destruct (nn_Linear_ok k k g1) as (v0 & g2 & -> & Hv1 & Hv2). cbn [fst snd].
  destruct (inv_sqrt_pos k Hk) as (b & ->).
  destruct (weight_uniform_ok b a0 g2) as (a1 & g3 & -> & Hi1 & Ho1 & Hw1).
  cbn [fst snd].
  destruct (weight_uniform_ok b v0 g3) as (v1 & g4 & -> & Hi2 & Ho2 & Hw2).
  cbn [fst snd]. intros Hfr.
  eexists. eexists. split; [reflexivity|]. split; [|exact Hfr].
  exists (bias_fill_0 a1), (bias_fill_0 v1). cbn.
  repeat split; try apply Hw1; try apply Hw2; congruence.
Qed.

Lemma ensure_attention_frame k w :
  same_frame (fst w) (fst (fst (ensure_attention k w))).
Proof.
  unfold ensure_attention, bind, self_. cbn [fst snd].
  destruct (stale (fst w) k).
  - apply initialize_attention_layers_frame.
  - apply same_frame_refl.
Qed.

Lemma ensure_attention_ok k self g :
  0 < k -> attention_shaped self ->
  exists self' g',
    ensure_attention k (self, g) = ((self', g'), Ok tt) /\
    attention_ready k self' /\ same_frame self self'.
Proof.
  intros Hk Hsh. unfold ensure_attention, bind, self_. cbn [fst snd].
  destruct (stale self k) eqn:Hst.
  - now apply initialize_attention_layers_ok.
  - exists self, g. split; [reflexivity|]. split; [|apply same_frame_refl].
    unfold stale in Hst. unfold attention_shaped in Hsh.
    destruct (attention self) eqn:Ea; [|discriminate].
    destruct (value self) eqn:Ev; [|discriminate].
    destruct (effective_encoding_size self) as [k'|] eqn:Ek; [|discriminate].
    apply negb_false_iff, Nat.eqb_eq in Hst. subst k'.
    apply Hsh; discriminate.
Qed.

(* ===================================================================== *)
(** ** The preparation of the assets in [apply_attention] *)
(* ===================================================================== *)

Lemma ceil_div_pad c a :
  0 < a -> c mod a <> 0 ->
  c < (c + a - 1) / a * a /\ (c + a - 1) / a * a < c + a.
Proof.
  intros Ha Hr.
  pose proof (Nat.div_mod_eq c a) as Hc.
  pose proof (Nat.mod_upper_bound c a ltac:(lia)) as Hlt.
  assert (Hq : (c + a - 1) / a = S (c / a)).
  { symmetry. apply (Nat.div_unique _ _ _ (c mod a - 1)); nia. }
  rewrite Hq. nia.
Qed.

(** After lines 176 to 184 the block of a batch is as wide as
    [action_size] times the width per asset. *)
Lemma pad_divisible_rank2 a (b : tensor2) :
  0 < a ->
  exists ees,
    pad_divisible a (length (rows b)) (Rank2 b) =
    Ok (Rank2 (pad_right (a * ees) b), ees) /\
    cols b <= a * ees /\ a * ees < cols b + a.
Proof.
  intros Ha. unfold pad_divisible. cbn [size1].
  destruct (Nat.eqb_spec a 0); [lia|].
  destruct (Nat.eqb_spec (cols b mod a) 0) as [Hz | Hnz].
  - exists (cols b / a).
    pose proof (Nat.div_mod_eq (cols b) a) as Hc.
    assert (Hw : a * (cols b / a) = cols b) by lia.
    split; [|lia].
    rewrite Hw. unfold pad_right. rewrite Nat.sub_diag. cbn [repeat].
    do 3 f_equal. destruct b as [c rs]. cbn. f_equal.
    rewrite <- (map_id rs) at 1. apply map_ext. intros r.
    now rewrite app_nil_r.
  - exists ((cols b + a - 1) / a).
    destruct (ceil_div_pad (cols b) a Ha Hnz) as [H1 H2].
    replace (0 <? (cols b + a - 1) / a * a - cols b) with true
      by (symmetry; apply Nat.ltb_lt; lia).
    rewrite cat1_zeros. cbn [map_result]. split; [|lia].
    unfold pad_right.
    replace (cols b + ((cols b + a - 1) / a * a - cols b))
      with (a * ((cols b + a - 1) / a)) by lia.
    replace ((cols b + a - 1) / a * a - cols b)
      with (a * ((cols b + a - 1) / a) - cols b) by lia.
    reflexivity.
Qed.

Lemma view3_rank2 t n k :
  wf2 t -> cols t = n * k ->
  view3 (Rank2 t) (length (rows t)) n k =
  Ok (T3 n k (map (chunks k n) (rows t))).
Proof.
  intros Hwf Hc. unfold view3, numel, flat. cbn [rows cols]. rewrite Hc.
  replace (length (rows t) * (n * k) =? length (rows t) * n * k) with true
    by (symmetry; apply Nat.eqb_eq; lia).
  f_equal. f_equal. rewrite chunks_concat; [reflexivity|].
  unfold wf2 in Hwf. now rewrite Hc in Hwf.
Qed.

Lemma view3_rank2_succeeds t n k :
  cols t = n * k ->
  exists a, view3 (Rank2 t) (length (rows t)) n k = Ok a.
Proof.
  intros Hc. unfold view3, numel. cbn [rows cols]. rewrite Hc.
  replace (length (rows t) * (n * k) =? length (rows t) * n * k) with true
    by (symmetry; apply Nat.eqb_eq; lia).
  eexists. reflexivity.
Qed.

(** When the reshape of line 190 succeeds, lines 189 to 196 write
    nothing. *)
Lemma reshape_assets_ok enc b k assets w :
  view3 enc b (action_size (fst w)) k = Ok assets ->
  reshape_assets enc b k w = (w, Ok (assets, k)).
Proof.
  intros Hv. unfold reshape_assets, bind, self_, try_except_RuntimeError,
    lift_result, ret.
  now rewrite Hv.
Qed.

Lemma strip_tail_rank2 self t :
  exists b,
    snd (strip_tail self (Rank2 t)) = Rank2 b /\
    length (rows b) = length (rows t) /\
    (wf2 t -> wf2 b).
Proof.
  unfold strip_tail.
  destruct ((0 <? extra_features self)%Z &&
            (action_size self * features_per_asset self <? size1 (Rank2 t))).
  - cbn [snd slice_to size1]. eexists. split; [reflexivity|].
    cbn [rows cols]. split; [apply length_map|].
    intros Hwf. unfold wf2 in *. cbn [rows cols].
    rewrite Forall_forall in Hwf.
    apply Forall_forall. intros x Hx. apply in_map_iff in Hx.
    destruct Hx as (r & <- & Hr). rewrite length_firstn, (Hwf r Hr).
    reflexivity.
  - exists t. cbn. tauto.
Qed.

(** [prepare] on a batch: the block is padded, the layers are checked, and
    the reshape succeeds without writing anything. *)
Lemma prepare_rank2 self g t :
  0 < action_size self ->
  exists block ees assets,
    snd (strip_tail self (Rank2 t)) = Rank2 block /\
    length (rows block) = length (rows t) /\
    (wf2 t -> wf2 block) /\
    pad_divisible (action_size self) (length (rows t)) (Rank2 block) =
      Ok (Rank2 (pad_right (action_size self * ees) block), ees) /\
    cols block <= action_size self * ees /\
    action_size self * ees < cols block + action_size self /\
    view3 (Rank2 (pad_right (action_size self * ees) block))
          (length (rows t)) (action_size self) ees = Ok assets /\
    prepare (Rank2 t) (length (rows t)) (self, g) =
      match ensure_attention ees (self, g) with
      | (w, Ok _) => (w, Ok (fst (strip_tail self (Rank2 t)), assets))
      | (w, Raise e) => (w, Raise e)
      end.
Proof.
  intros Ha.
  destruct (strip_tail_rank2 self t) as (block & Hb & Hlen & Hwf).
  destruct (pad_divisible_rank2 (action_size self) block Ha)
    as (ees & Hpad & Hle & Hlt).
  rewrite Hlen in Hpad.
  destruct (view3_rank2_succeeds
              (pad_right (action_size self * ees) block)
              (action_size self) ees eq_refl) as (assets & Hv).
  cbn [pad_right rows] in Hv. rewrite length_map, Hlen in Hv.
  exists block, ees, assets.
  repeat (split; [assumption|]).
  unfold prepare. unfold bind at 1. unfold self_ at 1. cbn [fst snd].
  destruct (strip_tail self (Rank2 t)) as [extra blk]. cbn [fst snd] in *.
  subst blk.
  unfold bind at 1. unfold lift_result at 1. rewrite Hpad.
  unfold bind at 1.
  pose proof (ensure_attention_frame ees (self, g)) as Hfr.
  destruct (ensure_attention ees (self, g)) as [w [u|e]]; [|reflexivity].
  cbn [fst] in Hfr. destruct Hfr as (Hact & _).
  unfold bind at 1.
  rewrite (reshape_assets_ok _ _ _ assets).
  - reflexivity.
  - rewrite <- Hact. exact Hv.
Qed.

(** C10, amended.  In [apply_attention] on a batch, called with the
    batch's own number of rows (as [forward] calls it) and a positive
    [action_size]: after the padding step the
    block is exactly [action_size * effective_encoding_size] wide, the
    reshape of line 190 succeeds, and the actor after the call is the actor
    after the check of lines 186 and 187, so the fallback never builds the
    projections. *)
Theorem attention_reshape_never_fails self g t :
  0 < action_size self ->
  exists block ees assets,
    snd (strip_tail self (Rank2 t)) = Rank2 block /\
    pad_divisible (action_size self) (length (rows t)) (Rank2 block) =
      Ok (Rank2 (pad_right (action_size self * ees) block), ees) /\
    size1 (Rank2 (pad_right (action_size self * ees) block)) =
      action_size self * ees /\
    view3 (Rank2 (pad_right (action_size self * ees) block))
          (length (rows t)) (action_size self) ees = Ok assets /\
    fst (apply_attention (Rank2 t) (length (rows t)) (self, g)) =
      fst (ensure_attention ees (self, g)).
Proof.
  intros Ha.
  destruct (prepare_rank2 self g t Ha)
    as (block & ees & assets & Hb & _ & _ & Hpad & _ & _ & Hv & Hprep).
  exists block, ees, assets.
  repeat (split; [first [assumption | reflexivity]|]).
  unfold apply_attention, bind. rewrite Hprep.
  destruct (ensure_attention ees (self, g)) as [w [u|e]]; [|reflexivity].
  cbn [fst snd self_].
  destruct (fst (strip_tail self (Rank2 t)));
    destruct (attention (fst w)); destruct (value (fst w));
    unfold lift_result, raise, ret; cbn;
    try reflexivity;
    destruct (attend _ _ _ _ _); reflexivity.
Qed.

Lemma attention_reshape_never_fails_witness :
  exists block ees assets,
    snd (strip_tail (actor14 16) (Rank2 (ramp 50))) = Rank2 block /\
    pad_divisible 3 1 (Rank2 block) =
      Ok (Rank2 (pad_right (3 * ees) block), ees) /\
    size1 (Rank2 (pad_right (3 * ees) block)) = 3 * ees /\
    view3 (Rank2 (pad_right (3 * ees) block)) 1 3 ees = Ok assets /\
    fst (apply_attention (Rank2 (ramp 50)) 1 (actor14 16, half)) =
      fst (ensure_attention ees (actor14 16, half)).
Proof.
  exact (attention_reshape_never_fails (actor14 16) half (ramp 50)
           (Nat.lt_0_succ 2)).
Defined.

(** C10 as stated fails when [apply_attention] is called with a
    [batch_size] other than the number of rows.  For two rows of six
    values, three assets and [batch_size = 1] the padding step leaves the
    block as it is and gives the width 2 per asset, the check of lines 186
    and 187 builds the projections for 2, the reshape into (1, 3, 2) fails
    on the twelve values, and the fallback builds the projections again,
    for the width 4. *)
Lemma fallback_reached_with_another_batch_size :
  pad_divisible 3 1 (Rank2 (ramp2 6)) = Ok (Rank2 (ramp2 6), 2) /\
  size1 (Rank2 (ramp2 6)) = 3 * 2 /\
  view3 (Rank2 (ramp2 6)) 1 3 2 = Raise RuntimeError /\
  effective_encoding_size
    (fst (fst (ensure_attention 2 (actor12 2, half)))) = Some 2 /\
  effective_encoding_size
    (fst (fst (apply_attention (Rank2 (ramp2 6)) 1 (actor12 2, half))))
  = Some 4 /\
  fst (apply_attention (Rank2 (ramp2 6)) 1 (actor12 2, half)) <>
  fst (ensure_attention 2 (actor12 2, half)).
Proof.
  assert (H2 : effective_encoding_size
                 (fst (fst (ensure_attention 2 (actor12 2, half)))) = Some 2).
  { pose proof (ensure_attention_ok 2 (actor12 2) half (Nat.lt_0_succ 1) I)
      as (self' & g' & E & (a & v & _ & _ & Ek & _) & _).
    rewrite E. exact Ek. }
  assert (H4 : effective_encoding_size
                 (fst (fst (apply_attention (Rank2 (ramp2 6)) 1
                                            (actor12 2, half)))) = Some 4).
  { lazy -[Rplus Rmult Rminus Ropp Rdiv Rinv exp sqrt INR Rmax IZR].
    reflexivity. }
  split; [reflexivity|]. split; [reflexivity|]. split; [reflexivity|].
  split; [exact H2|]. split; [exact H4|].
  intros E. rewrite E, H2 in H4. discriminate H4.
Qed.

(* ===================================================================== *)
(** ** The context vector *)
(* ===================================================================== *)

Lemma Rsum_perm l l' : Permutation l l' -> Rsum l = Rsum l'.
Proof.
  induction 1; rewrite ?Rsum_cons; lra.
Qed.

Lemma softmax_map {A} (f : A -> R) (s : list A) :
  softmax (map f s) =
  map (fun c => (exp (f c) / Rsum (map exp (map f s)))%R) s.
Proof. unfold softmax. now rewrite map_map. Qed.

Lemma weighted_sum_slab_maps {A} kv (f : A -> R) (g : A -> list R) s :
  weighted_sum_slab kv (map f s) (map g s) =
  map (fun j => Rsum (map (fun c => nth j (map (Rmult (f c)) (g c)) 0%R) s))
      (seq 0 kv).
Proof.
  unfold weighted_sum_slab, column. rewrite zip_with_maps.
  apply map_ext. intros j. now rewrite map_map.
Qed.

(** The context of one batch element does not depend on the order of its
    assets. *)
Lemma slab_context_perm {A} kv (sc : A -> R) (vf : A -> list R) s s' :
  Permutation s s' ->
  weighted_sum_slab kv (softmax (map sc s)) (map vf s) =
  weighted_sum_slab kv (softmax (map sc s')) (map vf s').
Proof.
  intros Hp. rewrite !softmax_map.
  assert (Hz : Rsum (map exp (map sc s)) = Rsum (map exp (map sc s'))).
  { apply Rsum_perm. now do 2 apply Permutation_map. }
  rewrite Hz. rewrite !weighted_sum_slab_maps.
  apply map_ext. intros j. apply Rsum_perm. now apply Permutation_map.
Qed.

Lemma map_Forall2 {A B} (R0 : A -> A -> Prop) (f : A -> B) l l' :
  (forall x y, R0 x y -> f x = f y) ->
  Forall2 R0 l l' -> map f l = map f l'.
Proof.
  intros Hf. induction 1; cbn; [reflexivity|].
  f_equal; [now apply Hf | assumption].
Qed.

Lemma context_vector_perm att val (assets assets' : tensor3) :
  dim1 assets = dim1 assets' -> dim2 assets = dim2 assets' ->
  Forall2 (@Permutation (list R)) (slabs assets) (slabs assets') ->
  context_vector att val assets = context_vector att val assets'.
Proof.
  intros H1 H2 Hp.
  unfold context_vector, attention_weights, linear3. rewrite <- H1, <- H2.
  destruct (dim2 assets =? in_features att); [|reflexivity].
  cbn [map_result bind_result].
  destruct (dim2 assets =? in_features val); [|reflexivity].
  cbn [bind_result]. f_equal.
  unfold weighted_sum, softmax_dim1, squeeze_last.
  cbn [rows cols slabs dim1 dim2]. f_equal.
  rewrite !map_map.
  rewrite !(zip_with_maps (weighted_sum_slab (out_features val))).
  apply (map_Forall2 (@Permutation (list R))); [|exact Hp].
  intros x y Hxy. rewrite !map_map.
  now apply (slab_context_perm (out_features val)
               (fun c => nth 0 (linear_vec att c) 0%R) (linear_vec val)).
Qed.

Lemma context_vector_ok att val (assets : tensor3) :
  dim2 assets = in_features att -> dim2 assets = in_features val ->
  exists ctx,
    context_vector att val assets = Ok ctx /\
    cols ctx = out_features val /\
    length (rows ctx) = length (slabs assets).
Proof.
  intros H1 H2. unfold context_vector, attention_weights, linear3.
  rewrite <- H1, <- H2, Nat.eqb_refl. cbn [map_result bind_result].
  eexists. split; [reflexivity|].
  unfold weighted_sum, softmax_dim1, squeeze_last.
  cbn [rows cols slabs dim1 dim2]. split; [reflexivity|].
  rewrite zip_with_length, !length_map. apply Nat.min_id.
Qed.

Lemma pad_right_same w t : cols t = w -> pad_right w t = t.
Proof.
  intros <-. unfold pad_right. rewrite Nat.sub_diag. cbn [repeat].
  destruct t as [c rs]. cbn. f_equal.
  rewrite <- (map_id rs) at 2. apply map_ext. intros r. apply app_nil_r.
Qed.

(** [attention_context] on a batch without a tail whose width is
    [action_size * k]. *)
Lemma attention_context_rank2 self g t k :
  0 < action_size self -> wf2 t ->
  cols t = action_size self * k ->
  strip_tail self (Rank2 t) = (None, Rank2 t) ->
  attention_context (Rank2 t) (length (rows t)) (self, g) =
  match ensure_attention k (self, g) with
  | (w, Ok _) =>
      match attention (fst w), value (fst w) with
      | Some att, Some val =>
          (w, context_vector att val
                (T3 (action_size self) k
                    (map (chunks k (action_size self)) (rows t))))
      | _, _ => (w, Raise TypeError)
      end
  | (w, Raise e) => (w, Raise e)
  end.
Proof.
  intros Ha Hwf Hc Hstrip.
  destruct (prepare_rank2 self g t Ha)
    as (block & ees & assets & Hb & _ & _ & _ & Hle & Hlt & Hv & Hprep).
  rewrite Hstrip in Hb, Hprep. cbn [fst snd] in Hb, Hprep.
  injection Hb as <-.
  assert (ees = k) by nia. subst ees.
  rewrite pad_right_same in Hv by exact Hc.
  rewrite view3_rank2 in Hv by assumption. injection Hv as <-.
  unfold attention_context, bind. rewrite Hprep.
  destruct (ensure_attention k (self, g)) as [w [u|e]]; [|reflexivity].
  cbn [self_ fst snd].
  destruct (attention (fst w)); [|reflexivity].
  destruct (value (fst w)); reflexivity.
Qed.

Lemma strip_tail_cols self t t' :
  cols t = cols t' ->
  strip_tail self (Rank2 t) = (None, Rank2 t) ->
  strip_tail self (Rank2 t') = (None, Rank2 t').
Proof.
  unfold strip_tail. cbn [size1]. intros <-.
  destruct ((0 <? extra_features self)%Z &&
            (action_size self * features_per_asset self <? cols t));
    [discriminate | reflexivity].
Qed.

(** C8.  For two batches without a tail, of width [action_size * k], whose
    rows hold the same per-asset chunks in a different order, the context
    vectors [apply_attention] computes are the same, and so is the actor
    afterwards; they are computed (nothing is raised) and are [k] wide. *)
Theorem context_is_permutation_invariant self g t t' k :
  0 < action_size self -> 0 < k -> attention_shaped self ->
  wf2 t -> wf2 t' ->
  cols t = action_size self * k -> cols t' = action_size self * k ->
  strip_tail self (Rank2 t) = (None, Rank2 t) ->
  Forall2 (fun r r' => Permutation (chunks k (action_size self) r)
                                   (chunks k (action_size self) r'))
          (rows t) (rows t') ->
  exists w ctx,
    attention_context (Rank2 t) (length (rows t)) (self, g) = (w, Ok ctx) /\
    attention_context (Rank2 t') (length (rows t')) (self, g) = (w, Ok ctx)
    /\ cols ctx = k /\ length (rows ctx) = length (rows t).
Proof.
  intros Ha Hk Hsh Hwf Hwf' Hc Hc' Hstrip Hperm.
  assert (Hstrip' : strip_tail self (Rank2 t') = (None, Rank2 t'))
    by (apply (strip_tail_cols self t t'); [congruence | assumption]).
  rewrite (attention_context_rank2 self g t k) by assumption.
  rewrite (attention_context_rank2 self g t' k) by assumption.
  destruct (ensure_attention_ok k self g Hk Hsh)
    as (self' & g' & -> & Hready & _).
  destruct Hready as (att & val & Ea & Ev & _ & _ & _ & Hia & _ & Hiv & Hov).
  cbn [fst]. rewrite Ea, Ev.
  set (assets := T3 (action_size self) k
                    (map (chunks k (action_size self)) (rows t))).
  destruct (context_vector_ok att val assets)
    as (ctx & Hctx & Hcols & Hrows); [now cbn | now cbn |].
  exists (self', g'), ctx.
  split; [now rewrite Hctx|].
  split.
  - rewrite <- Hctx. f_equal. symmetry.
    apply context_vector_perm; [reflexivity | reflexivity |].
    cbn [slabs]. clear - Hperm.
    induction Hperm; cbn; constructor; assumption.
  - split; [congruence|]. rewrite Hrows. subst assets. cbn [slabs].
    apply length_map.
Qed.

Lemma context_is_permutation_invariant_witness :
  exists w ctx,
    attention_context (Rank2 (T2 6 [[1; 2; 3; 4; 5; 6]%R])) 1
                      (actor12 2, half) = (w, Ok ctx) /\
    attention_context (Rank2 (T2 6 [[3; 4; 1; 2; 5; 6]%R])) 1
                      (actor12 2, half) = (w, Ok ctx) /\
    cols ctx = 2 /\ length (rows ctx) = 1.
Proof.
  apply (context_is_permutation_invariant (actor12 2) half
           (T2 6 [[1; 2; 3; 4; 5; 6]%R]) (T2 6 [[3; 4; 1; 2; 5; 6]%R]) 2);
    first [ exact I | reflexivity | cbn; lia
          | (constructor; [|constructor]; cbn; apply perm_swap)
          | repeat constructor ].
Defined.

(* ===================================================================== *)
(** ** The tail through the encoder and the attention *)
(* ===================================================================== *)

Lemma view3_shape t b n k x :
  view3 t b n k = Ok x ->
  dim1 x = n /\ dim2 x = k /\ length (slabs x) = b.
Proof.
  unfold view3. destruct (numel t =? b * n * k); [|discriminate].
  intros H. injection H as <-. cbn [dim1 dim2 slabs].
  now rewrite length_map, chunks_length.
Qed.

Lemma attend_ok att val assets a b :
  dim1 assets = a -> length (slabs assets) = b ->
  dim2 assets = in_features att -> dim2 assets = in_features val ->
  exists flattened,
    attend att val assets a b = Ok flattened /\
    cols flattened = (dim2 assets + out_features val) * a /\
    length (rows flattened) = b.
Proof.
  intros Hd Hb Ha Hv. unfold attend.
  destruct (context_vector_ok att val assets Ha Hv)
    as (ctx & -> & Hc & Hr).
  cbn [bind_result]. unfold view2, numel, cat_context.
  cbn [dim1 dim2 slabs]. rewrite zip_with_length, Hr, Nat.min_id, Hb, Hc, Hd.
  replace (b * a * (dim2 assets + out_features val)
           =? b * ((dim2 assets + out_features val) * a)) with true
    by (symmetry; apply Nat.eqb_eq; lia).
  eexists. split; [reflexivity|]. cbn [cols rows].
  split; [reflexivity | apply chunks_length].
Qed.

Lemma strip_tail_cut self t e :
  extra_features self = Z.of_nat e -> 0 < e -> e <= cols t ->
  action_size self * features_per_asset self < cols t ->
  strip_tail self (Rank2 t) =
  (Some (slice_from (cols t - e) (Rank2 t)),
   slice_to (cols t - e) (Rank2 t)).
Proof.
  intros He Hpos Hle Hlt. unfold strip_tail. cbn [size1].
  replace (0 <? extra_features self)%Z with true
    by (symmetry; apply Z.ltb_lt; lia).
  replace (action_size self * features_per_asset self <? cols t) with true
    by (symmetry; apply Nat.ltb_lt; exact Hlt).
  cbn [andb]. unfold slice_bound.
  replace (- extra_features self <? 0)%Z with true
    by (symmetry; apply Z.ltb_lt; lia).
  replace (Z.to_nat (Z.max 0 (Z.of_nat (cols t) + - extra_features self)))
    with (cols t - e) by lia.
  reflexivity.
Qed.

Lemma zip_app_tails {A B} (g : A -> list B) (u : list (list B)) l :
  length u = length l ->
  Forall2 (fun r o => exists front, o = front ++ g r)
          l (zip_with (@app B) u (map g l)).
Proof.
  revert u. induction l as [|r l IH]; intros [|x u] H; cbn in *;
    try discriminate; constructor.
  - now exists x.
  - apply IH. lia.
Qed.

Lemma Forall2_of_map {A B C} (P : B -> C -> Prop) (f : A -> B) l l' :
  Forall2 P (map f l) l' -> Forall2 (fun x y => P (f x) y) l l'.
Proof.
  revert l'. induction l as [|x l IH]; intros l' H; cbn in H;
    inversion H; subst; constructor; auto.
Qed.

(** [apply_attention] on a batch that ends with the [e] values the actor
    expects, and is wide enough for the tail to be cut: the tail comes out
    at the end of every row. *)
Lemma apply_attention_tail self g mid e k :
  0 < action_size self -> 0 < k -> 0 < e -> attention_shaped self ->
  extra_features self = Z.of_nat e ->
  cols mid = action_size self * k + e ->
  action_size self * features_per_asset self < cols mid ->
  exists w out,
    apply_attention (Rank2 mid) (length (rows mid)) (self, g)
    = (w, Ok (Rank2 out)) /\
    cols out = action_size self * (2 * k) + e /\
    Forall2 (fun r o => exists front,
                 o = front ++ skipn (action_size self * k) r)
            (rows mid) (rows out).
Proof.
  intros Ha Hk He Hsh Hex Hc Hguard.
  destruct (prepare_rank2 self g mid Ha)
    as (block & ees & assets & Hb & _ & _ & _ & Hle & Hlt & Hv & Hprep).
  rewrite (strip_tail_cut self mid e) in Hb, Hprep by (assumption || lia).
  cbn [fst snd] in Hb, Hprep.
  replace (cols mid - e) with (action_size self * k) in Hb, Hprep by lia.
  cbn [slice_to] in Hb. injection Hb as <-. cbn [cols] in Hle, Hlt.
  rewrite Nat.min_l in Hle, Hlt by lia.
  assert (ees = k) by nia. subst ees.
  destruct (ensure_attention_ok k self g Hk Hsh)
    as (self' & g' & Hens & Hready & Hfr).
  destruct Hready as (att & val & Ea & Ev & _ & _ & _ & Hia & _ & Hiv & Hov).
  destruct Hfr as (Hact & _).
  destruct (view3_shape _ _ _ _ _ Hv) as (Hd1 & Hd2 & Hlen).
  destruct (attend_ok att val assets (action_size self) (length (rows mid)))
    as (flattened & Hatt & Hcols & Hrows);
    [assumption | assumption | congruence | congruence |].
  unfold apply_attention, bind. rewrite Hprep, Hens.
  cbn [self_ fst snd]. rewrite Ea, Ev, <- Hact.
  unfold lift_result at 1. rewrite Hatt.
  unfold lift_result, cat1, slice_from, cat2. cbn [rows cols].
  rewrite Hrows, length_map, Nat.eqb_refl. cbn [map_result].
  eexists. eexists. split; [reflexivity|]. cbn [cols rows].
  split; [rewrite Hcols, Hd2, Hov; lia|].
  apply zip_app_tails. exact Hrows.
Qed.

(** When the test of line 171 lets the tail through.  Let the observation
    be [a * fpa + e] wide for
    [a] assets of [fpa] features and a tail of [e > 0] values, let the
    actor expect exactly that tail, and let the encoded width
    [a * output_size + e] exceed [a * fpa] (the test of line 171).  Then the
    encoder returns every row's encoding followed by the row's tail, and
    what reaches the trunk after the attention is [a * 2 * output_size + e]
    wide and ends, row by row, with the same tail in the same order. *)
Theorem tail_is_reattached self g obs e :
  let enc := asset_encoder self in
  let a := action_size self in
  let fpa := features_per_asset self in
  let k := AssetEncoder.output_size enc in
  0 < a -> 0 < k -> 0 < e ->
  use_attention self = true ->
  AssetEncoder.features_per_asset enc = fpa ->
  AssetEncoder.shaped enc -> attention_shaped self ->
  extra_features self = Z.of_nat e ->
  wf2 obs -> cols obs = a * fpa + e ->
  a * fpa < a * k + e ->
  exists mid w out,
    AssetEncoder.forward (Rank2 obs) a enc = (touched enc, Ok (Rank2 mid)) /\
    cols mid = a * k + e /\
    rows mid = map (fun r => encode_block enc a (firstn (a * fpa) r)
                             ++ skipn (a * fpa) r) (rows obs) /\
    encode (Rank2 obs) (self, g) = (w, Ok (Rank2 out)) /\
    cols out = a * (2 * k) + e /\
    Forall2 (fun r o => exists front, o = front ++ skipn (a * fpa) r)
            (rows obs) (rows out).
Proof.
  intros enc a fpa k Ha Hk He Hatt Hfpa Hs Hsh Hex Hwf Hc Hguard.
  pose proof (forward_rank2 enc obs a Hs Hwf) as Hf. cbv zeta in Hf.
  rewrite Hfpa in Hf. fold a fpa k in Hf.
  rewrite Nat.max_l, pad_right_same in Hf by lia.
  replace (cols obs - a * fpa) with e in Hf by lia.
  set (mid := T2 (a * k + e)
                 (map (fun r => encode_block enc a (firstn (a * fpa) r)
                                ++ skipn (a * fpa) r) (rows obs))) in *.
  set (self1 := set_asset_encoder (touched enc) self).
  destruct (apply_attention_tail self1 g mid e k)
    as (w & out & Happ & Hcols & Htail);
    try assumption; try reflexivity.
  exists mid, w, out.
  split; [exact Hf|]. split; [reflexivity|]. split; [reflexivity|].
  split.
  - unfold encode, bind, self_, on_encoder. cbn [fst snd].
    fold enc a. rewrite Hf. fold self1. rewrite Hatt.
    replace (size0 (Rank2 obs)) with (length (rows mid))
      by (subst mid; cbn [rows size0]; apply length_map).
    exact Happ.
  - split; [exact Hcols|].
    subst mid. cbn [rows] in Htail.
    clear - Htail Hs. fold a in Htail.
    apply Forall2_of_map in Htail.
    eapply Forall2_impl; [|exact Htail].
    cbn. intros r o (front & ->). exists front. f_equal.
    fold a.
    assert (Hl : length (encode_block enc a (firstn (a * fpa) r)) = a * k)
      by (now apply encode_block_length).
    rewrite skipn_app, Hl, Nat.sub_diag, skipn_all2 by lia.
    reflexivity.
Qed.

Lemma tail_is_reattached_witness :
  exists mid w out,
    AssetEncoder.forward (Rank2 (ramp 14)) 3 (encoder4 16) =
      (touched (encoder4 16), Ok (Rank2 mid)) /\
    cols mid = 3 * 16 + 2 /\
    rows mid = map (fun r => encode_block (encoder4 16) 3 (firstn (3 * 4) r)
                             ++ skipn (3 * 4) r) (rows (ramp 14)) /\
    encode (Rank2 (ramp 14)) (actor14 16, half) = (w, Ok (Rank2 out)) /\
    cols out = 3 * (2 * 16) + 2 /\
    Forall2 (fun r o => exists front, o = front ++ skipn (3 * 4) r)
            (rows (ramp 14)) (rows out).
Proof.
  apply (tail_is_reattached (actor14 16) half (ramp 14) 2);
    first [ apply encoder4_shaped | apply ramp_wf | exact I
          | reflexivity | cbn; lia ].
Defined.

Lemma midpoint_zero (b : R) : (- b + 1 / 2 * (b - - b))%R = 0%R.
Proof. lra. Qed.

(** C6.  The claim fails on the code when the encoding is narrower than
    the features.  Line 171 compares the encoded width with
    [action_size * features_per_asset], the width of the raw asset block.
    A fresh actor for a state of width 14 (three assets, four features,
    tail of two) with [encoding_size = 2] encodes the observation
    [1, ..., 14] into 8 values, not more than the 12 of line 171: the tail
    is not cut off, it is reshaped as part of the third asset, and the 18
    values that come out end with context values, here zero, not with 13
    and 14. *)
Lemma narrow_encoding_mixes_the_tail :
  exists g w row,
    init 14 3 4 0 256 128 2 true None half = (g, Ok (actor14 2)) /\
    encode (Rank2 (ramp 14)) (actor14 2, g) =
      (w, Ok (Rank2 (T2 18 [row]))) /\
    length row = 18 /\
    skipn 16 row = [0; 0]%R /\
    skipn 12 (hd [] (rows (ramp 14))) = [INR 13; INR 14] /\
    skipn 16 row <> skipn 12 (hd [] (rows (ramp 14))).
Proof.
  eexists. eexists. eexists.
  split.
  { lazy -[Rplus Rmult Rminus Ropp Rdiv Rinv exp sqrt INR Rmax IZR].
    rewrite !midpoint_zero. reflexivity. }
  split; [lazy -[Rplus Rmult Rminus Ropp Rdiv Rinv exp sqrt INR Rmax IZR];
          reflexivity|].
  split; [reflexivity|].
  match goal with
  | |- ?P /\ ?Q /\ _ => assert (H16 : P); [| assert (H12 : Q) by reflexivity]
  end.
  - cbn [skipn]. rewrite !midpoint_zero.
    f_equal; [ring | f_equal; ring].
  - split; [exact H16|]. split; [exact H12|].
    rewrite H16, H12. intros H. injection H as H _.
    pose proof (lt_0_INR 13 ltac:(lia)). lra.
Qed.


(* ===================================================================== *)
(** ** The trunk *)
(* ===================================================================== *)

Lemma sample_within b g :
  unit_samples g -> (0 <= b)%R ->
  (- b <= fst (sample (- b) b g) <= b)%R /\ unit_samples (snd (sample (- b) b g)).
Proof.
  intros Hu Hb. unfold sample. cbn [fst snd]. split; [|exact Hu].
  destruct (Hu (position g)) as [H0 H1]. nra.
Qed.

Lemma sample_list_within n b g :
  unit_samples g -> (0 <= b)%R ->
  Forall (fun x => (- b <= x <= b)%R) (fst (sample_list n (- b) b g)) /\
  unit_samples (snd (sample_list n (- b) b g)).
Proof.
  intros Hu Hb. revert g Hu.
  induction n as [|n IH]; intros g Hu; cbn [sample_list].
  - split; [constructor | exact Hu].
  - destruct (sample_within b g Hu Hb) as [Hx Hu1].
    destruct (sample (- b) b g) as [x g1]. cbn [fst snd] in *.
    specialize (IH g1 Hu1).
    destruct (sample_list n (- b) b g1) as [xs g2]. cbn [fst snd] in *.
    destruct IH. split; [now constructor | assumption].
Qed.

Lemma sample_matrix_within r c b g :
  unit_samples g -> (0 <= b)%R ->
  Forall (Forall (fun x => (- b <= x <= b)%R))
         (fst (sample_matrix r c (- b) b g)) /\
  unit_samples (snd (sample_matrix r c (- b) b g)).
Proof.
  intros Hu Hb. revert g Hu.
  induction r as [|r IH]; intros g Hu; cbn [sample_matrix].
  - split; [constructor | exact Hu].
  - destruct (sample_list_within c b g Hu Hb) as [Hx Hu1].
    destruct (sample_list c (- b) b g) as [x g1]. cbn [fst snd] in *.
    specialize (IH g1 Hu1).
    destruct (sample_matrix r c (- b) b g1) as [xs g2]. cbn [fst snd] in *.
    destruct IH. split; [now constructor | assumption].
Qed.

Lemma sample_list_stream n lo hi g :
  stream (snd (sample_list n lo hi g)) = stream g.
Proof.
  revert g. induction n as [|n IH]; intros g; cbn [sample_list];
    [reflexivity|].
  unfold sample. specialize (IH (Gen (algorithm g) (stream g)
                                     (S (position g)))).
  destruct (sample_list n lo hi _) as [xs g2]. exact IH.
Qed.

Lemma sample_matrix_stream r c lo hi g :
  stream (snd (sample_matrix r c lo hi g)) = stream g.
Proof.
  revert g. induction r as [|r IH]; intros g; cbn [sample_matrix];
    [reflexivity|].
  pose proof (sample_list_stream c lo hi g) as Hl.
  destruct (sample_list c lo hi g) as [x g1]. cbn [snd] in Hl.
  specialize (IH g1). destruct (sample_matrix r c lo hi g1) as [xs g2].
  cbn [snd] in *. congruence.
Qed.

(** The constructor of a layer leaves a generator of unit samples one. *)
Lemma nn_Linear_samples i o g :
  unit_samples g -> unit_samples (fst (nn_Linear i o g)).
Proof.
  intros Hu. unfold nn_Linear. destruct (inv_sqrt i).
  - pose proof (sample_matrix_stream o i (- r)%R r g) as Hst.
    destruct (sample_matrix o i (- r) r g) as [w g1]. cbn [snd] in Hst.
    pose proof (sample_list_stream o (- r)%R r g1) as Hl.
    destruct (sample_list o (- r) r g1) as [c g2]. cbn [fst snd] in *.
    unfold unit_samples in *. intros j. rewrite Hl, Hst. apply Hu.
  - pose proof (sample_list_stream o (- 0)%R 0%R g) as Hl.
    destruct (sample_list o (- 0) 0 g) as [c g1]. cbn [fst snd] in *.
    unfold unit_samples in *. intros j. rewrite Hl. apply Hu.
Qed.

Lemma inv_sqrt_nonneg k b : inv_sqrt k = Finite b -> (0 <= b)%R.
Proof.
  unfold inv_sqrt. destruct (Nat.eqb_spec k 0); [discriminate|].
  intros H. injection H as <-.
  assert (0 < sqrt (INR k))%R by (apply sqrt_lt_R0, lt_0_INR; lia).
  apply Rlt_le. apply Rdiv_lt_0_compat; lra.
Qed.

(** A hidden layer after [reset_parameters]. *)
Lemma reset_hidden_ok l g :
  0 < in_features l ->
  exists l' g',
    reset_hidden l g = (g', Ok l') /\
    in_features l' = in_features l /\ out_features l' = out_features l /\
    wf_linear l' /\
    (unit_samples g ->
     unit_samples g' /\
     initialised_within (1 / sqrt (INR (in_features l))) l').
Proof.
  intros Hpos. unfold reset_hidden, hidden_init, bind.
  pose proof (inv_sqrt_nonneg (in_features l)) as Hnn.
  unfold inv_sqrt in *. destruct (Nat.eqb_spec (in_features l) 0); [lia|].
  specialize (Hnn _ eq_refl).
  unfold weight_uniform_.
  pose proof (sample_matrix_shape (out_features l) (in_features l)
                (- (1 / sqrt (INR (in_features l))))
                (1 / sqrt (INR (in_features l))) g) as [H1 H2].
  pose proof (sample_matrix_within (out_features l) (in_features l)
                (1 / sqrt (INR (in_features l))) g) as Hw.
  destruct (sample_matrix _ _ _ _ g) as [w g1]. cbn [fst snd] in *.
  eexists. eexists. split; [reflexivity|]. cbn.
  repeat split; try assumption.
  all: try apply repeat_length.
  all: now apply Hw.
Qed.

(** The output layer after [reset_parameters]. *)
Lemma reset_output_ok l g :
  exists l' g',
    reset_output l g = (g', Ok l') /\
    in_features l' = in_features l /\ out_features l' = out_features l /\
    wf_linear l' /\
    (unit_samples g ->
     unit_samples g' /\ initialised_within output_bound l').
Proof.
  unfold reset_output, bind, weight_uniform_.
  pose proof (sample_matrix_shape (out_features l) (in_features l)
                (- output_bound) output_bound g) as [H1 H2].
  pose proof (sample_matrix_within (out_features l) (in_features l)
                output_bound g) as Hw.
  destruct (sample_matrix _ _ _ _ g) as [w g1]. cbn [fst snd] in *.
  eexists. eexists. split; [reflexivity|]. cbn.
  assert (0 <= output_bound)%R by (unfold output_bound; lra).
  repeat split; try assumption.
  all: try apply repeat_length.
  all: now apply Hw.
Qed.

Lemma fresh_trunk_ok w u1 u2 a g :
  0 < w -> 0 < u1 -> 0 < u2 ->
  exists l1 l2 l3 g',
    fresh_trunk w u1 u2 a g = (g', Ok (l1, l2, l3)) /\
    (in_features l1 = w /\ out_features l1 = u1) /\
    (in_features l2 = u1 /\ out_features l2 = u2) /\
    (in_features l3 = u2 /\ out_features l3 = a) /\
    (wf_linear l1 /\ wf_linear l2 /\ wf_linear l3) /\
    (unit_samples g ->
     initialised_within (1 / sqrt (INR w)) l1 /\
     initialised_within (1 / sqrt (INR u1)) l2 /\
     initialised_within output_bound l3).
Proof.
  intros Hw H1 H2. unfold fresh_trunk.
  pose proof (nn_Linear_samples w u1 g) as Hs1.
  destruct (nn_Linear_ok w u1 g) as (d1 & g1 & E1 & Hi1 & Ho1).
  pose proof (nn_Linear_samples u1 u2 g1) as Hs2.
  destruct (nn_Linear_ok u1 u2 g1) as (d2 & g2 & E2 & Hi2 & Ho2).
  pose proof (nn_Linear_samples u2 a g2) as Hs3.
  destruct (nn_Linear_ok u2 a g2) as (d3 & g3 & E3 & Hi3 & Ho3).
  rewrite E1 in Hs1. rewrite E2 in Hs2. rewrite E3 in Hs3. cbn [fst] in *.
  destruct (reset_hidden_ok d1 g3 ltac:(lia))
    as (l1 & g4 & R1 & Ji1 & Jo1 & W1 & B1).
  destruct (reset_hidden_ok d2 g4 ltac:(lia))
    as (l2 & g5 & R2 & Ji2 & Jo2 & W2 & B2).
  destruct (reset_output_ok d3 g5) as (l3 & g6 & R3 & Ji3 & Jo3 & W3 & B3).
  exists l1, l2, l3, g6.
  split.
  { unfold bind. rewrite E1, E2, E3, R1, R2, R3. reflexivity. }
  split; [split; congruence|].
  split; [split; congruence|].
  split; [split; congruence|].
  split; [split; [exact W1 | split; [exact W2 | exact W3]]|].
  intros Hu.
  destruct (B1 (Hs3 (Hs2 (Hs1 Hu)))) as [Hu4 Hb1].
  destruct (B2 Hu4) as [Hu5 Hb2].
  destruct (B3 Hu5) as [_ Hb3].
  rewrite <- Hi1, <- Hi2.
  split; [exact Hb1 | split; [exact Hb2 | exact Hb3]].
Qed.

(** [initialize_layers] puts in place exactly the layers of
    [fresh_trunk]. *)
Lemma initialize_layers_fresh w self g g' l1 l2 l3 :
  fresh_trunk w (fc1_units self) (fc2_units self) (action_size self) g
  = (g', Ok (l1, l2, l3)) ->
  initialize_layers w (self, g) = ((installed self l1 l2 l3, g'), Ok tt).
Proof.
  unfold fresh_trunk, initialize_layers, reset_parameters.
  unfold bind, draw, update, self_, ret.
  cbn -[reset_hidden reset_output nn_Linear nn_LayerNorm].
  destruct (nn_Linear w (fc1_units self) g) as [g1 [d1|e]];
    [|discriminate].
  cbn -[reset_hidden reset_output nn_Linear nn_LayerNorm].
  destruct (nn_Linear (fc1_units self) (fc2_units self) g1) as [g2 [d2|e]];
    [|discriminate].
  cbn -[reset_hidden reset_output nn_Linear nn_LayerNorm].
  destruct (nn_Linear (fc2_units self) (action_size self) g2)
    as [g3 [d3|e]]; [|discriminate].
  cbn -[reset_hidden reset_output nn_Linear nn_LayerNorm].
  destruct (reset_hidden d1 g3) as [g4 [r1|e]]; [|discriminate].
  cbn -[reset_hidden reset_output nn_Linear nn_LayerNorm].
  destruct (reset_hidden d2 g4) as [g5 [r2|e]]; [|discriminate].
  cbn -[reset_hidden reset_output nn_Linear nn_LayerNorm].
  destruct (reset_output d3 g5) as [g6 [r3|e]]; [|discriminate].
  cbn -[reset_hidden reset_output nn_Linear nn_LayerNorm].
  intros H. injection H as <- <- <- <-.
  reflexivity.
Qed.

Lemma same_frame_trans a b c : same_frame a b -> same_frame b c -> same_frame a c.
Proof.
  unfold same_frame. intros H1 H2.
  repeat match goal with H : _ /\ _ |- _ => destruct H end.
  repeat split; congruence.
Qed.

Lemma same_frame_trunk a b : same_frame a b -> same_trunk a b.
Proof.
  unfold same_frame, same_trunk, trunk_layers. intros H.
  repeat match goal with H : _ /\ _ |- _ => destruct H end.
  repeat split; congruence.
Qed.

Lemma same_trunk_trans a b c : same_trunk a b -> same_trunk b c -> same_trunk a c.
Proof.
  unfold same_trunk. intros H1 H2.
  repeat match goal with H : _ /\ _ |- _ => destruct H end.
  repeat split; congruence.
Qed.

Lemma fallback_frame enc b w :
  same_frame (fst w) (fst (fst (EnhancedPortfolioActor.fallback enc b w))).
Proof.
  unfold EnhancedPortfolioActor.fallback, bind, self_. cbn [fst snd].
  destruct (b * action_size (fst w) =? 0); [apply same_frame_refl|].
  pose proof (initialize_attention_layers_frame
                (numel enc / (b * action_size (fst w))) w) as Hfr.
  destruct (initialize_attention_layers _ w) as [w1 [u|e]];
    cbn [fst] in *; [|exact Hfr].
  unfold lift_result, ret.
  destruct (view3 enc b (action_size (fst w)) _); exact Hfr.
Qed.

Lemma reshape_assets_frame enc b k w :
  same_frame (fst w) (fst (fst (reshape_assets enc b k w))).
Proof.
  unfold reshape_assets. unfold bind at 1. unfold self_ at 1. cbn [fst snd].
  unfold try_except_RuntimeError, bind, lift_result, ret.
  destruct (view3 enc b (action_size (fst w)) k) as [a|e].
  - apply same_frame_refl.
  - destruct e; try apply same_frame_refl. apply fallback_frame.
Qed.

Lemma prepare_frame enc b w :
  same_frame (fst w) (fst (fst (prepare enc b w))).
Proof.
  unfold prepare. unfold bind at 1. unfold self_ at 1. cbn [fst snd].
  destruct (strip_tail (fst w) enc) as [extra blk].
  unfold bind at 1. unfold lift_result at 1.
  destruct (pad_divisible _ b blk) as [[e k]|err]; [|apply same_frame_refl].
  unfold bind at 1.
  pose proof (ensure_attention_frame k w) as H1.
  destruct (ensure_attention k w) as [w1 [u|err]]; cbn [fst] in *;
    [|exact H1].
  unfold bind at 1.
  pose proof (reshape_assets_frame e b k w1) as H2.
  destruct (reshape_assets e b k w1) as [w2 [[a k']|err]]; cbn [fst] in *;
    unfold ret; cbn [fst]; eapply same_frame_trans; eassumption.
Qed.

Lemma apply_attention_frame enc b w :
  same_frame (fst w) (fst (fst (apply_attention enc b w))).
Proof.
  unfold apply_attention, bind.
  pose proof (prepare_frame enc b w) as H.
  destruct (prepare enc b w) as [w1 [[extra assets]|err]]; cbn [fst] in *;
    [|exact H].
  cbn [self_ fst snd].
  destruct (attention (fst w1)); [|exact H].
  destruct (value (fst w1)); [|exact H].
  unfold lift_result, ret.
  destruct (attend _ _ _ _ _); [|exact H].
  destruct extra; [|exact H].
  destruct (cat1 _ _); exact H.
Qed.

(** The encoder and the attention leave the trunk alone. *)
Lemma encode_same_trunk state w :
  same_trunk (fst w) (fst (fst (encode state w))).
Proof.
  unfold encode. unfold bind at 1. unfold self_ at 1. cbn [fst snd].
  unfold bind, on_encoder.
  destruct (AssetEncoder.forward state (action_size (fst w))
              (asset_encoder (fst w))) as [e [enc|err]]; cbn [fst snd].
  - assert (H0 : same_trunk (fst w) (set_asset_encoder e (fst w)))
      by (unfold same_trunk, trunk_layers; cbn; repeat split).
    destruct (use_attention (fst w)); [|exact H0].
    eapply same_trunk_trans; [exact H0|].
    apply same_frame_trunk.
    exact (apply_attention_frame enc (size0 state)
             (set_asset_encoder e (fst w), snd w)).
  - unfold same_trunk, trunk_layers; cbn; repeat split.
Qed.

(** A chain of layers whose first takes the encoded width returns. *)
Lemma trunk_ok self enc l1 n1 l2 n2 l3 :
  trunk_layers self = (Some l1, Some n1, Some l2, Some n2, Some l3) ->
  in_features l1 = cols enc ->
  out_features l1 = normalized_shape n1 ->
  normalized_shape n1 = in_features l2 ->
  out_features l2 = normalized_shape n2 ->
  normalized_shape n2 = in_features l3 ->
  exists out, trunk self (Rank2 enc) = Ok (Rank2 out) /\
              cols out = out_features l3.
Proof.
  unfold trunk_layers. intros H Hi H1 H2 H3 H4.
  injection H as E1 E2 E3 E4 E5.
  unfold trunk. rewrite E1, E2, E3, E4, E5.
  unfold linear at 1, linear2. rewrite Hi, Nat.eqb_refl.
  cbn [map_result bind_result].
  unfold layer_norm at 1. cbn [cols]. rewrite H1, Nat.eqb_refl.
  cbn [bind_result relu_t relu2 cols rows].
  unfold linear at 1, linear2. cbn [cols]. rewrite <- H1, H1, H2, Nat.eqb_refl.
  cbn [map_result bind_result].
  unfold layer_norm at 1. cbn [cols]. rewrite H3, Nat.eqb_refl.
  cbn [bind_result relu_t relu2 cols rows].
  unfold linear, linear2. cbn [cols]. rewrite <- H3, H3, H4, Nat.eqb_refl.
  cbn [map_result]. eexists. split; reflexivity.
Qed.

Lemma built_width_spec self w :
  trunk_shaped self ->
  (built_width self = Some w <->
   trunk_mismatch self w = Ok false) /\
  (built_width self <> Some w <-> trunk_mismatch self w = Ok true).
Proof.
  intros Hsh. unfold built_width, trunk_mismatch, trunk_shaped in *.
  destruct (layers_initialized self); cbn [negb].
  - destruct (Hsh eq_refl) as (l1 & n1 & l2 & n2 & l3 & Hl & _).
    unfold trunk_layers in Hl. injection Hl as E1 _ _ _ _. rewrite E1.
    cbn [option_map].
    destruct (Nat.eqb_spec (in_features l1) w) as [He|Hne]; cbn [negb].
    + split; split; intros H; try reflexivity; try congruence.
    + split; split; intros H; try reflexivity; try congruence.
  - split; split; intros H; try reflexivity; try congruence.
Qed.

(** C4.  Let the encoder and the attention of a [forward] call give a batch
    of positive width [w].  When the trunk was last built for [w], the call
    keeps the five layers and draws nothing.  Otherwise, the first call
    included, it replaces all five by the layers of [fresh_trunk], which
    takes the width, the two hidden sizes, [action_size] and the generator
    and nothing of the old trunk: hidden weights within [1/sqrt(fan_in)],
    output weights within 3e-4, every bias zero, new layer normalisations.
    Either way the call returns, and afterwards the trunk is built for
    [w]. *)
Theorem trunk_follows_encoded_width state self g self1 g1 enc :
  trunk_shaped self -> 0 < fc1_units self -> 0 < fc2_units self ->
  encode state (self, g) = ((self1, g1), Ok (Rank2 enc)) ->
  0 < cols enc ->
  exists self2 g2 out,
    forward state (self, g) = ((self2, g2), Ok (Rank2 out)) /\
    built_width self2 = Some (cols enc) /\
    trunk_shaped self2 /\
    (built_width self = Some (cols enc) ->
     self2 = self1 /\ g2 = g1 /\ trunk_layers self2 = trunk_layers self) /\
    (built_width self <> Some (cols enc) ->
     exists l1 l2 l3,
       fresh_trunk (cols enc) (fc1_units self) (fc2_units self)
                   (action_size self) g1 = (g2, Ok (l1, l2, l3)) /\
       self2 = installed self1 l1 l2 l3 /\
       trunk_layers self2 =
         (Some l1, Some (nn_LayerNorm (fc1_units self)),
          Some l2, Some (nn_LayerNorm (fc2_units self)), Some l3) /\
       (unit_samples g1 ->
        initialised_within (1 / sqrt (INR (cols enc))) l1 /\
        initialised_within (1 / sqrt (INR (fc1_units self))) l2 /\
        initialised_within output_bound l3)).
Proof.
  intros Hsh Hu1 Hu2 Henc Hw.
  pose proof (encode_same_trunk state (self, g)) as Hst.
  rewrite Henc in Hst. cbn [fst] in Hst.
  destruct Hst as (Htl & Hli & Hf1 & Hf2 & Hact).
  assert (Hsh1 : trunk_shaped self1).
  { unfold trunk_shaped in *. rewrite <- Hli, <- Htl. exact Hsh. }
  assert (Hbw : built_width self1 = built_width self).
  { unfold built_width. rewrite <- Hli.
    unfold trunk_layers in Htl. injection Htl as E _ _ _ _. now rewrite E. }
  destruct (built_width_spec self1 (cols enc) Hsh1) as [Hsame Hdiff].
  rewrite Hbw in Hsame, Hdiff.
  unfold forward. unfold bind at 1. rewrite Henc.
  unfold bind at 1. cbn [self_ fst snd].
  unfold bind at 1. unfold lift_result at 1. cbn [size1].
  assert (Hdec : built_width self = Some (cols enc) \/
                 built_width self <> Some (cols enc)).
  { destruct (built_width self) as [b|]; [|right; discriminate].
    destruct (Nat.eq_dec b (cols enc)) as [->|Hne];
      [left; reflexivity | right; congruence]. }
  destruct Hdec as [Heq | Hne].
  - (* the widths agree: no rebuild *)
    rewrite (proj1 Hsame Heq).
    unfold bind at 1. unfold ret at 1. unfold bind at 1.
    cbn [self_ fst snd]. unfold lift_result.
    assert (Hinit : layers_initialized self1 = true).
    { rewrite <- Hbw in Heq. unfold built_width in Heq.
      destruct (layers_initialized self1); [reflexivity | discriminate]. }
    destruct (Hsh1 Hinit) as (l1 & n1 & l2 & n2 & l3 & Hl & C1 & C2 & C3 & C4).
    assert (Hin : in_features l1 = cols enc).
    { rewrite <- Hbw in Heq. unfold built_width in Heq. rewrite Hinit in Heq.
      unfold trunk_layers in Hl. injection Hl as E _ _ _ _.
      rewrite E in Heq. cbn in Heq. congruence. }
    destruct (trunk_ok self1 enc l1 n1 l2 n2 l3 Hl Hin C1 C2 C3 C4)
      as (out & Hout & _).
    exists self1, g1, out. rewrite Hout.
    split; [reflexivity|]. split; [congruence|]. split; [exact Hsh1|].
    split; [intros _; repeat split; congruence | intros H; contradiction].
  - (* the widths differ, or there is no trunk: rebuild *)
    rewrite (proj1 Hdiff Hne).
    destruct (fresh_trunk_ok (cols enc) (fc1_units self1) (fc2_units self1)
                (action_size self1) g1 Hw ltac:(lia) ltac:(lia))
      as (l1 & l2 & l3 & g2 & Hfresh & [Hi1 Ho1] & [Hi2 Ho2] & [Hi3 Ho3]
          & _ & Hbounds).
    unfold bind at 1.
    rewrite (initialize_layers_fresh _ _ _ _ _ _ _ Hfresh).
    unfold bind at 1. cbn [self_ fst snd]. unfold lift_result.
    assert (Hl : trunk_layers (installed self1 l1 l2 l3) =
                 (Some l1, Some (nn_LayerNorm (fc1_units self1)),
                  Some l2, Some (nn_LayerNorm (fc2_units self1)), Some l3))
      by reflexivity.
    destruct (trunk_ok (installed self1 l1 l2 l3) enc _ _ _ _ _ Hl)
      as (out & Hout & _);
      try (cbn [nn_LayerNorm normalized_shape]; congruence).
    exists (installed self1 l1 l2 l3), g2, out. rewrite Hout.
    split; [reflexivity|].
    split; [unfold built_width; cbn; congruence|].
    split.
    { intros _. eexists _, _, _, _, _. split; [exact Hl|].
      cbn [nn_LayerNorm normalized_shape]. repeat split; congruence. }
    split; [intros H; contradiction|].
    intros _. exists l1, l2, l3.
    rewrite Hf1, Hf2, Hact.
    split; [exact Hfresh|]. split; [reflexivity|]. split; [exact Hl|].
    exact Hbounds.
Qed.

Lemma trunk_follows_encoded_width_witness :
  exists self2 g2 out,
    forward (Rank2 (ramp 14)) (actor14_plain 16, half)
    = ((self2, g2), Ok (Rank2 out)) /\
    built_width self2 = Some 50.
Proof.
  assert (Henc : exists self1 enc,
             encode (Rank2 (ramp 14)) (actor14_plain 16, half)
             = ((self1, half), Ok (Rank2 enc)) /\ cols enc = 50).
  { eexists. eexists. split.
    - unfold encode, bind, self_, on_encoder. cbn [fst snd].
      rewrite forward_rank2 by (apply encoder4_shaped || apply ramp_wf).
      reflexivity.
    - reflexivity. }
  destruct Henc as (self1 & enc & Henc & Hc).
  destruct (trunk_follows_encoded_width (Rank2 (ramp 14))
              (actor14_plain 16) half self1 half enc)
    as (self2 & g2 & out & Hf & Hb & _).
  - intros H. discriminate H.
  - cbn. lia.
  - cbn. lia.
  - exact Henc.
  - rewrite Hc. lia.
  - exists self2, g2, out. split; [exact Hf|]. now rewrite <- Hc.
Defined.

(* ===================================================================== *)
(** ** The constructors establish the shapes the theorems assume *)
(* ===================================================================== *)

Lemma manual_seed_ok seed g :
  seed_in_range seed = true -> manual_seed seed g = (reseeded seed g, Ok tt).
Proof. intros H. unfold manual_seed. now rewrite H. Qed.

Lemma AssetEncoder_init_shaped fpa es seed os g :
  seed_in_range seed = true -> 0 < fpa ->
  exists e g',
    AssetEncoder.init fpa es seed os g = (g', Ok e) /\
    AssetEncoder.shaped e /\
    AssetEncoder.features_per_asset e = fpa /\
    AssetEncoder.output_size e = AssetEncoder.or_default os es /\
    AssetEncoder.first_forward_done e = false.
Proof.
  intros Hseed Hpos. unfold AssetEncoder.init. unfold bind at 1.
  rewrite (manual_seed_ok _ _ Hseed). unfold bind.
  destruct (nn_Linear_ok fpa 32 (reseeded seed g))
    as (d1 & g1 & -> & Hi1 & Ho1).
  destruct (nn_Linear_ok 32 (AssetEncoder.or_default os es) g1)
    as (d2 & g2 & -> & Hi2 & Ho2).
  destruct (reset_hidden_ok d1 g2 ltac:(lia))
    as (l1 & g3 & -> & Ji1 & Jo1 & W1 & _).
  destruct (reset_hidden_ok d2 g3 ltac:(lia))
    as (l2 & g4 & -> & Ji2 & Jo2 & W2 & _).
  eexists. eexists. split; [reflexivity|].
  unfold AssetEncoder.shaped. cbn.
  repeat split; try apply W1; try apply W2; congruence.
Qed.

Lemma EnhancedPortfolioActor_init_shaped
      ss act fpa seed u1 u2 es ua eos g :
  seed_in_range seed = true -> 0 < fpa ->
  exists a g',
    init ss act fpa seed u1 u2 es ua eos g = (g', Ok a) /\
    AssetEncoder.shaped (asset_encoder a) /\
    AssetEncoder.features_per_asset (asset_encoder a) = fpa /\
    features_per_asset a = fpa /\ action_size a = act /\
    extra_features a = (ss - Z.of_nat fpa * Z.of_nat act)%Z /\
    attention_shaped a /\ trunk_shaped a /\ built_width a = None.
Proof.
  intros Hseed Hpos. unfold init. unfold bind at 1.
  rewrite (manual_seed_ok _ _ Hseed). unfold bind.
  destruct (AssetEncoder_init_shaped fpa es seed eos (reseeded seed g)
              Hseed Hpos) as (e & g' & -> & Hs & Hf & _).
  eexists. eexists. split; [reflexivity|]. cbn.
  repeat split; try apply Hs; try assumption.
  intros H. discriminate H.
Qed.

(* ===================================================================== *)
(** ** The calls keep the shapes *)
(* ===================================================================== *)

Lemma attention_ready_shaped k self : attention_ready k self -> attention_shaped self.
Proof.
  intros H. unfold attention_shaped.
  pose proof H as (a & v & _ & _ & Ek & _). rewrite Ek. intros _ _. exact H.
Qed.

Lemma initialize_attention_layers_zero w :
  exists w', initialize_attention_layers 0 w = (w', Raise RuntimeError).
Proof.
  destruct w as [self g].
  unfold initialize_attention_layers, bind, draw, update. cbn [fst snd].
  destruct (nn_Linear_ok 0 1 g) as (a0 & g1 & -> & _). cbn [fst snd].
  destruct (nn_Linear_ok 0 0 g1) as (v0 & g2 & -> & _). cbn [fst snd].
  eexists. reflexivity.
Qed.

(** A check of lines 186 and 187 that returns leaves layers built for the
    recorded width. *)
Lemma ensure_attention_shaped k self g w u :
  attention_shaped self ->
  ensure_attention k (self, g) = (w, Ok u) ->
  attention_shaped (fst w).
Proof.
  intros Hsh He.
  destruct (Nat.eq_dec k 0) as [-> | Hk].
  - unfold ensure_attention, bind, self_ in He. cbn [fst snd] in He.
    destruct (stale self 0).
    + destruct (initialize_attention_layers_zero (self, g)) as (w' & Hz).
      rewrite Hz in He. discriminate He.
    + unfold ret in He. injection He as <- _. exact Hsh.
  - destruct (ensure_attention_ok k self g ltac:(lia) Hsh)
      as (self' & g' & Hok & Hready & _).
    rewrite Hok in He. injection He as <- _.
    now apply (attention_ready_shaped k).
Qed.

(** A call of [apply_attention] on a batch that returns keeps the
    attention layers built for the recorded width. *)
Lemma apply_attention_shaped self g t w out :
  0 < action_size self -> attention_shaped self ->
  apply_attention (Rank2 t) (length (rows t)) (self, g) = (w, Ok out) ->
  attention_shaped (fst w).
Proof.
  intros Ha Hsh Happ.
  destruct (prepare_rank2 self g t Ha)
    as (block & ees & assets & _ & _ & _ & _ & _ & _ & _ & Hprep).
  unfold apply_attention, bind in Happ. rewrite Hprep in Happ.
  destruct (ensure_attention ees (self, g)) as [w1 [u|e]] eqn:He;
    [|discriminate Happ].
  pose proof (ensure_attention_shaped ees self g w1 u Hsh He) as Hsh1.
  cbn [self_ fst snd] in Happ.
  destruct (attention (fst w1)); [|discriminate Happ].
  destruct (value (fst w1)); [|discriminate Happ].
  unfold lift_result, ret in Happ.
  destruct (attend _ _ _ _ _); [|discriminate Happ].
  destruct (fst (strip_tail self (Rank2 t))).
  - destruct (cat1 _ _); [|discriminate Happ].
    injection Happ as <- _. exact Hsh1.
  - injection Happ as <- _. exact Hsh1.
Qed.

(* ===================================================================== *)
(** ** AssetEncoder: what a call on a batch computes *)
(* ===================================================================== *)

Lemma chunks_firstn {A} k n m (l : list A) :
  n * k <= m -> chunks k n (firstn m l) = chunks k n l.
Proof.
  revert m l. induction n as [|n IH]; intros m l H; cbn [chunks];
    [reflexivity|].
  rewrite firstn_firstn, Nat.min_l by lia. f_equal.
  replace m with (k + (m - k)) by lia.
  rewrite <- firstn_skipn_comm. apply IH. lia.
Qed.

(** X1.  On a batch, an encoder with the shapes of its constructor returns,
    row by row, the encodings of the assets side by side, then the part of
    the row beyond the asset block as it came.  Every asset is encoded from
    its own [features_per_asset] values alone (zeros standing in for the
    values a narrow row lacks), by the same two layers; the encoder changes
    in nothing but the first-call flag. *)
Theorem encoder_output_layout e t n :
  AssetEncoder.shaped e -> wf2 t ->
  let fpa := AssetEncoder.features_per_asset e in
  AssetEncoder.forward (Rank2 t) n e =
  (touched e,
   Ok (Rank2
         (T2 (n * AssetEncoder.output_size e + (cols t - n * fpa))
             (map (fun r =>
                     concat (map (encode_asset e)
                               (chunks fpa n
                                  (r ++ repeat 0%R (n * fpa - cols t))))
                     ++ skipn (n * fpa) r)
                  (rows t))))).
Proof.
  intros Hs Hwf fpa. subst fpa.
  rewrite forward_rank2 by assumption. cbv zeta.
  cbn [pad_right rows]. rewrite map_map.
  do 4 f_equal. apply map_ext_in. intros r Hr.
  unfold wf2 in Hwf. rewrite Forall_forall in Hwf. specialize (Hwf r Hr).
  unfold encode_block. rewrite chunks_firstn by lia.
  replace (Nat.max (cols t) (n * AssetEncoder.features_per_asset e) - cols t)
    with (n * AssetEncoder.features_per_asset e - cols t) by lia.
  f_equal.
  destruct (Nat.le_gt_cases (n * AssetEncoder.features_per_asset e) (cols t))
    as [Hle | Hgt].
  - replace (n * AssetEncoder.features_per_asset e - cols t) with 0 by lia.
    cbn [repeat]. now rewrite app_nil_r.
  - rewrite !skipn_all2; [reflexivity | lia |].
    rewrite length_app, repeat_length. lia.
Qed.

Lemma encoder_output_layout_witness :
  AssetEncoder.forward (Rank2 (ramp 14)) 3 (encoder4 16) =
  (touched (encoder4 16),
   Ok (Rank2
         (T2 50
             (map (fun r =>
                     concat (map (encode_asset (encoder4 16))
                               (chunks 4 3 (r ++ [])))
                     ++ skipn 12 r)
                  (rows (ramp 14)))))).
Proof.
  exact (encoder_output_layout (encoder4 16) (ramp 14) 3
           (encoder4_shaped 16) (ramp_wf 14)).
Defined.

(** X2.  A call on a batch writes nothing of the encoder but the first-call
    flag, whatever the layers hold and whether or not the call returns: the
    width per asset, the sizes and both layers are as before. *)
Theorem forward_on_batch_keeps_encoder e t n :
  let e' := fst (AssetEncoder.forward (Rank2 t) n e) in
  AssetEncoder.features_per_asset e' = AssetEncoder.features_per_asset e /\
  AssetEncoder.encoding_size e' = AssetEncoder.encoding_size e /\
  AssetEncoder.output_size e' = AssetEncoder.output_size e /\
  AssetEncoder.fc1 e' = AssetEncoder.fc1 e /\
  AssetEncoder.fc2 e' = AssetEncoder.fc2 e /\
  AssetEncoder.first_forward_done e' = true.
Proof.
  cbv zeta. rewrite forward_rank2_state.
  unfold touched. destruct (AssetEncoder.first_forward_done e) eqn:E;
    cbn; repeat split; assumption.
Qed.

Lemma relu_nonneg x : (0 <= relu x)%R.
Proof. unfold relu. apply Rmax_l. Qed.

Lemma encode_asset_nonneg e c : Forall (Rle 0) (encode_asset e c).
Proof.
  unfold encode_asset. apply Forall_forall. intros x Hx.
  apply in_map_iff in Hx. destruct Hx as (y & <- & _). apply relu_nonneg.
Qed.

(** X3.  The encodings are never negative: in every row the encoder
    returns, the first [num_assets * output_size] values are at least
    zero. *)
Theorem encodings_are_nonnegative e t n e' out :
  AssetEncoder.shaped e -> wf2 t ->
  AssetEncoder.forward (Rank2 t) n e = (e', Ok (Rank2 out)) ->
  Forall (fun o =>
            Forall (Rle 0) (firstn (n * AssetEncoder.output_size e) o))
         (rows out).
Proof.
  intros Hs Hwf Hf. rewrite forward_rank2 in Hf by assumption.
  cbv zeta in Hf. injection Hf as _ <-. cbn [rows].
  apply Forall_forall. intros o Ho. apply in_map_iff in Ho.
  destruct Ho as (r & <- & _).
  rewrite firstn_app, encode_block_length, Nat.sub_diag by assumption.
  cbn [firstn]. rewrite app_nil_r, firstn_all2
    by (rewrite encode_block_length by assumption; lia).
  unfold encode_block. apply Forall_concat.
  apply Forall_forall. intros x Hx. apply in_map_iff in Hx.
  destruct Hx as (c & <- & _). apply encode_asset_nonneg.
Qed.

Lemma encodings_are_nonnegative_witness :
  exists e' out,
    AssetEncoder.forward (Rank2 (ramp 14)) 3 (encoder4 16)
    = (e', Ok (Rank2 out)) /\
    Forall (fun o => Forall (Rle 0) (firstn (3 * 16) o)) (rows out).
Proof.
  eexists. eexists. split.
  - apply forward_rank2; [apply encoder4_shaped | apply ramp_wf].
  - eapply (encodings_are_nonnegative (encoder4 16) (ramp 14) 3).
    + apply encoder4_shaped.
    + apply ramp_wf.
    + apply forward_rank2; [apply encoder4_shaped | apply ramp_wf].
Defined.

(** X4.  The rows of a batch are encoded one by one: the encoding of two
    batches stacked on each other is the encoding of the first stacked on
    the encoding of the second. *)
Theorem forward_of_stacked_batches e c r1 r2 n :
  AssetEncoder.shaped e -> wf2 (T2 c r1) -> wf2 (T2 c r2) ->
  exists w o1 o2,
    AssetEncoder.forward (Rank2 (T2 c r1)) n e
      = (touched e, Ok (Rank2 (T2 w o1))) /\
    AssetEncoder.forward (Rank2 (T2 c r2)) n e
      = (touched e, Ok (Rank2 (T2 w o2))) /\
    AssetEncoder.forward (Rank2 (T2 c (r1 ++ r2))) n e
      = (touched e, Ok (Rank2 (T2 w (o1 ++ o2)))).
Proof.
  intros Hs H1 H2.
  assert (H12 : wf2 (T2 c (r1 ++ r2))).
  { unfold wf2 in *. cbn [rows cols] in *. now apply Forall_app. }
  eexists. eexists. eexists.
  rewrite !forward_rank2 by assumption. cbv zeta.
  cbn [pad_right rows cols].
  split; [reflexivity|]. split; [reflexivity|].
  now rewrite !map_app.
Qed.

Lemma forward_of_stacked_batches_witness :
  exists w o1 o2,
    AssetEncoder.forward (Rank2 (T2 14 (rows (ramp 14)))) 3 (encoder4 16)
      = (touched (encoder4 16), Ok (Rank2 (T2 w o1))) /\
    AssetEncoder.forward (Rank2 (T2 14 (rows (ramp 14)))) 3 (encoder4 16)
      = (touched (encoder4 16), Ok (Rank2 (T2 w o2))) /\
    AssetEncoder.forward
      (Rank2 (T2 14 (rows (ramp 14) ++ rows (ramp 14)))) 3 (encoder4 16)
      = (touched (encoder4 16), Ok (Rank2 (T2 w (o1 ++ o2)))).
Proof.
  exact (forward_of_stacked_batches (encoder4 16) 14 (rows (ramp 14))
           (rows (ramp 14)) 3 (encoder4_shaped 16)
           (ramp_wf 14) (ramp_wf 14)).
Defined.

Lemma chunks_concat_map {A B} (f : list A -> list B) k (cs : list (list A)) :
  (forall c, length (f c) = k) ->
  chunks k (length cs) (concat (map f cs)) = map f cs.
Proof.
  intros Hf. rewrite <- (length_map f cs). apply chunks_concat.
  apply Forall_forall. intros x Hx. apply in_map_iff in Hx.
  destruct Hx as (c & <- & _). apply Hf.
Qed.

Lemma reordered_map {A B} (f : A -> B) idx (l l' : list A) :
  reordered idx l l' -> reordered idx (map f l) (map f l').
Proof.
  unfold reordered. intros H.
  rewrite (map_ext _ (fun i => option_map f (nth_error l i)))
    by (intros i; apply nth_error_map).
  rewrite <- (map_map (nth_error l) (option_map f)), H, !map_map.
  reflexivity.
Qed.

(** The chunks of an encoded row are the encodings of the row's chunks. *)
Lemma encoded_chunks e n r :
  AssetEncoder.shaped e ->
  length r = n * AssetEncoder.features_per_asset e ->
  chunks (AssetEncoder.output_size e) n
    (encode_block e n
       (firstn (n * AssetEncoder.features_per_asset e) (r ++ []))
     ++ skipn (n * AssetEncoder.features_per_asset e) (r ++ []))
  = map (encode_asset e) (chunks (AssetEncoder.features_per_asset e) n r).
Proof.
  intros Hs Hr. rewrite app_nil_r, skipn_all2, app_nil_r, firstn_all2 by lia.
  unfold encode_block.
  rewrite <- (chunks_length (AssetEncoder.features_per_asset e) n r) at 1.
  apply chunks_concat_map. intros c. now apply encode_asset_length.
Qed.

(** X5.  The encoder treats the assets alike.  On batches exactly as wide
    as the asset block, the chunks of an output row are the encodings of
    the chunks of the input row, each from its own chunk alone; so when
    the rows of a second batch hold the assets of the first at the
    positions some lists of indices name, the rows of its output hold the
    encodings of the first at the same positions. *)
Theorem encoder_is_permutation_equivariant e t t' n idxs :
  AssetEncoder.shaped e -> wf2 t -> wf2 t' ->
  cols t = n * AssetEncoder.features_per_asset e ->
  cols t' = n * AssetEncoder.features_per_asset e ->
  Forall2 (fun idx rr =>
             reordered idx
               (chunks (AssetEncoder.features_per_asset e) n (fst rr))
               (chunks (AssetEncoder.features_per_asset e) n (snd rr)))
          idxs (combine (rows t) (rows t')) ->
  exists out out',
    AssetEncoder.forward (Rank2 t) n e = (touched e, Ok (Rank2 out)) /\
    AssetEncoder.forward (Rank2 t') n e = (touched e, Ok (Rank2 out')) /\
    Forall2 (fun r o =>
               chunks (AssetEncoder.output_size e) n o =
               map (encode_asset e)
                   (chunks (AssetEncoder.features_per_asset e) n r))
            (rows t) (rows out) /\
    Forall2 (fun idx oo =>
               reordered idx
                 (chunks (AssetEncoder.output_size e) n (fst oo))
                 (chunks (AssetEncoder.output_size e) n (snd oo)))
            idxs (combine (rows out) (rows out')).
Proof.
  intros Hs Hwf Hwf' Hc Hc' Hperm.
  eexists. eexists.
  rewrite !forward_rank2 by assumption. cbv zeta.
  split; [reflexivity|]. split; [reflexivity|].
  cbn [rows pad_right]. rewrite Hc, Hc', Nat.max_id, Nat.sub_diag.
  cbn [repeat]. rewrite !map_map.
  unfold wf2 in Hwf, Hwf'. rewrite Forall_forall in Hwf, Hwf'.
  rewrite Hc in Hwf. rewrite Hc' in Hwf'. clear Hc Hc'.
  set (l := rows t) in *. set (l' := rows t') in *. clearbody l l'.
  split.
  - clear Hperm Hwf' l'. induction l as [|r l IH]; cbn [map]; constructor.
    + apply encoded_chunks; [exact Hs | apply Hwf; now left].
    + apply IH. intros x Hx. apply Hwf. now right.
  - revert l' idxs Hwf Hwf' Hperm.
    induction l as [|r l IH]; intros [|r' l'] idxs Hwf Hwf' Hperm;
      cbn [map combine] in *; inversion Hperm; subst; constructor.
    + cbn [fst snd] in *.
      rewrite (encoded_chunks e n r) by (try apply Hwf; try assumption;
                                         now left).
      rewrite (encoded_chunks e n r') by (try apply Hwf'; try assumption;
                                          now left).
      now apply reordered_map.
    + apply IH; try assumption; intros row Hrow;
        [apply Hwf | apply Hwf']; now right.
Qed.

Lemma encoder_is_permutation_equivariant_witness :
  exists out out',
    AssetEncoder.forward
      (Rank2 (T2 8 [[1; 2; 3; 4; 5; 6; 7; 8]%R])) 2 (encoder4 16)
      = (touched (encoder4 16), Ok (Rank2 out)) /\
    AssetEncoder.forward
      (Rank2 (T2 8 [[5; 6; 7; 8; 1; 2; 3; 4]%R])) 2 (encoder4 16)
      = (touched (encoder4 16), Ok (Rank2 out')) /\
    Forall2 (fun idx oo =>
               reordered idx (chunks 16 2 (fst oo)) (chunks 16 2 (snd oo)))
            [[1; 0]] (combine (rows out) (rows out')).
Proof.
  destruct (encoder_is_permutation_equivariant (encoder4 16)
              (T2 8 [[1; 2; 3; 4; 5; 6; 7; 8]%R])
              (T2 8 [[5; 6; 7; 8; 1; 2; 3; 4]%R]) 2 [[1; 0]])
    as (out & out' & H1 & H2 & _ & H3).
  - apply encoder4_shaped.
  - repeat constructor.
  - repeat constructor.
  - reflexivity.
  - reflexivity.
  - repeat constructor.
  - exists out, out'. split; [exact H1|]. split; [exact H2|]. exact H3.
Defined.

(** An encoder whose first layer does not take [features_per_asset] values
    refuses every batch: the reshape succeeds, and the layer raises. *)
Lemma forward_refused_by_first_layer_wide e t n :
  in_features (AssetEncoder.fc1 e) <> AssetEncoder.features_per_asset e ->
  n * AssetEncoder.features_per_asset e <= cols t ->
  snd (AssetEncoder.forward (Rank2 t) n e) = Raise RuntimeError.
Proof.
  intros Hne Hle. unfold AssetEncoder.forward.
  unfold bind at 1. unfold get at 1. rewrite forward_touch.
  cbn [size0 size1].
  replace (cols t <? n * AssetEncoder.features_per_asset e) with false
    by (symmetry; apply Nat.ltb_ge; exact Hle).
  unfold bind at 1. unfold ret at 1.
  unfold bind at 1. unfold get at 1.
  rewrite touched_features_per_asset.
  unfold bind at 1. unfold try_except_RuntimeError, lift_result at 1.
  destruct (view3_rank2_ok t n (AssetEncoder.features_per_asset e) Hle)
    as (a & Ha). rewrite Ha.
  apply view3_shape in Ha. destruct Ha as (_ & Hd2 & _).
  unfold AssetEncoder.encode_assets, bind, get, lift_result, linear3.
  rewrite touched_fc1, Hd2.
  destruct (Nat.eqb_spec (AssetEncoder.features_per_asset e)
                         (in_features (AssetEncoder.fc1 e))) as [E|_];
    [congruence | reflexivity].
Qed.

Lemma forward_refused_by_first_layer e t n :
  in_features (AssetEncoder.fc1 e) <> AssetEncoder.features_per_asset e ->
  snd (AssetEncoder.forward (Rank2 t) n e) = Raise RuntimeError.
Proof.
  intros Hne.
  destruct (Nat.ltb_spec (cols t) (n * AssetEncoder.features_per_asset e))
    as [Hlt | Hge].
  - rewrite forward_pads by assumption.
    apply forward_refused_by_first_layer_wide; [exact Hne|].
    cbn [pad_right cols]. lia.
  - now apply forward_refused_by_first_layer_wide.
Qed.

(** C3.  The claim fails on the code, at a tensor of shape (1, 12, 2) given
    with three assets to an encoder built for four features per asset.  The
    reshape of line 90 fails and the fallback takes over, but it does not
    absorb the error: it writes the width 8 and reshapes, and the first
    layer, which still takes four values, raises a RuntimeError that
    reaches the caller.  The width stays 8, so from then on the encoder
    refuses every non-empty batch as well, whatever its width and the
    (positive) number of assets. *)
Theorem fallback_does_not_absorb_the_error :
  AssetEncoder.shaped (encoder4 16) /\ wf cube /\
  view3 (slice_to (3 * 4) cube) 1 3 4 = Raise RuntimeError /\
  snd (AssetEncoder.forward cube 3 (encoder4 16)) = Raise RuntimeError /\
  AssetEncoder.features_per_asset
    (fst (AssetEncoder.forward cube 3 (encoder4 16))) = 8 /\
  forall t n,
    0 < n -> rows t <> [] ->
    snd (AssetEncoder.forward (Rank2 t) n
           (fst (AssetEncoder.forward cube 3 (encoder4 16))))
    = Raise RuntimeError.
Proof.
  assert (Hst : fst (AssetEncoder.forward cube 3 (encoder4 16)) =
                AssetEncoder.set_features_per_asset 8
                  (touched (encoder4 16))).
  { rewrite forward_fallback_state; [reflexivity | cbn; lia | reflexivity
                                    | cbn; lia]. }
  split; [apply encoder4_shaped|].
  split.
  { unfold cube, wf, wf3. cbn [slabs dim1 dim2].
    constructor; [|constructor].
    split; [reflexivity|].
    apply Forall_forall. intros x Hx. apply repeat_spec in Hx.
    now subst x. }
  split; [reflexivity|]. split; [reflexivity|].
  rewrite Hst. split; [reflexivity|].
  intros t n _ _. apply forward_refused_by_first_layer.
  cbn. lia.
Qed.

Lemma fallback_does_not_absorb_the_error_witness :
  snd (AssetEncoder.forward (Rank2 (ramp 12)) 3
         (fst (AssetEncoder.forward cube 3 (encoder4 16))))
  = Raise RuntimeError.
Proof.
  apply (proj2 (proj2 (proj2 (proj2 (proj2
           fallback_does_not_absorb_the_error)))) (ramp 12) 3).
  - lia.
  - discriminate.
Defined.



(** X6.  The fallback never rescues a call.  On a tensor with one more
    trailing dimension of size two or more (non-empty batch, positive
    number of assets and width per asset) [forward] always ends in a
    RuntimeError: the padding cannot be attached, or else the reshape fails,
    the fallback multiplies [features_per_asset] by the trailing size, and
    the first layer, left at its old width, refuses the reshaped block. *)
Theorem trailing_dimension_always_raises e t n :
  AssetEncoder.shaped e -> 0 < n ->
  0 < AssetEncoder.features_per_asset e ->
  0 < length (slabs t) -> 2 <= dim2 t ->
  snd (AssetEncoder.forward (Rank3 t) n e) = Raise RuntimeError /\
  (n * AssetEncoder.features_per_asset e <= dim1 t ->
   AssetEncoder.features_per_asset
     (fst (AssetEncoder.forward (Rank3 t) n e))
   = AssetEncoder.features_per_asset e * dim2 t).
Proof.
  intros Hs Hn Hf Hb Hk.
  set (fpa := AssetEncoder.features_per_asset e) in *.
  destruct (Nat.ltb_spec (dim1 t) (n * fpa)) as [Hlt | Hge].
  - split; [|lia].
    unfold AssetEncoder.forward.
    unfold bind at 1. unfold get at 1. rewrite forward_touch.
    cbn [size0 size1]. fold fpa.
    replace (dim1 t <? n * fpa) with true
      by (symmetry; apply Nat.ltb_lt; exact Hlt).
    reflexivity.
  - assert (Hnum : numel (slice_to (n * fpa) (Rank3 t))
                   = fpa * dim2 t * (length (slabs t) * n)).
    { cbn [slice_to numel slabs dim1 dim2].
      rewrite length_map, Nat.min_l by assumption. lia. }
    assert (Hfail : view3 (slice_to (n * fpa) (Rank3 t))
                          (size0 (Rank3 t)) n fpa = Raise RuntimeError).
    { unfold view3. rewrite Hnum. cbn [size0].
      destruct (Nat.eqb_spec (fpa * dim2 t * (length (slabs t) * n))
                             (length (slabs t) * n * fpa)) as [E|_];
        [|reflexivity].
      exfalso. nia. }
    assert (Hnz : size0 (Rank3 t) * n <> 0) by (cbn [size0]; nia).
    split.
    + rewrite (forward_fallback e (Rank3 t) n Hge Hfail Hnz).
      fold fpa. rewrite Hnum. cbn [size0].
      rewrite Nat.div_mul by (cbn [size0] in Hnz; exact Hnz).
      unfold bind, lift_result.
      destruct (view3 _ (length (slabs t)) n (fpa * dim2 t)) as [af|x] eqn:Hv.
      * apply view3_shape in Hv. destruct Hv as (_ & Hd2 & _).
        unfold AssetEncoder.encode_assets, bind, get, lift_result, linear3.
        cbn [AssetEncoder.fc1 AssetEncoder.set_features_per_asset].
        rewrite touched_fc1, Hd2.
        destruct Hs as (_ & _ & Hin & _). rewrite Hin. fold fpa.
        destruct (Nat.eqb_spec (fpa * dim2 t) fpa) as [E|_];
          [exfalso; nia | reflexivity].
      * unfold view3 in Hv.
        destruct (numel _ =? _); [discriminate Hv|].
        injection Hv as <-. reflexivity.
    + intros _.
      rewrite (forward_fallback_state e (Rank3 t) n Hge Hfail Hnz).
      cbn [AssetEncoder.features_per_asset
           AssetEncoder.set_features_per_asset].
      fold fpa. rewrite Hnum. cbn [size0].
      apply Nat.div_mul. cbn [size0] in Hnz. exact Hnz.
Qed.

Lemma trailing_dimension_always_raises_witness :
  snd (AssetEncoder.forward cube 3 (encoder4 16)) = Raise RuntimeError /\
  (3 * 4 <= 12 ->
   AssetEncoder.features_per_asset
     (fst (AssetEncoder.forward cube 3 (encoder4 16))) = 4 * 2).
Proof.
  apply (trailing_dimension_always_raises (encoder4 16)
           (T3 12 2 [repeat [1%R; 1%R] 12]) 3);
    first [ apply encoder4_shaped | cbn; lia ].
Defined.

(* ===================================================================== *)
(** ** The constructors *)
(* ===================================================================== *)

(** X7.  [AssetEncoder.__init__] with a seed that fits 64 bits (the
    seeds [torch.manual_seed] accepts) and a positive [features_per_asset]
    returns an encoder whose first layer takes [features_per_asset] values
    to 32 and whose second takes 32 to [output_size], where [output_size]
    is the argument unless that is [None] or 0, in which case it is
    [encoding_size].  With a generator of unit samples the weights lie
    within [1/sqrt(fan_in)] of zero, and the biases are zero. *)
Theorem encoder_init_bounds fpa es seed os g :
  seed_in_range seed = true ->
  0 < fpa -> unit_samples (reseeded seed g) ->
  exists e g',
    AssetEncoder.init fpa es seed os g = (g', Ok e) /\
    AssetEncoder.shaped e /\
    AssetEncoder.features_per_asset e = fpa /\
    AssetEncoder.encoding_size e = es /\
    AssetEncoder.output_size e =
      match os with Some (S k) => S k | _ => es end /\
    in_features (AssetEncoder.fc1 e) = fpa /\
    out_features (AssetEncoder.fc1 e) = 32 /\
    out_features (AssetEncoder.fc2 e) = AssetEncoder.output_size e /\
    initialised_within (1 / sqrt (INR fpa)) (AssetEncoder.fc1 e) /\
    initialised_within (1 / sqrt (INR 32)) (AssetEncoder.fc2 e) /\
    AssetEncoder.first_forward_done e = false.
Proof.
  intros Hseed Hpos Hu. unfold AssetEncoder.init. unfold bind at 1.
  rewrite (manual_seed_ok _ _ Hseed). unfold bind.
  pose proof (nn_Linear_samples fpa 32 (reseeded seed g) Hu) as Hu1.
  destruct (nn_Linear_ok fpa 32 (reseeded seed g))
    as (d1 & g1 & E1 & Hi1 & Ho1).
  rewrite E1 in *. cbn [fst] in Hu1.
  pose proof (nn_Linear_samples 32 (AssetEncoder.or_default os es) g1 Hu1)
    as Hu2.
  destruct (nn_Linear_ok 32 (AssetEncoder.or_default os es) g1)
    as (d2 & g2 & E2 & Hi2 & Ho2).
  rewrite E2 in *. cbn [fst] in Hu2.
  destruct (reset_hidden_ok d1 g2 ltac:(lia))
    as (l1 & g3 & -> & Ji1 & Jo1 & W1 & B1).
  destruct (B1 Hu2) as [Hu3 Hb1].
  destruct (reset_hidden_ok d2 g3 ltac:(lia))
    as (l2 & g4 & -> & Ji2 & Jo2 & W2 & B2).
  destruct (B2 Hu3) as [_ Hb2].
  eexists. eexists. split; [reflexivity|].
  cbn [AssetEncoder.fc1 AssetEncoder.fc2 AssetEncoder.features_per_asset
       AssetEncoder.encoding_size AssetEncoder.output_size
       AssetEncoder.first_forward_done].
  rewrite Hi1 in Hb1. rewrite Hi2 in Hb2.
  split.
  { unfold AssetEncoder.shaped. cbn.
    split; [exact W1|]. split; [exact W2|]. repeat split; congruence. }
  repeat (split; [first [reflexivity | congruence | assumption]|]).
  reflexivity.
Qed.

Lemma encoder_init_bounds_witness :
  exists e g',
    AssetEncoder.init 4 16 0 None half = (g', Ok e) /\
    AssetEncoder.shaped e /\
    AssetEncoder.output_size e = 16 /\
    initialised_within (1 / sqrt (INR 4)) (AssetEncoder.fc1 e) /\
    initialised_within (1 / sqrt (INR 32)) (AssetEncoder.fc2 e).
Proof.
  destruct (encoder_init_bounds 4 16 0 None half) as
    (e & g' & H1 & H2 & _ & _ & H3 & _ & _ & _ & H4 & H5 & _).
  - reflexivity.
  - lia.
  - intros i. cbn. lra.
  - exists e, g'. repeat (split; [assumption|]). assumption.
Defined.


(* ===================================================================== *)
(** ** PortfolioCritic: what a call computes, and when it refuses *)
(* ===================================================================== *)

Lemma cat2_same_rows s a :
  length (rows s) = length (rows a) ->
  cat2 s a = Ok (T2 (cols s + cols a) (zip_with (@app R) (rows s) (rows a))).
Proof. intros H. unfold cat2. now rewrite H, Nat.eqb_refl. Qed.

(** X8.  Without batch normalisation the critic values every state-action
    pair by itself: for batches of equal height whose widths add up to what
    the first layer takes, it returns one value per row, the four layers
    with ReLU between them applied to the state followed by the action, and
    the critic is left as it was. *)
Theorem critic_values_rows_independently c s a :
  critic_shaped c -> PortfolioCritic.use_batch_norm c = false ->
  length (rows s) = length (rows a) ->
  cols s + cols a = in_features (PortfolioCritic.fcs1 c) ->
  PortfolioCritic.forward s a c =
    (c, Ok (T2 1 (map (critic_row c)
                      (zip_with (@app R) (rows s) (rows a))))) /\
  Forall (fun v => length v = 1)
         (map (critic_row c) (zip_with (@app R) (rows s) (rows a))).
Proof.
  intros (H12 & H23 & H34 & H4 & W4 & _) Hbn Hlen Hw.
  split.
  - unfold PortfolioCritic.forward, bind, get, lift_result.
    rewrite (cat2_same_rows s a Hlen), Hbn.
    unfold linear2 at 1. cbn [cols rows]. rewrite Hw, Nat.eqb_refl.
    unfold linear2 at 1, relu2 at 1. cbn [cols rows].
    rewrite H12, Nat.eqb_refl.
    unfold linear2 at 1, relu2 at 1. cbn [cols rows].
    rewrite H23, Nat.eqb_refl.
    unfold linear2, relu2. cbn [cols rows].
    rewrite H34, Nat.eqb_refl, H4.
    unfold critic_row. now rewrite !map_map.
  - apply Forall_forall. intros v Hv. apply in_map_iff in Hv.
    destruct Hv as (x & <- & _). unfold critic_row.
    now rewrite linear_vec_length.
Qed.

Lemma critic17_plain_shaped : critic_shaped critic17_plain.
Proof.
  unfold critic_shaped, critic17_plain. cbn.
  repeat split; try apply (zero_linear_wf 64 1).
  intros H. discriminate H.
Qed.

Lemma critic_values_rows_independently_witness :
  PortfolioCritic.forward (ramp 14) (zeros 1 3) critic17_plain =
    (critic17_plain,
     Ok (T2 1 (map (critic_row critic17_plain)
                   (zip_with (@app R) (rows (ramp 14))
                             (rows (zeros 1 3)))))) /\
  Forall (fun v => length v = 1)
         (map (critic_row critic17_plain)
              (zip_with (@app R) (rows (ramp 14)) (rows (zeros 1 3)))).
Proof.
  apply (critic_values_rows_independently critic17_plain (ramp 14)
           (zeros 1 3) critic17_plain_shaped); reflexivity.
Defined.

(** X9.  When the widths of state and action do not add up to what the
    first layer takes, the call raises a RuntimeError and leaves the critic
    as it was: without batch normalisation, and with it as long as the
    first normalisation exists.  With the flag set and no first
    normalisation, the missing attribute is reported instead, before the
    first layer is applied. *)
Theorem critic_rejects_wrong_width c s a :
  length (rows s) = length (rows a) ->
  cols s + cols a <> in_features (PortfolioCritic.fcs1 c) ->
  ((PortfolioCritic.use_batch_norm c = true ->
    PortfolioCritic.bn1 c <> None) ->
   PortfolioCritic.forward s a c = (c, Raise RuntimeError)) /\
  (PortfolioCritic.use_batch_norm c = true ->
   PortfolioCritic.bn1 c = None ->
   PortfolioCritic.forward s a c = (c, Raise AttributeError)).
Proof.
  intros Hlen Hw. apply Nat.eqb_neq in Hw.
  split.
  - intros Hbn.
    unfold PortfolioCritic.forward, bind, get, lift_result.
    rewrite (cat2_same_rows s a Hlen).
    destruct (PortfolioCritic.use_batch_norm c).
    + unfold PortfolioCritic.call_bn at 1.
      destruct (PortfolioCritic.bn1 c); [|now specialize (Hbn eq_refl)].
      unfold linear2 at 1. cbn [cols rows]. now rewrite Hw.
    + unfold linear2 at 1. cbn [cols rows]. now rewrite Hw.
  - intros Hflag Hnone.
    unfold PortfolioCritic.forward, bind, get, lift_result.
    rewrite (cat2_same_rows s a Hlen), Hflag.
    unfold PortfolioCritic.call_bn at 1. now rewrite Hnone.
Qed.

Lemma critic_rejects_wrong_width_witness :
  PortfolioCritic.forward (ramp 12) (zeros 1 3) critic17 =
  (critic17, Raise RuntimeError).
Proof.
  apply (critic_rejects_wrong_width critic17 (ramp 12) (zeros 1 3)).
  - reflexivity.
  - cbn. lia.
  - intros _ H. discriminate H.
Defined.

Lemma set_bn1_same c b : PortfolioCritic.bn1 c = Some b -> PortfolioCritic.set_bn1 b c = c.
Proof. destruct c. cbn. now intros ->. Qed.

Lemma set_bn2_same c b : PortfolioCritic.bn2 c = Some b -> PortfolioCritic.set_bn2 b c = c.
Proof. destruct c. cbn. now intros ->. Qed.

Lemma set_bn3_same c b : PortfolioCritic.bn3 c = Some b -> PortfolioCritic.set_bn3 b c = c.
Proof. destruct c. cbn. now intros ->. Qed.

(** A normalisation in training mode on a batch that is not a single row. *)
Lemma batch_norm_training t bn :
  training bn = true -> cols t = num_features bn ->
  length (rows t) <> 1 ->
  exists bn' out,
    batch_norm t bn = (bn', Ok out) /\
    cols out = cols t /\ length (rows out) = length (rows t) /\
    num_features bn' = num_features bn /\ training bn' = true /\
    num_batches_tracked bn' = S (num_batches_tracked bn) /\
    bn_weight bn' = bn_weight bn /\ bn_bias bn' = bn_bias bn.
Proof.
  intros Ht Hc Hb. unfold batch_norm.
  rewrite Hc, Nat.eqb_refl, Ht. cbn [negb].
  apply Nat.eqb_neq in Hb. rewrite Hb.
  eexists. eexists. split; [reflexivity|]. cbn.
  rewrite length_map. repeat split.
Qed.

(** A normalisation in evaluation mode. *)
Lemma batch_norm_eval t bn :
  training bn = false -> cols t = num_features bn ->
  exists out,
    batch_norm t bn = (bn, Ok out) /\
    cols out = cols t /\ length (rows out) = length (rows t).
Proof.
  intros Ht Hc. unfold batch_norm.
  rewrite Hc, Nat.eqb_refl, Ht. cbn [negb].
  eexists. split; [reflexivity|]. cbn. now rewrite length_map.
Qed.

(** X10.  With batch normalisation in training mode, a batch of a single
    row is refused: the call raises a ValueError at the first
    normalisation, whatever the weights are. *)
Theorem critic_training_refuses_single_row c s a b1 :
  PortfolioCritic.use_batch_norm c = true ->
  PortfolioCritic.bn1 c = Some b1 -> training b1 = true ->
  num_features b1 = out_features (PortfolioCritic.fcs1 c) ->
  length (rows s) = 1 -> length (rows a) = 1 ->
  cols s + cols a = in_features (PortfolioCritic.fcs1 c) ->
  snd (PortfolioCritic.forward s a c) = Raise ValueError.
Proof.
  intros Hbn E1 Ht Hn Hs Ha Hw.
  unfold PortfolioCritic.forward, bind, get, lift_result.
  rewrite (cat2_same_rows s a) by congruence. rewrite Hbn.
  unfold linear2 at 1. cbn [cols rows]. rewrite Hw, Nat.eqb_refl.
  unfold PortfolioCritic.call_bn at 1. rewrite E1.
  unfold batch_norm. cbn [cols rows].
  rewrite Hn, Nat.eqb_refl, Ht. cbn [negb].
  rewrite length_map, zip_with_length, Hs, Ha. cbn [Nat.min Nat.eqb].
  reflexivity.
Qed.

Lemma critic_training_refuses_single_row_witness :
  snd (PortfolioCritic.forward (ramp 14) (zeros 1 3) critic17) =
  Raise ValueError.
Proof.
  apply (critic_training_refuses_single_row critic17 (ramp 14) (zeros 1 3)
           (nn_BatchNorm1d 256)); reflexivity.
Defined.

(** X11.  With batch normalisation in training mode, a call on batches of
    equal height of two rows or more, of fitting widths, returns one value per
    row; it changes no linear layer, and each of the three normalisations
    has counted one more batch. *)
Theorem critic_training_call_counts_batches c s a b1 b2 b3 :
  critic_shaped c -> PortfolioCritic.use_batch_norm c = true ->
  PortfolioCritic.bn1 c = Some b1 -> PortfolioCritic.bn2 c = Some b2 ->
  PortfolioCritic.bn3 c = Some b3 ->
  training b1 = true -> training b2 = true -> training b3 = true ->
  length (rows s) = length (rows a) -> 2 <= length (rows s) ->
  cols s + cols a = in_features (PortfolioCritic.fcs1 c) ->
  exists c' out b1' b2' b3',
    PortfolioCritic.forward s a c = (c', Ok out) /\
    cols out = 1 /\ length (rows out) = length (rows s) /\
    PortfolioCritic.fcs1 c' = PortfolioCritic.fcs1 c /\
    PortfolioCritic.fc2 c' = PortfolioCritic.fc2 c /\
    PortfolioCritic.fc3 c' = PortfolioCritic.fc3 c /\
    PortfolioCritic.fc4 c' = PortfolioCritic.fc4 c /\
    PortfolioCritic.bn1 c' = Some b1' /\
    PortfolioCritic.bn2 c' = Some b2' /\
    PortfolioCritic.bn3 c' = Some b3' /\
    num_batches_tracked b1' = S (num_batches_tracked b1) /\
    num_batches_tracked b2' = S (num_batches_tracked b2) /\
    num_batches_tracked b3' = S (num_batches_tracked b3).
Proof.
  intros (H12 & H23 & H34 & H4 & W4 & Hbns) Hbn E1 E2 E3 T1 T2' T3'
         Hlen Hb Hw.
  destruct (Hbns Hbn) as (x1 & x2 & x3 & F1 & F2 & F3 & N1 & N2 & N3).
  rewrite E1 in F1. rewrite E2 in F2. rewrite E3 in F3.
  injection F1 as <-. injection F2 as <-. injection F3 as <-.
  unfold PortfolioCritic.forward, bind, get, lift_result.
  rewrite (cat2_same_rows s a Hlen), Hbn.
  unfold linear2 at 1. cbn [cols rows]. rewrite Hw, Nat.eqb_refl.
  unfold PortfolioCritic.call_bn at 1. rewrite E1.
  match goal with
  | |- context [batch_norm ?t b1] =>
      destruct (batch_norm_training t b1 T1)
        as (b1' & o1 & -> & C1 & R1 & _ & _ & K1 & _)
  end.
  { cbn [cols]. congruence. }
  { cbn [rows]. rewrite length_map, zip_with_length. lia. }
  cbn [cols rows] in C1, R1. rewrite length_map, zip_with_length in R1.
  unfold linear2 at 1, relu2 at 1. cbn [cols rows].
  rewrite C1, H12, Nat.eqb_refl.
  unfold PortfolioCritic.call_bn at 1.
  cbn [PortfolioCritic.bn2 PortfolioCritic.set_bn1]. rewrite E2.
  match goal with
  | |- context [batch_norm ?t b2] =>
      destruct (batch_norm_training t b2 T2')
        as (b2' & o2 & -> & C2 & R2 & _ & _ & K2 & _)
  end.
  { unfold relu2. cbn [cols]. congruence. }
  { unfold relu2. cbn [rows]. rewrite !length_map. lia. }
  unfold relu2 in C2, R2. cbn [cols rows] in C2, R2.
  rewrite !length_map in R2.
  unfold linear2 at 1, relu2 at 1. cbn [cols rows].
  rewrite C2, H23, Nat.eqb_refl.
  unfold PortfolioCritic.call_bn at 1.
  cbn [PortfolioCritic.bn3 PortfolioCritic.set_bn2 PortfolioCritic.set_bn1].
  rewrite E3.
  match goal with
  | |- context [batch_norm ?t b3] =>
      destruct (batch_norm_training t b3 T3')
        as (b3' & o3 & -> & C3 & R3 & _ & _ & K3 & _)
  end.
  { unfold relu2. cbn [cols]. congruence. }
  { unfold relu2. cbn [rows]. rewrite !length_map. lia. }
  unfold relu2 in C3, R3. cbn [cols rows] in C3, R3.
  rewrite !length_map in R3.
  unfold linear2, relu2. cbn [cols rows].
  rewrite C3, H34, Nat.eqb_refl.
  eexists. eexists. exists b1', b2', b3'.
  split; [reflexivity|]. cbn.
  rewrite !length_map.
  repeat split; try assumption; lia.
Qed.

Lemma critic17_shaped : critic_shaped critic17.
Proof.
  unfold critic_shaped, critic17. cbn.
  repeat split; try apply (zero_linear_wf 64 1).
  intros _. eexists _, _, _. repeat split.
Qed.

Lemma critic_training_call_counts_batches_witness :
  exists c' out b1' b2' b3',
    PortfolioCritic.forward (ramp2 14) (zeros 2 3) critic17 = (c', Ok out) /\
    cols out = 1 /\ length (rows out) = 2 /\
    PortfolioCritic.bn1 c' = Some b1' /\
    PortfolioCritic.bn2 c' = Some b2' /\
    PortfolioCritic.bn3 c' = Some b3' /\
    num_batches_tracked b1' = 1 /\
    num_batches_tracked b2' = 1 /\
    num_batches_tracked b3' = 1.
Proof.
  destruct (critic_training_call_counts_batches critic17 (ramp2 14)
              (zeros 2 3) (nn_BatchNorm1d 256) (nn_BatchNorm1d 128)
              (nn_BatchNorm1d 64) critic17_shaped)
    as (c' & out & b1' & b2' & b3' & Hf & Hc & Hr & _ & _ & _ & _
        & E1 & E2 & E3 & K1 & K2 & K3).
  - reflexivity.
  - reflexivity.
  - reflexivity.
  - reflexivity.
  - reflexivity.
  - reflexivity.
  - reflexivity.
  - reflexivity.
  - apply le_n.
  - reflexivity.
  - exists c', out, b1', b2', b3'.
    repeat (split; [assumption|]). assumption.
Defined.

(** X12.  With batch normalisation in evaluation mode the critic uses the
    running statistics: a call on batches of equal height, a single row
    included, returns one value per row and leaves the critic exactly as it
    was. *)
Theorem critic_eval_call_changes_nothing c s a b1 b2 b3 :
  critic_shaped c -> PortfolioCritic.use_batch_norm c = true ->
  PortfolioCritic.bn1 c = Some b1 -> PortfolioCritic.bn2 c = Some b2 ->
  PortfolioCritic.bn3 c = Some b3 ->
  training b1 = false -> training b2 = false -> training b3 = false ->
  length (rows s) = length (rows a) ->
  cols s + cols a = in_features (PortfolioCritic.fcs1 c) ->
  exists out,
    PortfolioCritic.forward s a c = (c, Ok out) /\
    cols out = 1 /\ length (rows out) = length (rows s).
Proof.
  intros (H12 & H23 & H34 & H4 & W4 & Hbns) Hbn E1 E2 E3 T1 T2' T3'
         Hlen Hw.
  destruct (Hbns Hbn) as (x1 & x2 & x3 & F1 & F2 & F3 & N1 & N2 & N3).
  rewrite E1 in F1. rewrite E2 in F2. rewrite E3 in F3.
  injection F1 as <-. injection F2 as <-. injection F3 as <-.
  unfold PortfolioCritic.forward, bind, get, lift_result.
  rewrite (cat2_same_rows s a Hlen), Hbn.
  unfold linear2 at 1. cbn [cols rows]. rewrite Hw, Nat.eqb_refl.
  unfold PortfolioCritic.call_bn at 1. rewrite E1.
  match goal with
  | |- context [batch_norm ?t b1] =>
      destruct (batch_norm_eval t b1 T1) as (o1 & -> & C1 & R1)
  end.
  { cbn [cols]. congruence. }
  cbn [cols rows] in C1, R1. rewrite length_map, zip_with_length in R1.
  rewrite (set_bn1_same c b1 E1).
  unfold linear2 at 1, relu2 at 1. cbn [cols rows].
  rewrite C1, H12, Nat.eqb_refl.
  unfold PortfolioCritic.call_bn at 1. rewrite E2.
  match goal with
  | |- context [batch_norm ?t b2] =>
      destruct (batch_norm_eval t b2 T2') as (o2 & -> & C2 & R2)
  end.
  { unfold relu2. cbn [cols]. congruence. }
  unfold relu2 in C2, R2. cbn [cols rows] in C2, R2.
  rewrite !length_map in R2.
  rewrite (set_bn2_same c b2 E2).
  unfold linear2 at 1, relu2 at 1. cbn [cols rows].
  rewrite C2, H23, Nat.eqb_refl.
  unfold PortfolioCritic.call_bn at 1. rewrite E3.
  match goal with
  | |- context [batch_norm ?t b3] =>
      destruct (batch_norm_eval t b3 T3') as (o3 & -> & C3 & R3)
  end.
  { unfold relu2. cbn [cols]. congruence. }
  unfold relu2 in C3, R3. cbn [cols rows] in C3, R3.
  rewrite !length_map in R3.
  rewrite (set_bn3_same c b3 E3).
  unfold linear2, relu2. cbn [cols rows].
  rewrite C3, H34, Nat.eqb_refl.
  eexists. split; [reflexivity|]. cbn.
  rewrite !length_map. split; [assumption | lia].
Qed.

Lemma critic17_eval_shaped : critic_shaped critic17_eval.
Proof.
  unfold critic_shaped, critic17_eval. cbn.
  repeat split; try apply (zero_linear_wf 64 1).
  intros _. eexists _, _, _. repeat split.
Qed.

Lemma critic_eval_call_changes_nothing_witness :
  exists out,
    PortfolioCritic.forward (ramp 14) (zeros 1 3) critic17_eval
    = (critic17_eval, Ok out) /\
    cols out = 1 /\ length (rows out) = 1.
Proof.
  eapply (critic_eval_call_changes_nothing critic17_eval (ramp 14)
            (zeros 1 3)); first [apply critic17_eval_shaped | reflexivity].
Defined.

(** X13.  [PortfolioCritic.__init__] with a seed that fits 64 bits (the
    seeds [torch.manual_seed] accepts) and positive widths returns a critic
    whose four layers form a chain from [state_size + action_size] inputs
    to one value.  With a generator of unit samples the three hidden
    layers have their weights within [1/sqrt(fan_in)] of zero and the
    output layer within [3e-4]; all biases are zero.  The three
    normalisations exist exactly when [use_batch_norm] is set, and they
    start in training mode with no batch counted. *)
Theorem critic_init_shaped ss act seed u1 u2 u3 bn g :
  seed_in_range seed = true ->
  0 < ss + act -> 0 < u1 -> 0 < u2 -> 0 < u3 ->
  unit_samples (reseeded seed g) ->
  exists c g',
    PortfolioCritic.init ss act seed u1 u2 u3 bn g = (g', Ok c) /\
    critic_shaped c /\
    PortfolioCritic.use_batch_norm c = bn /\
    in_features (PortfolioCritic.fcs1 c) = ss + act /\
    out_features (PortfolioCritic.fcs1 c) = u1 /\
    out_features (PortfolioCritic.fc2 c) = u2 /\
    out_features (PortfolioCritic.fc3 c) = u3 /\
    initialised_within (1 / sqrt (INR (ss + act))) (PortfolioCritic.fcs1 c) /\
    initialised_within (1 / sqrt (INR u1)) (PortfolioCritic.fc2 c) /\
    initialised_within (1 / sqrt (INR u2)) (PortfolioCritic.fc3 c) /\
    initialised_within output_bound (PortfolioCritic.fc4 c) /\
    PortfolioCritic.bn1 c =
      (if bn then Some (nn_BatchNorm1d u1) else None) /\
    PortfolioCritic.bn2 c =
      (if bn then Some (nn_BatchNorm1d u2) else None) /\
    PortfolioCritic.bn3 c =
      (if bn then Some (nn_BatchNorm1d u3) else None).
Proof.
  intros Hseed H0 H1 H2 H3 Hu. unfold PortfolioCritic.init.
  unfold bind at 1. rewrite (manual_seed_ok _ _ Hseed). unfold bind.
  pose proof (nn_Linear_samples (ss + act) u1 _ Hu) as Hu1.
  destruct (nn_Linear_ok (ss + act) u1 (reseeded seed g))
    as (d1 & g1 & E1 & Hi1 & Ho1).
  rewrite E1 in *. cbn [fst] in Hu1.
  pose proof (nn_Linear_samples u1 u2 _ Hu1) as Hu2.
  destruct (nn_Linear_ok u1 u2 g1) as (d2 & g2 & E2 & Hi2 & Ho2).
  rewrite E2 in *. cbn [fst] in Hu2.
  pose proof (nn_Linear_samples u2 u3 _ Hu2) as Hu3.
  destruct (nn_Linear_ok u2 u3 g2) as (d3 & g3 & E3 & Hi3 & Ho3).
  rewrite E3 in *. cbn [fst] in Hu3.
  pose proof (nn_Linear_samples u3 1 _ Hu3) as Hu4.
  destruct (nn_Linear_ok u3 1 g3) as (d4 & g4 & E4 & Hi4 & Ho4).
  rewrite E4 in *. cbn [fst] in Hu4.
  destruct (reset_hidden_ok d1 g4 ltac:(lia))
    as (l1 & g5 & -> & Ji1 & Jo1 & W1 & B1).
  destruct (B1 Hu4) as [Hu5 Hb1].
  destruct (reset_hidden_ok d2 g5 ltac:(lia))
    as (l2 & g6 & -> & Ji2 & Jo2 & W2 & B2).
  destruct (B2 Hu5) as [Hu6 Hb2].
  destruct (reset_hidden_ok d3 g6 ltac:(lia))
    as (l3 & g7 & -> & Ji3 & Jo3 & W3 & B3).
  destruct (B3 Hu6) as [Hu7 Hb3].
  destruct (reset_output_ok d4 g7)
    as (l4 & g8 & -> & Ji4 & Jo4 & W4 & B4).
  destruct (B4 Hu7) as [_ Hb4].
  rewrite Hi1 in Hb1. rewrite Hi2 in Hb2. rewrite Hi3 in Hb3.
  eexists. eexists. split; [reflexivity|].
  cbn [PortfolioCritic.fcs1 PortfolioCritic.fc2 PortfolioCritic.fc3
       PortfolioCritic.fc4 PortfolioCritic.bn1 PortfolioCritic.bn2
       PortfolioCritic.bn3 PortfolioCritic.use_batch_norm].
  split.
  { unfold critic_shaped.
    cbn [PortfolioCritic.fcs1 PortfolioCritic.fc2 PortfolioCritic.fc3
         PortfolioCritic.fc4 PortfolioCritic.bn1 PortfolioCritic.bn2
         PortfolioCritic.bn3 PortfolioCritic.use_batch_norm].
    split; [congruence|]. split; [congruence|]. split; [congruence|].
    split; [congruence|]. split; [exact W4|].
    intros ->. eexists _, _, _.
    split; [reflexivity|]. split; [reflexivity|]. split; [reflexivity|].
    cbn [nn_BatchNorm1d num_features].
    split; [congruence|]. split; congruence. }
  split; [reflexivity|]. split; [congruence|]. split; [congruence|].
  split; [congruence|]. split; [congruence|].
  split; [exact Hb1|]. split; [exact Hb2|]. split; [exact Hb3|].
  split; [exact Hb4|]. split; [reflexivity|]. split; reflexivity.
Qed.

Lemma critic_init_shaped_witness :
  exists c g',
    PortfolioCritic.init 14 3 0 256 128 64 true half = (g', Ok c) /\
    critic_shaped c /\
    in_features (PortfolioCritic.fcs1 c) = 17 /\
    initialised_within output_bound (PortfolioCritic.fc4 c) /\
    PortfolioCritic.bn1 c = Some (nn_BatchNorm1d 256).
Proof.
  destruct (critic_init_shaped 14 3 0 256 128 64 true half) as
    (c & g' & H1 & H2 & _ & H3 & _ & _ & _ & _ & _ & _ & H4 & H5 & _);
    try lia.
  - reflexivity.
  - intros i. cbn. lra.
  - exists c, g'. repeat (split; [assumption|]). assumption.
Defined.

(* ===================================================================== *)
(** ** The attention: its layers, its context and what it returns *)
(* ===================================================================== *)

Lemma weight_uniform_within b l g :
  (0 <= b)%R ->
  exists l' g',
    weight_uniform_ (Finite b) l g = (g', Ok l') /\
    in_features l' = in_features l /\ out_features l' = out_features l /\
    wf_linear (bias_fill_0 l') /\
    (unit_samples g ->
     unit_samples g' /\ initialised_within b (bias_fill_0 l')).
Proof.
  intros Hb. unfold weight_uniform_.
  pose proof (sample_matrix_shape (out_features l) (in_features l)
                (- b) b g) as [H1 H2].
  pose proof (sample_matrix_within (out_features l) (in_features l) b g)
    as Hw.
  destruct (sample_matrix _ _ _ _ g) as [w g1]. cbn [fst snd] in *.
  eexists. eexists. split; [reflexivity|]. cbn [in_features out_features].
  split; [reflexivity|]. split; [reflexivity|].
  split.
  { unfold wf_linear, bias_fill_0. cbn. rewrite repeat_length.
    repeat split; assumption. }
  intros Hu. destruct (Hw Hu Hb) as [Hin Hu']. split; [exact Hu'|].
  unfold initialised_within, bias_fill_0. cbn. split; [exact Hin|reflexivity].
Qed.

(** X14.  [initialize_attention_layers] for a positive width [k] installs
    a score projection from [k] values to one and a value projection from
    [k] to [k], and records [k].  Both are drawn anew from the generator:
    they are the same whatever projections the actor had before.  With a
    generator of unit samples their weights lie within [1/sqrt(k)] of zero,
    and their biases are zero. *)
Theorem attention_layers_are_built_from_scratch k self g :
  0 < k ->
  exists a v g',
    fresh_attention k g = (g', Ok (a, v)) /\
    initialize_attention_layers k (self, g) =
      ((with_attention self k a v, g'), Ok tt) /\
    (in_features a = k /\ out_features a = 1) /\
    (in_features v = k /\ out_features v = k) /\
    (wf_linear a /\ wf_linear v) /\
    (unit_samples g ->
     initialised_within (1 / sqrt (INR k)) a /\
     initialised_within (1 / sqrt (INR k)) v).
Proof.
  intros Hk.
  unfold initialize_attention_layers, fresh_attention.
  unfold bind, draw, update. cbn [fst snd].
  pose proof (nn_Linear_samples k 1 g) as Hu1.
  destruct (nn_Linear_ok k 1 g) as (a0 & g1 & E1 & Ha1 & Ha2).
  rewrite E1 in *. cbn [fst snd] in *.
  pose proof (nn_Linear_samples k k g1) as Hu2.
  destruct (nn_Linear_ok k k g1) as (v0 & g2 & E2 & Hv1 & Hv2).
  rewrite E2 in *. cbn [fst snd] in *.
  pose proof (inv_sqrt_nonneg k) as Hnn.
  destruct (inv_sqrt_pos k Hk) as (b & Eb). rewrite Eb in *.
  specialize (Hnn b eq_refl).
  assert (Eb' : b = (1 / sqrt (INR k))%R).
  { unfold inv_sqrt in Eb. destruct (Nat.eqb_spec k 0); [lia|].
    now injection Eb. }
  destruct (weight_uniform_within b a0 g2 Hnn)
    as (a1 & g3 & -> & Hi1 & Ho1 & Hw1 & Hb1).
  cbn [fst snd].
  destruct (weight_uniform_within b v0 g3 Hnn)
    as (v1 & g4 & -> & Hi2 & Ho2 & Hw2 & Hb2).
  cbn [fst snd].
  exists (bias_fill_0 a1), (bias_fill_0 v1), g4.
  split; [reflexivity|].
  split; [destruct self; reflexivity|].
  cbn [bias_fill_0 in_features out_features].
  split; [split; congruence|]. split; [split; congruence|].
  split; [split; assumption|].
  intros Hu. destruct (Hb1 (Hu2 (Hu1 Hu))) as [Hu3 Hin1].
  destruct (Hb2 Hu3) as [_ Hin2].
  rewrite <- Eb'. split; assumption.
Qed.

Lemma attention_layers_are_built_from_scratch_witness :
  exists a v g',
    fresh_attention 2 half = (g', Ok (a, v)) /\
    initialize_attention_layers 2 (actor12 2, half) =
      ((with_attention (actor12 2) 2 a v, g'), Ok tt) /\
    initialised_within (1 / sqrt (INR 2)) a /\
    initialised_within (1 / sqrt (INR 2)) v.
Proof.
  destruct (attention_layers_are_built_from_scratch 2 (actor12 2) half)
    as (a & v & g' & H1 & H2 & _ & _ & _ & H3).
  - lia.
  - exists a, v, g'. split; [exact H1|]. split; [exact H2|].
    apply H3. intros i. cbn. lra.
Defined.

(** A sum of values weighted by non-negative weights lies between the
    bounds of the values, scaled by the sum of the weights. *)
Lemma weighted_between {A} (w x : A -> R) (lo hi : R) (s : list A) :
  (forall c, In c s -> (0 <= w c)%R /\ (lo <= x c <= hi)%R) ->
  (lo * Rsum (map w s) <= Rsum (map (fun c => w c * x c) s)
   <= hi * Rsum (map w s))%R.
Proof.
  induction s as [|c s IH]; intros H; cbn [map].
  - cbn. lra.
  - rewrite !Rsum_cons.
    destruct (H c (or_introl eq_refl)) as [Hw Hx].
    specialize (IH (fun d Hd => H d (or_intror Hd))).
    nra.
Qed.

Lemma softmax_weights_sum {A} (sc : A -> R) (s : list A) :
  s <> [] ->
  Rsum (map (fun c => (exp (sc c) / Rsum (map exp (map sc s)))%R) s) = 1%R.
Proof.
  intros Hne.
  assert (Hpos : (0 < Rsum (map exp (map sc s)))%R).
  { apply Rsum_exp_pos. destruct s; [congruence | discriminate]. }
  rewrite (Rsum_map_div (fun c => exp (sc c))).
  rewrite (map_map sc exp) in *. field. lra.
Qed.

(** The context of one batch element lies, position by position, between
    the bounds of its assets' value vectors. *)
Lemma slab_context_between {A} kv (sc : A -> R) (vf : A -> list R) s lo hi :
  s <> [] ->
  (forall c, In c s ->
             length (vf c) = kv /\ Forall (fun x => (lo <= x <= hi)%R) (vf c)) ->
  Forall (fun x => (lo <= x <= hi)%R)
         (weighted_sum_slab kv (softmax (map sc s)) (map vf s)).
Proof.
  intros Hne Hv. rewrite softmax_map, weighted_sum_slab_maps.
  apply Forall_forall. intros y Hy. apply in_map_iff in Hy.
  destruct Hy as (j & <- & Hj). apply in_seq in Hj.
  set (Z := Rsum (map exp (map sc s))).
  assert (Hpos : (0 < Z)%R).
  { apply Rsum_exp_pos. destruct s; [congruence | discriminate]. }
  assert (Heq :
    map (fun c => nth j (map (Rmult (exp (sc c) / Z)) (vf c)) 0%R) s =
    map (fun c => (exp (sc c) / Z * nth j (vf c) 0)%R) s).
  { apply map_ext_in. intros c Hc. destruct (Hv c Hc) as [Hl _].
    rewrite (nth_indep _ 0%R (exp (sc c) / Z * 0)%R)
      by (rewrite length_map; lia).
    apply (map_nth (Rmult (exp (sc c) / Z))). }
  rewrite Heq.
  pose proof (weighted_between (fun c => (exp (sc c) / Z)%R)
                (fun c => nth j (vf c) 0%R) lo hi s) as Hb.
  pose proof (softmax_weights_sum sc s Hne) as Hone. fold Z in Hone.
  cbv beta in Hb. rewrite Hone, !Rmult_1_r in Hb. apply Hb.
  intros c Hc. destruct (Hv c Hc) as [Hl Hf]. split.
  - apply Rlt_le, Rdiv_lt_0_compat; [apply exp_pos | exact Hpos].
  - rewrite Forall_forall in Hf. apply Hf. apply nth_In. lia.
Qed.

(** X15.  The context vector of lines 198 to 201 is a convex combination
    of the assets' value vectors: whenever every component of every value
    vector of a batch element lies between two bounds, so does every
    component of that element's context. *)
Theorem context_is_a_convex_combination att val assets ctx lo hi :
  wf_linear val ->
  Forall (fun s => s <> []) (slabs assets) ->
  Forall (Forall (fun c => Forall (fun x => (lo <= x <= hi)%R)
                                  (linear_vec val c)))
         (slabs assets) ->
  context_vector att val assets = Ok ctx ->
  cols ctx = out_features val /\
  length (rows ctx) = length (slabs assets) /\
  Forall (Forall (fun x => (lo <= x <= hi)%R)) (rows ctx).
Proof.
  intros Hwf Hne Hb Hctx.
  unfold context_vector, attention_weights, linear3 in Hctx.
  destruct (dim2 assets =? in_features att); [|discriminate].
  cbn [map_result bind_result] in Hctx.
  destruct (dim2 assets =? in_features val); [|discriminate].
  cbn [bind_result] in Hctx. injection Hctx as <-.
  unfold weighted_sum, softmax_dim1, squeeze_last.
  cbn [rows cols slabs dim1 dim2].
  rewrite !map_map.
  rewrite (zip_with_maps (weighted_sum_slab (out_features val))).
  split; [reflexivity|]. split; [apply length_map|].
  apply Forall_forall. intros row Hrow. apply in_map_iff in Hrow.
  destruct Hrow as (s & <- & Hs).
  rewrite Forall_forall in Hne, Hb.
  rewrite map_map.
  apply (slab_context_between (out_features val)
           (fun c => nth 0 (linear_vec att c) 0%R) (linear_vec val)).
  - now apply Hne.
  - intros c Hc. split; [now apply linear_vec_length|].
    specialize (Hb s Hs). rewrite Forall_forall in Hb. now apply Hb.
Qed.

Lemma context_is_a_convex_combination_witness :
  exists ctx,
    context_vector (zero_linear 2 1)
                   (mkLinear 2 2 [[1; 0]; [0; 1]]%R [0; 0]%R)
                   three_assets = Ok ctx /\
    Forall (Forall (fun x => (1 <= x <= 6)%R)) (rows ctx).
Proof.
  eexists. split; [reflexivity|].
  refine (proj2 (proj2 (context_is_a_convex_combination
                          (zero_linear 2 1)
                          (mkLinear 2 2 [[1; 0]; [0; 1]]%R [0; 0]%R)
                          three_assets _ 1 6 _ _ _ eq_refl))).
  - unfold wf_linear. cbn. repeat split. repeat constructor.
  - unfold three_assets. cbn [slabs]. constructor; [discriminate|constructor].
  - unfold three_assets, linear_vec, zip_with, dot, Rsum.
    cbn [slabs weight bias combine map fold_right fst snd].
    repeat match goal with
           | |- Forall _ (_ :: _) => constructor
           | |- Forall _ [] => constructor
           | |- _ /\ _ => split
           end; cbn [map fold_right fst snd]; lra.
Defined.

(* ===================================================================== *)
(** ** The widths of the attention, and when its layers are reused *)
(* ===================================================================== *)

Lemma ceil_unique a c e :
  0 < a -> c <= a * e -> a * e < c + a -> (c + a - 1) / a = e.
Proof.
  intros Ha Hle Hlt. symmetry.
  apply (Nat.div_unique _ _ _ (c + a - 1 - a * e)); lia.
Qed.

Lemma strip_tail_widths self t :
  exists block,
    snd (strip_tail self (Rank2 t)) = Rank2 block /\
    cols block = block_width self (cols t) /\
    match fst (strip_tail self (Rank2 t)) with
    | Some x => exists tl, x = Rank2 tl /\
                           cols tl = tail_width self (cols t) /\
                           length (rows tl) = length (rows t)
    | None => tail_width self (cols t) = 0
    end.
Proof.
  unfold tail_width, block_width, cuts_tail, strip_tail. cbn [size1].
  destruct ((0 <? extra_features self)%Z &&
            (action_size self * features_per_asset self <? cols t)).
  - cbn [fst snd slice_to slice_from]. eexists. split; [reflexivity|].
    cbn [cols rows].
    assert (slice_bound (- extra_features self) (cols t) <= cols t).
    { unfold slice_bound.
      destruct (Z.ltb_spec (- extra_features self) 0); lia. }
    split; [lia|]. eexists. split; [reflexivity|].
    cbn [cols rows]. split; [reflexivity | apply length_map].
  - cbn [fst snd]. exists t. split; [reflexivity|]. split; [reflexivity|].
    lia.
Qed.

Lemma ensure_attention_ready k self g :
  attention_ready k self -> ensure_attention k (self, g) = ((self, g), Ok tt).
Proof.
  intros (a & v & Ea & Ev & Ek & _).
  unfold ensure_attention, bind, self_, stale. cbn [fst snd].
  now rewrite Ea, Ev, Ek, Nat.eqb_refl.
Qed.

(** [apply_attention] on a batch whose asset block is not empty. *)
Lemma apply_attention_rank2 self g t :
  0 < action_size self -> attention_shaped self ->
  0 < block_width self (cols t) ->
  exists self' g' out,
    ensure_attention (per_asset_width self (cols t)) (self, g)
    = ((self', g'), Ok tt) /\
    apply_attention (Rank2 t) (length (rows t)) (self, g)
    = ((self', g'), Ok (Rank2 out)) /\
    cols out = attended_width self (cols t) /\
    length (rows out) = length (rows t) /\
    attention_ready (per_asset_width self (cols t)) self' /\
    same_frame self self'.
Proof.
  intros Ha Hsh Hbw.
  destruct (prepare_rank2 self g t Ha)
    as (block & ees & assets & Hb & Hbl & _ & _ & Hle & Hlt & Hv & Hprep).
  destruct (strip_tail_widths self t) as (block' & Hb' & Hcb & Htail).
  rewrite Hb in Hb'. injection Hb' as <-.
  assert (Hees : per_asset_width self (cols t) = ees).
  { unfold per_asset_width. rewrite <- Hcb. apply ceil_unique; lia. }
  unfold attended_width. rewrite Hees.
  assert (Hk : 0 < ees) by nia.
  destruct (ensure_attention_ok ees self g Hk Hsh)
    as (self' & g' & Hens & Hready & Hfr).
  pose proof Hready
    as (att & val & Ea & Ev & _ & _ & _ & Hia & _ & Hiv & Hov).
  pose proof Hfr as (Hact & _).
  destruct (view3_shape _ _ _ _ _ Hv) as (Hd1 & Hd2 & Hlen).
  destruct (attend_ok att val assets (action_size self) (length (rows t)))
    as (flattened & Hatt & Hcols & Hrows);
    [assumption | assumption | congruence | congruence |].
  exists self', g'.
  unfold apply_attention, bind. rewrite Hprep, Hens.
  cbn [self_ fst snd]. rewrite Ea, Ev, <- Hact.
  unfold lift_result at 1. rewrite Hatt.
  destruct (fst (strip_tail self (Rank2 t))) as [x|].
  - destruct Htail as (tl & -> & Hct & Hrt).
    unfold lift_result, cat1, cat2. rewrite Hrows, Hrt, Nat.eqb_refl.
    cbn [map_result]. eexists. split; [reflexivity|].
    split; [reflexivity|]. cbn [cols rows].
    split; [rewrite Hcols, Hd2, Hov, Hct; lia|].
    split; [rewrite zip_with_length, Hrows, Hrt; lia|].
    split; assumption.
  - unfold ret. eexists. split; [reflexivity|]. split; [reflexivity|].
    split; [rewrite Hcols, Hd2, Hov, Htail; lia|].
    split; [exact Hrows|]. split; assumption.
Qed.

Lemma widths_same a b w :
  action_size a = action_size b ->
  features_per_asset a = features_per_asset b ->
  extra_features a = extra_features b ->
  block_width a w = block_width b w /\
  tail_width a w = tail_width b w /\
  per_asset_width a w = per_asset_width b w /\
  attended_width a w = attended_width b w.
Proof.
  intros H1 H2 H3.
  unfold attended_width, per_asset_width, tail_width, block_width, cuts_tail.
  now rewrite H1, H2, H3.
Qed.

(** X16.  [apply_attention] on a batch of width [w] whose asset block is
    not empty returns, for every row, [action_size] assets of twice the
    width per asset (its own values and the context), followed by the tail
    that was set aside; the width per asset is the block width over
    [action_size], rounded up.  Afterwards the projections fit that width,
    and a further call on any batch of the same width reuses them: neither
    the actor nor the generator changes any more. *)
Theorem attention_output_width self g t :
  0 < action_size self -> attention_shaped self ->
  0 < block_width self (cols t) ->
  exists w out,
    apply_attention (Rank2 t) (length (rows t)) (self, g)
    = (w, Ok (Rank2 out)) /\
    cols out =
      action_size self * (2 * per_asset_width self (cols t))
      + tail_width self (cols t) /\
    length (rows out) = length (rows t) /\
    attention_ready (per_asset_width self (cols t)) (fst w) /\
    forall t',
      cols t' = cols t ->
      exists out',
        apply_attention (Rank2 t') (length (rows t')) w
        = (w, Ok (Rank2 out')) /\
        cols out' = cols out /\
        length (rows out') = length (rows t').
Proof.
  intros Ha Hsh Hbw.
  destruct (apply_attention_rank2 self g t Ha Hsh Hbw)
    as (self' & g' & out & _ & Happ & Hc & Hr & Hready & Hfr).
  exists (self', g'), out. split; [exact Happ|].
  split; [exact Hc|]. split; [exact Hr|]. split; [exact Hready|].
  intros t' Hw.
  destruct Hfr as (F1 & F2 & _ & _ & F5 & _).
  destruct (widths_same self self' (cols t) F1 F2 F5)
    as (W1 & _ & W3 & W4).
  destruct (apply_attention_rank2 self' g' t')
    as (self2 & g2 & out' & Hens & Happ' & Hc' & Hr' & _).
  - congruence.
  - now apply (attention_ready_shaped (per_asset_width self (cols t))).
  - rewrite Hw, <- W1. exact Hbw.
  - rewrite Hw, <- W3 in Hens.
    rewrite (ensure_attention_ready _ _ _ Hready) in Hens.
    injection Hens as <- <-.
    exists out'. split; [exact Happ'|]. split; [|exact Hr'].
    rewrite Hc', Hc, Hw. symmetry. exact W4.
Qed.

Lemma attention_output_width_witness :
  exists w out,
    apply_attention (Rank2 (ramp 50)) 1 (actor14 16, half)
    = (w, Ok (Rank2 out)) /\
    cols out = 98 /\
    forall t',
      cols t' = 50 ->
      exists out',
        apply_attention (Rank2 t') (length (rows t')) w
        = (w, Ok (Rank2 out')) /\
        cols out' = cols out /\
        length (rows out') = length (rows t').
Proof.
  destruct (attention_output_width (actor14 16) half (ramp 50))
    as (w & out & H1 & H2 & _ & _ & H3).
  - cbn. lia.
  - exact I.
  - cbn. lia.
  - exists w, out. split; [exact H1|]. split; [exact H2|]. exact H3.
Defined.

(* ===================================================================== *)
(** ** EnhancedPortfolioActor.forward: what it returns, and when it
       stops changing the actor *)
(* ===================================================================== *)

Lemma touched_done e : AssetEncoder.first_forward_done (touched e) = true.
Proof.
  unfold touched. destruct (AssetEncoder.first_forward_done e) eqn:H;
    [exact H | reflexivity].
Qed.

Lemma touched_of_done e :
  AssetEncoder.first_forward_done e = true -> touched e = e.
Proof. unfold touched. now intros ->. Qed.

Lemma touched_touched e : touched (touched e) = touched e.
Proof. apply touched_of_done, touched_done. Qed.

Lemma encoder_width_touched e n F :
  encoder_width (touched e) n F = encoder_width e n F.
Proof.
  unfold encoder_width.
  now rewrite touched_output_size, touched_features_per_asset.
Qed.

Lemma set_asset_encoder_same self :
  set_asset_encoder (asset_encoder self) self = self.
Proof. now destruct self. Qed.

Lemma same_configuration_widths a b F :
  same_configuration a b ->
  encoder_width (asset_encoder a) (action_size a) F =
  encoder_width (asset_encoder b) (action_size b) F /\
  (forall w, block_width a w = block_width b w) /\
  (forall w, per_asset_width a w = per_asset_width b w) /\
  encoded_width a F = encoded_width b F.
Proof.
  intros (H1 & H2 & H3 & H4 & _ & _ & H7).
  assert (He : encoder_width (asset_encoder a) (action_size a) F =
               encoder_width (asset_encoder b) (action_size b) F).
  { rewrite <- (encoder_width_touched (asset_encoder a)),
      <- (encoder_width_touched (asset_encoder b)), H7, H1.
    reflexivity. }
  split; [exact He|].
  split; [intros w; apply (widths_same a b w H1 H2 H3)|].
  split; [intros w; apply (widths_same a b w H1 H2 H3)|].
  unfold encoded_width. cbv zeta. rewrite He, H4.
  destruct (use_attention b); [|reflexivity].
  apply (widths_same a b _ H1 H2 H3).
Qed.

(** The encoder and the attention on a batch. *)
Lemma encode_rank2 self g t :
  0 < action_size self -> AssetEncoder.shaped (asset_encoder self) ->
  attention_shaped self -> wf2 t -> workable self (cols t) ->
  let m := encoder_width (asset_encoder self) (action_size self) (cols t) in
  exists self1 g1 enc,
    encode (Rank2 t) (self, g) = ((self1, g1), Ok (Rank2 enc)) /\
    cols enc = encoded_width self (cols t) /\
    length (rows enc) = length (rows t) /\
    same_frame (set_asset_encoder (touched (asset_encoder self)) self) self1 /\
    attention_shaped self1 /\
    (use_attention self = true ->
     attention_ready (per_asset_width self m) self1) /\
    (AssetEncoder.first_forward_done (asset_encoder self) = true ->
     (use_attention self = true ->
      attention_ready (per_asset_width self m) self) ->
     self1 = self /\ g1 = g).
Proof.
  intros Ha Hes Hsh Hwf [Hm Hblock] m.
  unfold encode, bind, self_, on_encoder. cbn [fst snd size0].
  rewrite (forward_rank2 _ _ _ Hes Hwf). cbv zeta. cbn [fst snd].
  set (self0 := set_asset_encoder (touched (asset_encoder self)) self).
  match goal with
  | |- context [apply_attention (Rank2 ?x)] => set (mid := x)
  end.
  assert (Hcm : cols mid = m) by reflexivity.
  assert (Hrm : length (rows mid) = length (rows t)).
  { subst mid. cbn [rows pad_right]. now rewrite !length_map. }
  assert (Hsh0 : attention_shaped self0) by exact Hsh.
  assert (Hdone : AssetEncoder.first_forward_done (asset_encoder self) = true
                  -> self0 = self).
  { intros Hd. subst self0. rewrite (touched_of_done _ Hd).
    apply set_asset_encoder_same. }
  unfold encoded_width. cbv zeta. fold m.
  destruct (use_attention self) eqn:Hua.
  - rewrite <- Hrm.
    destruct (widths_same self0 self m eq_refl eq_refl eq_refl)
      as (W1 & _ & W3 & W4).
    destruct (apply_attention_rank2 self0 g mid Ha Hsh0)
      as (self1 & g1 & out & Hens & Happ & Hc & Hr & Hready & Hfr).
    { rewrite Hcm, W1. now apply Hblock. }
    exists self1, g1, out. split; [exact Happ|].
    split; [rewrite Hc, Hcm; exact W4|].
    split; [exact Hr|]. split; [exact Hfr|].
    rewrite Hcm, W3 in Hready, Hens.
    split; [now apply (attention_ready_shaped (per_asset_width self m))|].
    split; [intros _; exact Hready|].
    intros Hd Hrdy. specialize (Hrdy eq_refl).
    rewrite (Hdone Hd) in Hens.
    rewrite (ensure_attention_ready _ _ _ Hrdy) in Hens.
    now injection Hens as <- <-.
  - unfold ret. exists self0, g, mid. split; [reflexivity|].
    split; [exact Hcm|]. split; [exact Hrm|].
    split; [apply same_frame_refl|]. split; [exact Hsh0|].
    split; [discriminate|].
    intros Hd _. split; [now apply Hdone | reflexivity].
Qed.

(** A chain of layers whose first takes the encoded width returns one row
    per row it is given. *)
Lemma trunk_ok_rows self enc l1 n1 l2 n2 l3 :
  trunk_layers self = (Some l1, Some n1, Some l2, Some n2, Some l3) ->
  in_features l1 = cols enc ->
  out_features l1 = normalized_shape n1 ->
  normalized_shape n1 = in_features l2 ->
  out_features l2 = normalized_shape n2 ->
  normalized_shape n2 = in_features l3 ->
  exists out, trunk self (Rank2 enc) = Ok (Rank2 out) /\
              cols out = out_features l3 /\
              length (rows out) = length (rows enc).
Proof.
  unfold trunk_layers. intros H Hi H1 H2 H3 H4.
  injection H as E1 E2 E3 E4 E5.
  unfold trunk. rewrite E1, E2, E3, E4, E5.
  unfold linear at 1, linear2. rewrite Hi, Nat.eqb_refl.
  cbn [map_result bind_result].
  unfold layer_norm at 1. cbn [cols]. rewrite H1, Nat.eqb_refl.
  cbn [bind_result relu_t relu2 cols rows].
  unfold linear at 1, linear2. cbn [cols]. rewrite <- H1, H1, H2, Nat.eqb_refl.
  cbn [map_result bind_result].
  unfold layer_norm at 1. cbn [cols]. rewrite H3, Nat.eqb_refl.
  cbn [bind_result relu_t relu2 cols rows].
  unfold linear, linear2. cbn [cols]. rewrite <- H3, H3, H4, Nat.eqb_refl.
  cbn [map_result]. eexists. split; [reflexivity|].
  cbn [cols rows]. split; [reflexivity|].
  unfold relu2. cbn [rows]. now rewrite !length_map.
Qed.

(** [forward] on a batch the actor can work on. *)
Lemma forward_rank2_spec self g t :
  actor_shaped self -> wf2 t -> workable self (cols t) ->
  exists self2 g2 out,
    forward (Rank2 t) (self, g) = ((self2, g2), Ok (Rank2 out)) /\
    cols out = action_size self /\
    length (rows out) = length (rows t) /\
    actor_shaped self2 /\ same_configuration self self2 /\
    settled_for (cols t) self2 /\
    (settled_for (cols t) self -> self2 = self /\ g2 = g).
Proof.
  intros (Ha & Hu1 & Hu2 & Hes & Hash & Htsh & Hout) Hwf Hwork.
  pose proof Hwork as [Hm Hblock].
  destruct (encode_rank2 self g t Ha Hes Hash Hwf Hwork)
    as (self1 & g1 & enc & Henc & Hcenc & Hrenc & Hfr & Hash1 & Hrdy1
        & Hstable).
  set (m := encoder_width (asset_encoder self) (action_size self) (cols t))
    in *.
  destruct Hfr as (F1 & F2 & F3 & F4 & F5 & F6 & F7 & F8 & F9 & F10 & F11
                   & F12 & F13).
  cbn [set_asset_encoder action_size features_per_asset use_attention
       asset_encoder extra_features fc1 fc2 fc3 ln1 ln2 fc1_units fc2_units
       layers_initialized] in F1, F2, F3, F4, F5, F6, F7, F8, F9, F10, F11,
       F12, F13.
  assert (Hcfg1 : same_configuration self self1).
  { unfold same_configuration. rewrite <- F4, touched_touched.
    repeat split; assumption. }
  assert (Htl : trunk_layers self1 = trunk_layers self)
    by (unfold trunk_layers; congruence).
  assert (Htsh1 : trunk_shaped self1).
  { unfold trunk_shaped in *. rewrite <- F13, Htl. exact Htsh. }
  assert (Hbw : built_width self1 = built_width self).
  { unfold built_width. now rewrite <- F13, <- F6. }
  assert (Hw : 0 < cols enc).
  { rewrite Hcenc. unfold encoded_width. cbv zeta. fold m.
    destruct (use_attention self) eqn:Hua; [|exact Hm].
    specialize (Hblock eq_refl).
    unfold attended_width, per_asset_width.
    assert (1 <= (block_width self m + action_size self - 1)
                 / action_size self).
    { apply Nat.div_le_lower_bound; lia. }
    nia. }
  destruct (same_configuration_widths self self1 (cols t) Hcfg1)
    as (Wm & Wb & Wp & We).
  destruct (built_width_spec self1 (cols enc) Htsh1) as [Hsame Hdiff].
  unfold forward. unfold bind at 1. rewrite Henc.
  unfold bind at 1. cbn [self_ fst snd].
  unfold bind at 1. unfold lift_result at 1. cbn [size1].
  assert (Hdec : built_width self1 = Some (cols enc) \/
                 built_width self1 <> Some (cols enc)).
  { destruct (built_width self1) as [b|]; [|right; discriminate].
    destruct (Nat.eq_dec b (cols enc)) as [->|Hne];
      [left; reflexivity | right; congruence]. }
  destruct Hdec as [Heq | Hne].
  - (* the trunk fits *)
    rewrite (proj1 Hsame Heq).
    unfold bind at 1. unfold ret at 1. unfold bind at 1.
    cbn [self_ fst snd]. unfold lift_result.
    assert (Hinit : layers_initialized self1 = true).
    { unfold built_width in Heq.
      destruct (layers_initialized self1); [reflexivity | discriminate]. }
    destruct (Htsh1 Hinit)
      as (l1 & n1 & l2 & n2 & l3 & Hl & C1 & C2 & C3 & C4).
    pose proof Hl as Hl'. unfold trunk_layers in Hl'.
    injection Hl' as E1 E2 E3 E4 E5.
    assert (Hin : in_features l1 = cols enc).
    { unfold built_width in Heq. rewrite Hinit, E1 in Heq.
      cbn in Heq. congruence. }
    destruct (trunk_ok_rows self1 enc l1 n1 l2 n2 l3 Hl Hin C1 C2 C3 C4)
      as (out & Hout' & Hco & Hro).
    assert (Hout1 : trunk_outputs_actions self1).
    { unfold trunk_outputs_actions. rewrite <- F13, <- F8, <- F1.
      exact Hout. }
    exists self1, g1, out. rewrite Hout'.
    split; [reflexivity|].
    split.
    { rewrite Hco. specialize (Hout1 Hinit). rewrite E5 in Hout1.
      cbn in Hout1. congruence. }
    split; [congruence|].
    split.
    { unfold actor_shaped. rewrite <- F1, <- F11, <- F12, <- F4.
      repeat (split; [first [assumption | now apply touched_shaped]|]).
      exact Hout1. }
    split; [exact Hcfg1|].
    split.
    { unfold settled_for. cbv zeta. rewrite <- Wm, <- We, <- F3.
      fold m. rewrite <- Wp.
      split; [rewrite <- F4; apply touched_done|].
      split; [exact Hrdy1 | congruence]. }
    intros (Hd & Hr & Hb). destruct (Hstable Hd Hr) as [-> ->].
    split; reflexivity.
  - (* the trunk is built *)
    rewrite (proj1 Hdiff Hne).
    destruct (fresh_trunk_ok (cols enc) (fc1_units self1) (fc2_units self1)
                (action_size self1) g1 Hw ltac:(lia) ltac:(lia))
      as (l1 & l2 & l3 & g2 & Hfresh & [Hi1 Ho1] & [Hi2 Ho2] & [Hi3 Ho3]
          & _ & _).
    unfold bind at 1.
    rewrite (initialize_layers_fresh _ _ _ _ _ _ _ Hfresh).
    unfold bind at 1. cbn [self_ fst snd]. unfold lift_result.
    assert (Hl : trunk_layers (installed self1 l1 l2 l3) =
                 (Some l1, Some (nn_LayerNorm (fc1_units self1)),
                  Some l2, Some (nn_LayerNorm (fc2_units self1)), Some l3))
      by reflexivity.
    destruct (trunk_ok_rows (installed self1 l1 l2 l3) enc _ _ _ _ _ Hl)
      as (out & Hout' & Hco & Hro);
      try (cbn [nn_LayerNorm normalized_shape]; congruence).
    assert (Hcfg2 : same_configuration self (installed self1 l1 l2 l3))
      by exact Hcfg1.
    exists (installed self1 l1 l2 l3), g2, out. rewrite Hout'.
    split; [reflexivity|].
    split; [congruence|]. split; [congruence|].
    split.
    { unfold actor_shaped.
      cbn [installed action_size fc1_units fc2_units asset_encoder].
      rewrite <- F1, <- F11, <- F12, <- F4.
      split; [assumption|]. split; [assumption|]. split; [assumption|].
      split; [now apply touched_shaped|].
      split; [exact Hash1|].
      split.
      { intros _. eexists _, _, _, _, _. split; [exact Hl|].
        cbn [nn_LayerNorm normalized_shape].
        repeat split; congruence. }
      unfold trunk_outputs_actions. cbn. intros _. congruence. }
    split; [exact Hcfg2|].
    destruct (same_configuration_widths self (installed self1 l1 l2 l3)
                (cols t) Hcfg2) as (Wm2 & Wb2 & Wp2 & We2).
    split.
    { unfold settled_for. cbv zeta. rewrite <- Wm2, <- We2. fold m.
      rewrite <- Wp2.
      split; [cbn [installed asset_encoder]; rewrite <- F4;
              apply touched_done|].
      split.
      - cbn [installed use_attention]. rewrite <- F3. intros Hua.
        exact (Hrdy1 Hua).
      - unfold built_width. cbn. congruence. }
    intros (Hd & Hr & Hb). destruct (Hstable Hd Hr) as [-> ->].
    exfalso. apply Hne. rewrite Hb. congruence.
Qed.

Lemma workable_same a b F :
  same_configuration a b -> workable a F -> workable b F.
Proof.
  intros Hc [Hm Hb].
  destruct (same_configuration_widths a b F Hc) as (Wm & Wb & _ & _).
  destruct Hc as (_ & _ & _ & Hu & _).
  unfold workable. cbv zeta. rewrite <- Wm, <- Hu.
  split; [exact Hm|]. intros H. rewrite <- Wb. now apply Hb.
Qed.

Lemma actor14_shaped k : actor_shaped (actor14 k).
Proof.
  unfold actor_shaped, actor14.
  cbn [action_size fc1_units fc2_units asset_encoder].
  split; [lia|]. split; [lia|]. split; [lia|].
  split; [apply encoder4_shaped|].
  split; [exact I|].
  split; intros H; discriminate H.
Qed.

(** X17.  [forward] maps a batch of [B] observations to a batch of [B]
    rows with one value per action.  It needs an actor with the shapes the
    constructor establishes, and an observation width for which the
    encoded state and the asset block of the attention are not empty.  The
    call keeps those shapes, writes nothing of the configuration, and
    leaves a trunk built for the encoded width. *)
Theorem forward_returns_one_value_per_action self g t :
  actor_shaped self -> wf2 t -> workable self (cols t) ->
  exists self2 g2 out,
    forward (Rank2 t) (self, g) = ((self2, g2), Ok (Rank2 out)) /\
    cols out = action_size self /\
    length (rows out) = length (rows t) /\
    actor_shaped self2 /\ same_configuration self self2 /\
    built_width self2 = Some (encoded_width self (cols t)).
Proof.
  intros Hsh Hwf Hw.
  destruct (forward_rank2_spec self g t Hsh Hwf Hw)
    as (self2 & g2 & out & Hf & Hc & Hr & Hsh2 & Hcfg & Hset & _).
  exists self2, g2, out.
  repeat (split; [assumption|]).
  destruct Hset as (_ & _ & Hb). rewrite Hb.
  f_equal. symmetry. now apply same_configuration_widths.
Qed.

Lemma forward_returns_one_value_per_action_witness :
  exists self2 g2 out,
    forward (Rank2 (ramp2 14)) (actor14 16, half)
    = ((self2, g2), Ok (Rank2 out)) /\
    cols out = 3 /\ length (rows out) = 2 /\
    built_width self2 = Some 98.
Proof.
  destruct (forward_returns_one_value_per_action (actor14 16) half (ramp2 14))
    as (self2 & g2 & out & H1 & H2 & H3 & _ & _ & H4).
  - apply actor14_shaped.
  - unfold wf2, ramp2. cbn [rows cols].
    repeat constructor; now rewrite length_map, length_seq.
  - unfold workable. cbn. split; [lia|]. intros _. lia.
  - exists self2, g2, out. repeat (split; [assumption|]). exact H4.
Defined.

(** X18.  The layers [forward] builds lazily are built once per width.
    After one call on a batch, a call on any batch of the same width
    changes neither the actor nor the generator, so the weights that
    produced the first answer produce all later ones. *)
Theorem forward_settles self g t :
  actor_shaped self -> wf2 t -> workable self (cols t) ->
  exists w out,
    forward (Rank2 t) (self, g) = (w, Ok (Rank2 out)) /\
    forall t',
      wf2 t' -> cols t' = cols t ->
      exists out',
        forward (Rank2 t') w = (w, Ok (Rank2 out')) /\
        cols out' = action_size self /\
        length (rows out') = length (rows t').
Proof.
  intros Hsh Hwf Hw.
  destruct (forward_rank2_spec self g t Hsh Hwf Hw)
    as (self2 & g2 & out & Hf & Hc & Hr & Hsh2 & Hcfg & Hset & _).
  exists (self2, g2), out. split; [exact Hf|].
  intros t' Hwf' Hcols.
  assert (Hw2 : workable self2 (cols t'))
    by (rewrite Hcols; now apply (workable_same self)).
  destruct (forward_rank2_spec self2 g2 t' Hsh2 Hwf' Hw2)
    as (self3 & g3 & out' & Hf' & Hc' & Hr' & _ & _ & _ & Hstable).
  rewrite Hcols in Hstable. destruct (Hstable Hset) as [-> ->].
  exists out'. split; [exact Hf'|]. split; [|exact Hr'].
  destruct Hcfg as (Ha & _). congruence.
Qed.

Lemma forward_settles_witness :
  exists w out,
    forward (Rank2 (ramp 14)) (actor14 16, half) = (w, Ok (Rank2 out)) /\
    forall t',
      wf2 t' -> cols t' = 14 ->
      exists out',
        forward (Rank2 t') w = (w, Ok (Rank2 out')) /\
        cols out' = 3 /\
        length (rows out') = length (rows t').
Proof.
  destruct (forward_settles (actor14 16) half (ramp 14))
    as (w & out & H1 & H2).
  - apply actor14_shaped.
  - apply ramp_wf.
  - unfold workable. cbn. split; [lia|]. intros _. lia.
  - exists w, out. split; [exact H1|]. exact H2.
Defined.

(** X19.  An actor with the shapes of the constructor answers every batch
    of a sequence, whatever the widths and heights of the batches are, as
    long as each width is one the actor can work on: the layers are
    rebuilt between batches as needed, every call returns one row per
    observation and one value per action, and the shapes hold at the
    end. *)
Theorem every_call_returns_actions ts : forall self g,
  actor_shaped self ->
  Forall (fun t => wf2 t /\ workable self (cols t)) ts ->
  Forall2 (fun t r => exists out,
               r = Ok (Rank2 out) /\ cols out = action_size self /\
               length (rows out) = length (rows t))
          ts (snd (forward_each ts (self, g))) /\
  actor_shaped (fst (fst (forward_each ts (self, g)))).
Proof.
  induction ts as [|t ts IH]; intros self g Hsh Hall.
  - cbn. split; [constructor | exact Hsh].
  - inversion Hall as [|x l [Hwf Hw] Hrest]; subst.
    destruct (forward_rank2_spec self g t Hsh Hwf Hw)
      as (self2 & g2 & out & Hf & Hc & Hr & Hsh2 & Hcfg & _).
    cbn [forward_each]. rewrite Hf.
    assert (Hall2 : Forall (fun t => wf2 t /\ workable self2 (cols t)) ts).
    { eapply Forall_impl; [|exact Hrest]. cbv beta.
      intros u [Hu1 Hu2]. split; [exact Hu1|].
      now apply (workable_same self). }
    destruct (IH self2 g2 Hsh2 Hall2) as [IH1 IH2].
    destruct (forward_each ts (self2, g2)) as [w2 rs]. cbn [fst snd] in *.
    split; [|exact IH2].
    constructor.
    + exists out. repeat split; assumption.
    + destruct Hcfg as (Ha & _). rewrite Ha. exact IH1.
Qed.

Lemma every_call_returns_actions_witness :
  Forall2 (fun t r => exists out,
               r = Ok (Rank2 out) /\ cols out = 3 /\
               length (rows out) = length (rows t))
          [ramp 14; ramp2 14; ramp 20]
          (snd (forward_each [ramp 14; ramp2 14; ramp 20]
                             (actor14 16, half))).
Proof.
  destruct (every_call_returns_actions [ramp 14; ramp2 14; ramp 20]
              (actor14 16) half (actor14_shaped 16)) as [H _].
  - repeat constructor;
      first [ apply ramp_wf
            | (unfold wf2, ramp2; cbn [rows cols];
               repeat constructor; now rewrite length_map, length_seq)
            | (cbn; lia)
            | (intros _; cbn; lia) ].
  - exact H.
Defined.

(** X20.  An actor fresh from [__init__], built with a seed that fits 64
    bits (the seeds [torch.manual_seed] accepts) for states of
    [action_size * features_per_asset + e] values, answers a batch of such
    states with one row per state and one value per action, with or
    without attention and for every tail width [e]. *)
Theorem fresh_actor_answers_its_states
        e act fpa seed u1 u2 es ua eos g t :
  seed_in_range seed = true ->
  0 < act -> 0 < fpa -> 0 < u1 -> 0 < u2 -> 0 < es ->
  wf2 t -> cols t = act * fpa + e ->
  exists self g0 w out,
    init (Z.of_nat (act * fpa + e)) act fpa seed u1 u2 es ua eos g
    = (g0, Ok self) /\
    forward (Rank2 t) (self, g0) = (w, Ok (Rank2 out)) /\
    cols out = act /\ length (rows out) = length (rows t).
Proof.
  intros Hseed Hact Hfpa Hu1 Hu2 Hes Hwf Hcols.
  unfold init. unfold bind at 1. rewrite (manual_seed_ok _ _ Hseed).
  unfold bind.
  destruct (AssetEncoder_init_shaped fpa es seed eos (reseeded seed g)
              Hseed Hfpa) as (enc & g0 & -> & Hs & Hf & Ho & _).
  unfold ret.
  match goal with
  | |- context [(g0, Ok ?s)] => set (self := s)
  end.
  assert (Hout : 0 < AssetEncoder.output_size enc).
  { rewrite Ho. unfold AssetEncoder.or_default.
    destruct eos as [[|k]|]; lia. }
  assert (Hsh : actor_shaped self).
  { unfold actor_shaped. subst self.
    cbn [action_size fc1_units fc2_units asset_encoder].
    repeat (split; [assumption|]).
    split; [exact I|]. split; intros H; discriminate H. }
  assert (Hw : workable self (cols t)).
  { unfold workable, encoder_width, block_width, cuts_tail. cbv zeta.
    subst self.
    cbn [action_size asset_encoder use_attention extra_features
         features_per_asset].
    rewrite Hf, Hcols.
    assert (Hp : 0 < act * AssetEncoder.output_size enc)
      by (apply Nat.mul_pos_pos; lia).
    set (p := act * AssetEncoder.output_size enc) in *.
    replace (Z.of_nat fpa * Z.of_nat act)%Z with (Z.of_nat (act * fpa))
      by lia.
    set (q := act * fpa) in *.
    split; [lia|]. intros _.
    destruct ((0 <? _)%Z && _) eqn:Hcut; [|lia].
    apply andb_prop in Hcut. destruct Hcut as [Hcut _].
    apply Z.ltb_lt in Hcut.
    unfold slice_bound.
    destruct (Z.ltb_spec (- (Z.of_nat (q + e) - Z.of_nat q)) 0); lia. }
  destruct (forward_rank2_spec self g0 t Hsh Hwf Hw)
    as (self2 & g2 & out & Hfw & Hc & Hr & _).
  exists self, g0, (self2, g2), out.
  split; [reflexivity|]. split; [exact Hfw|]. split; [exact Hc | exact Hr].
Qed.

Lemma fresh_actor_answers_its_states_witness :
  exists self g0 w out,
    init 14 3 4 0 256 128 16 true None half = (g0, Ok self) /\
    forward (Rank2 (ramp 14)) (self, g0) = (w, Ok (Rank2 out)) /\
    cols out = 3 /\ length (rows out) = 1.
Proof.
  apply (fresh_actor_answers_its_states 2 3 4 0 256 128 16 true None half
           (ramp 14));
    first [ lia | apply ramp_wf | reflexivity ].
Defined.

(* ===================================================================== *)
(** ** What the attention returns, value by value *)
(* ===================================================================== *)

Lemma context_vector_wf att val assets ctx :
  context_vector att val assets = Ok ctx -> wf2 ctx.
Proof.
  unfold context_vector, attention_weights, linear3.
  destruct (dim2 assets =? in_features att); [|discriminate].
  cbn [map_result bind_result].
  destruct (dim2 assets =? in_features val); [|discriminate].
  cbn [bind_result]. intros H. injection H as <-.
  unfold wf2, weighted_sum. cbn [rows cols dim2].
  apply Forall_forall. intros r Hr. unfold zip_with in Hr.
  apply in_map_iff in Hr. destruct Hr as (p & <- & _).
  unfold weighted_sum_slab. now rewrite length_map, length_seq.
Qed.

Lemma map_zip_with_map {A B C D E} (f : D -> E) (g : B -> C -> D)
      (h : A -> B) l l' :
  map f (zip_with g (map h l) l') =
  zip_with (fun a c => f (g (h a) c)) l l'.
Proof.
  unfold zip_with. revert l'.
  induction l as [|a l IH]; intros [|c l']; cbn; try reflexivity.
  now rewrite IH.
Qed.

(** X21.  On a batch without a tail whose width is [action_size * k],
    [apply_attention] leaves every asset's [k] values as they are and
    appends the context vector of the row to each of them: a row of the
    result is, asset by asset, the asset's own values followed by the
    row's context. *)
Theorem attention_appends_the_context self g t k :
  0 < action_size self -> 0 < k -> attention_shaped self ->
  wf2 t -> cols t = action_size self * k ->
  strip_tail self (Rank2 t) = (None, Rank2 t) ->
  exists w ctx out,
    attention_context (Rank2 t) (length (rows t)) (self, g) = (w, Ok ctx) /\
    apply_attention (Rank2 t) (length (rows t)) (self, g)
    = (w, Ok (Rank2 out)) /\
    wf2 ctx /\ cols ctx = k /\ length (rows ctx) = length (rows t) /\
    cols out = action_size self * (2 * k) /\
    rows out =
      zip_with (fun r c =>
                  concat (map (fun x => x ++ c)
                              (chunks k (action_size self) r)))
               (rows t) (rows ctx).
Proof.
  intros Ha Hk Hsh Hwf Hc Hstrip.
  rewrite (attention_context_rank2 self g t k) by assumption.
  destruct (prepare_rank2 self g t Ha)
    as (block & ees & assets & Hb & _ & _ & _ & Hle & Hlt & Hv & Hprep).
  rewrite Hstrip in Hb, Hprep. cbn [fst snd] in Hb, Hprep.
  injection Hb as <-.
  assert (ees = k) by nia. subst ees.
  rewrite pad_right_same in Hv by exact Hc.
  rewrite view3_rank2 in Hv by assumption. injection Hv as <-.
  destruct (ensure_attention_ok k self g Hk Hsh)
    as (self' & g' & Hens & Hready & Hfr).
  destruct Hready as (att & val & Ea & Ev & _ & _ & _ & Hia & _ & Hiv & Hov).
  destruct Hfr as (Hact & _).
  set (assets := T3 (action_size self) k
                    (map (chunks k (action_size self)) (rows t))) in *.
  destruct (context_vector_ok att val assets)
    as (ctx & Hctx & Hcols & Hrows); [now cbn | now cbn |].
  pose proof (context_vector_wf _ _ _ _ Hctx) as Hcwf.
  assert (Hck : cols ctx = k) by congruence.
  assert (Hrl : length (rows ctx) = length (rows t)).
  { rewrite Hrows. subst assets. cbn [slabs]. apply length_map. }
  exists (self', g'), ctx.
  unfold apply_attention, bind. rewrite Hprep, Hens.
  cbn [self_ fst snd]. rewrite Ea, Ev, <- Hact, Hctx.
  unfold lift_result at 1, attend. rewrite Hctx. cbn [bind_result].
  unfold cat_context. subst assets. cbn [dim1 dim2 slabs].
  erewrite (view2_of_slabs (action_size self) (k + cols ctx)).
  - unfold ret. eexists. split; [reflexivity|]. split; [reflexivity|].
    split; [exact Hcwf|]. split; [exact Hck|]. split; [exact Hrl|].
    cbn [cols rows]. split; [lia|].
    unfold zip_with at 1. rewrite map_map.
    change (map (fun x => concat (map (fun c => c ++ snd x) (fst x)))
                (combine (map (chunks k (action_size self)) (rows t))
                         (rows ctx)))
      with (zip_with (fun s c => concat (map (fun x => x ++ c) s))
                     (map (chunks k (action_size self)) (rows t))
                     (rows ctx)).
    rewrite <- (map_id (zip_with _ (map _ _) _)).
    apply (map_zip_with_map (fun x => x)).
  - rewrite zip_with_length, length_map. lia.
  - lia.
  - apply Forall_forall. intros s Hs. unfold zip_with in Hs.
    apply in_map_iff in Hs. destruct Hs as ([sl c] & <- & Hin).
    cbn [fst snd].
    pose proof (in_combine_l _ _ _ _ Hin) as Hl.
    pose proof (in_combine_r _ _ _ _ Hin) as Hr.
    apply in_map_iff in Hl. destruct Hl as (r & <- & Hrin).
    unfold wf2 in Hwf, Hcwf. rewrite Forall_forall in Hwf, Hcwf.
    rewrite (concat_length_uniform (k + cols ctx)).
    + now rewrite length_map, chunks_length.
    + apply Forall_forall. intros y Hy. apply in_map_iff in Hy.
      destruct Hy as (x & <- & Hx). rewrite length_app, (Hcwf c Hr).
      f_equal.
      pose proof (chunks_each_length k (action_size self) r) as Hch.
      rewrite Forall_forall in Hch. apply Hch; [|exact Hx].
      rewrite (Hwf r Hrin). lia.
Qed.

Lemma attention_appends_the_context_witness :
  exists w ctx out,
    attention_context (Rank2 (T2 6 [[1; 2; 3; 4; 5; 6]%R])) 1
                      (actor12 2, half) = (w, Ok ctx) /\
    apply_attention (Rank2 (T2 6 [[1; 2; 3; 4; 5; 6]%R])) 1
                    (actor12 2, half) = (w, Ok (Rank2 out)) /\
    cols out = 12 /\
    rows out =
      zip_with (fun r c => concat (map (fun x => x ++ c) (chunks 2 3 r)))
               [[1; 2; 3; 4; 5; 6]%R] (rows ctx).
Proof.
  destruct (attention_appends_the_context (actor12 2) half
              (T2 6 [[1; 2; 3; 4; 5; 6]%R]) 2)
    as (w & ctx & out & H1 & H2 & _ & _ & _ & H3 & H4).
  - cbn. lia.
  - lia.
  - exact I.
  - repeat constructor.
  - reflexivity.
  - reflexivity.
  - exists w, ctx, out. repeat (split; [assumption|]). exact H4.
Defined.

(** X22.  An actor with [action_size] 0 and the attention switched on
    cannot be called: the encoder returns the batch, and the division of
    line 176 raises a ZeroDivisionError. *)
Theorem no_actions_no_attention self g t :
  action_size self = 0 -> use_attention self = true ->
  AssetEncoder.shaped (asset_encoder self) -> wf2 t ->
  snd (forward (Rank2 t) (self, g)) = Raise ZeroDivisionError /\
  snd (AssetEncoder.forward (Rank2 t) 0 (asset_encoder self))
  = Ok (Rank2 t).
Proof.
  intros Ha Hu Hs Hwf. split.
  - unfold forward. unfold bind at 1.
    unfold encode, bind, self_, on_encoder. cbn [fst snd size0].
    rewrite (forward_rank2 _ _ _ Hs Hwf). cbv zeta. cbn [fst snd].
    rewrite Hu. unfold apply_attention, bind, prepare, bind, self_.
    cbn [fst snd].
    destruct (strip_tail _ _) as [extra blk].
    unfold lift_result, pad_divisible.
    cbn [set_asset_encoder action_size]. rewrite Ha. reflexivity.
  - rewrite (forward_rank2 _ _ _ Hs Hwf). cbv zeta. cbn [snd].
    cbn [Nat.mul Nat.add]. rewrite Nat.max_0_r, Nat.sub_0_r.
    rewrite (pad_right_same (cols t) t eq_refl).
    rewrite (map_ext _ (fun r => r)) by (intros r; reflexivity).
    rewrite map_id. now destruct t.
Qed.

Lemma no_actions_no_attention_witness :
  snd (forward (Rank2 (ramp 14))
         (mk 0 4 true (encoder4 16) 14 None None None None None None None
             256 128 false None None, half))
  = Raise ZeroDivisionError.
Proof.
  apply (no_actions_no_attention
           (mk 0 4 true (encoder4 16) 14 None None None None None None None
               256 128 false None None) half (ramp 14));
    first [ reflexivity | apply encoder4_shaped | apply ramp_wf ].
Defined.
